(** * AdaptiveCards (nodejs/adaptivecards/src/card-elements.ts)

    A shallow embedding of the object model of [card-elements.ts]: the type
    registries, the polymorphic instantiation procedure
    [createCardObjectInstance] with its fallback protocol, the [parse] /
    [toJSON] overrides of the container classes, [shouldFallback] and the
    validation pass.

    What the embedding tracks of a card object: its class, the properties
    of the [CardObject] schema ([type], [id], [requires]), the fallback
    flag, the own host configuration, the card version, and the child
    collections owned by the container classes (the items of a container,
    the columns of a column set, the inlines of a rich text block, the
    actions of an action collection, the select action, the card of a
    [ShowCardAction]).  Presentation properties (text, url, style, sizes,
    ...), the images of an image set, the facts of a fact set and the
    choices of an input are outside the embedding, and so are the
    validation checks on them.  The event hooks ([onParseElement],
    [onParseAction], [onParseError]) are taken to be unset, which is their
    initial value.

    The recursion of [createCardObjectInstance] through [parse] is bounded
    by a number of nested calls; the entry points take the size of the
    JSON value as the bound, and [OutOfFuel] is the outcome of a bound that
    was too small. *)

From Stdlib Require Import ZArith Lia Ascii String List Bool.
From Stdlib Require Import DecimalString DecimalNat.
From stdpp Require Import base decidable option list strings gmap.

Import ListNotations.
Set Warnings "-register-all".
Local Open Scope string_scope.
Local Open Scope list_scope.

(* ===================================================================== *)
(** ** JSON values and the JavaScript primitives the code applies to them *)
(* ===================================================================== *)

(** A parsed JSON value.  JavaScript's [undefined] is not a JSON value: it
    is the [None] of [option Json].  An object is its member list in
    iteration order; [getMember] reads the first binding of a key. *)
Inductive Json : Type :=
| JNull
| JBool (b : bool)
| JNumber (n : Z)
| JString (s : string)
| JArray (items : list Json)
| JObject (members : list (string * Json)).

Fixpoint assoc {A : Type} (key : string) (l : list (string * A)) : option A :=
  match l with
  | [] => None
  | (k, v) :: rest => if String.eqb k key then Some v else assoc key rest
  end.

(** [json[key]] for a [json] that is not [null] or [undefined]: only
    objects have the members the code asks for. *)
Definition getMember (key : string) (json : Json) : option Json :=
  match json with
  | JObject members => assoc key members
  | _ => None
  end.

(** Truthiness of [value] in [if (value)] and [!value]. *)
Definition truthy (value : option Json) : bool :=
  match value with
  | None => false
  | Some JNull => false
  | Some (JBool b) => b
  | Some (JNumber n) => negb (Z.eqb n 0)
  | Some (JString s) => negb (String.eqb s EmptyString)
  | Some (JArray _) => true
  | Some (JObject _) => true
  end.

(** [typeof value === "object"]: true of objects, arrays and [null]. *)
Definition typeof_object (value : option Json) : bool :=
  match value with
  | Some JNull | Some (JArray _) | Some (JObject _) => true
  | _ => false
  end.

Definition lower_ascii (c : ascii) : ascii :=
  let n := nat_of_ascii c in
  if (65 <=? n)%nat && (n <=? 90)%nat then ascii_of_nat (n + 32) else c.

(** [s.toLowerCase()], on the ASCII letters. *)
Fixpoint toLowerCase (s : string) : string :=
  match s with
  | EmptyString => EmptyString
  | String c rest => String (lower_ascii c) (toLowerCase rest)
  end.

(** [s] between double quotes. *)
Definition quoted (s : string) : string :=
  String (ascii_of_nat 34) s ++ String (ascii_of_nat 34) EmptyString.

Fixpoint json_size (j : Json) : nat :=
  match j with
  | JArray items => S (list_sum (map json_size items))
  | JObject members => S (list_sum (map (fun kv => json_size (snd kv)) members))
  | _ => 1
  end.

Module Utils.

(** Modelled from the spec: [Utils.getStringValue] of utils.ts, which is
    not among the sources.  The instantiation procedure needs "a [type]
    string": the value when it is a string, [undefined] otherwise. *)
Definition getStringValue (value : option Json) : option string :=
  match value with
  | Some (JString s) => Some s
  | _ => None
  end.

(** Modelled from the spec: [Utils.isNullOrEmpty] of utils.ts ("duplicate
    non-empty IDs"): true of [undefined] and of the empty string. *)
Definition isNullOrEmpty (value : option string) : bool :=
  match value with
  | None => true
  | Some s => String.eqb s EmptyString
  end.

End Utils.

(* ===================================================================== *)
(** ** Versions and host capabilities (collaborators of shared.ts) *)
(* ===================================================================== *)

Record Version : Type := MkVersion {
  (** the string the version was read from *)
  label : string;
  major : nat;
  minor : nat;
  isValid : bool
}.

(** The schema version of a registration: a version or ["*"]. *)
Inductive TargetVersion : Type :=
| AnyVersion
| AtVersion (v : Version).

Module Versions.
Definition v1_0 := MkVersion "1.0" 1 0 true.
Definition v1_1 := MkVersion "1.1" 1 1 true.
Definition v1_2 := MkVersion "1.2" 1 2 true.
End Versions.

(** Modelled from the spec: the ordering of versions, "ordering comparison
    (major.minor)" of the version type of shared.ts. *)
Definition version_leb (a b : Version) : bool :=
  (major a <? major b)%nat || ((major a =? major b)%nat && (minor a <=? minor b)%nat).

(** A capability set: capability name and version, in declaration order. *)
Definition HostCapabilities : Type := list (string * Version).

(** Modelled from the spec: [HostCapabilities.areAllMet] of
    host-capabilities.ts, "are all of {required capability: min version}
    met by {host capability: version}?". *)
Definition hasCapability (host : HostCapabilities) (name : string) (v : Version) : bool :=
  match assoc name host with
  | Some hv => version_leb v hv
  | None => false
  end.

Definition areAllMet (required host : HostCapabilities) : bool :=
  forallb (fun nv => hasCapability host (fst nv) (snd nv)) required.

(** The part of a host configuration the object model reads. *)
Record HostConfig : Type := MkHostConfig {
  hostCapabilities : HostCapabilities;
  supportsInteractivity : bool;
  maxActions : nat
}.

(* ===================================================================== *)
(** ** TypeRegistry *)
(* ===================================================================== *)

Module TypeRegistry.
Section Registry.

(** [T] is the type of the instances; a factory is a [() => T]. *)
Context {T : Type}.

Record ITypeRegistration : Type := MkRegistration {
  typeName : string;
  schemaVersion : TargetVersion;
  createInstance : unit -> T
}.

(** The private [_items] array. *)
Definition t : Type := list ITypeRegistration.

Fixpoint findTypeRegistration (items : t) (name : string) : option ITypeRegistration :=
  match items with
  | [] => None
  | item :: rest =>
      if String.eqb (typeName item) name then Some item
      else findTypeRegistration rest name
  end.

Definition clear (items : t) : t := [].

(** [registrationInfo.createInstance = createInstance] on the
    registration [findTypeRegistration] returned: the first one of that
    name, changed where it stands. *)
Fixpoint replaceFactory (items : t) (name : string) (factory : unit -> T) : t :=
  match items with
  | [] => []
  | item :: rest =>
      if String.eqb (typeName item) name
      then MkRegistration (typeName item) (schemaVersion item) factory :: rest
      else item :: replaceFactory rest name factory
  end.

Definition registerType (items : t) (name : string) (factory : unit -> T)
    (version : TargetVersion) : t :=
  match findTypeRegistration items name with
  | Some _ => replaceFactory items name factory
  | None => items ++ [MkRegistration name version factory]
  end.

(** [splice(i, 1)] at the first index whose registration has the name. *)
Fixpoint unregisterType (items : t) (name : string) : t :=
  match items with
  | [] => []
  | item :: rest =>
      if String.eqb (typeName item) name then rest
      else item :: unregisterType rest name
  end.

Definition createInstanceOf (items : t) (name : string) : option T :=
  match findTypeRegistration items name with
  | Some registrationInfo => Some (createInstance registrationInfo tt)
  | None => None
  end.

Definition getItemCount (items : t) : nat := length items.

Definition getItemAt (items : t) (index : nat) : option ITypeRegistration :=
  nth_error items index.

Definition typeNames (items : t) : list string := map typeName items.

(** The factory a name is bound to in a registry. *)
Definition factoryOf (items : t) (name : string) : option (unit -> T) :=
  option_map createInstance (findTypeRegistration items name).

(** The calls a client can make on a registry. *)
Inductive Call : Type :=
| CallRegisterType (name : string) (factory : unit -> T) (version : TargetVersion)
| CallUnregisterType (name : string)
| CallClear.

Definition perform (items : t) (c : Call) : t :=
  match c with
  | CallRegisterType name factory version => registerType items name factory version
  | CallUnregisterType name => unregisterType items name
  | CallClear => clear items
  end.

(** The registry after a sequence of calls on a new one ([_items = []]). *)
Definition after (calls : list Call) : t := fold_left perform calls [].

(** The factory a name is bound to by a sequence of calls, read off the
    calls alone: the one of the last [registerType] of that name, unless
    an [unregisterType] of the name or a [clear] came after it. *)
Fixpoint boundFactory (calls : list Call) (name : string)
    (current : option (unit -> T)) : option (unit -> T) :=
  match calls with
  | [] => current
  | CallRegisterType n factory _ :: rest =>
      boundFactory rest name (if String.eqb n name then Some factory else current)
  | CallUnregisterType n :: rest =>
      boundFactory rest name (if String.eqb n name then None else current)
  | CallClear :: rest => boundFactory rest name None
  end.

End Registry.
Arguments ITypeRegistration : clear implicits.
Arguments t : clear implicits.
Arguments Call : clear implicits.
End TypeRegistry.

(* ===================================================================== *)
(** ** Card objects *)
(* ===================================================================== *)

Module Enums.
(** Modelled from the spec: the error kinds of enums.ts (section 7,
    "Taxonomy"), which is not among the sources. *)
Inductive ValidationError : Type :=
| Hint
| ActionTypeNotAllowed
| CollectionCantBeEmpty
| ElementTypeNotAllowed
| InteractivityNotAllowed
| InvalidPropertyValue
| MissingCardType
| PropertyCantBeNull
| TooManyActions
| UnknownActionType
| UnknownElementType
| UnsupportedCardVersion
| DuplicateId.

#[global] Instance ValidationError_eq_dec : EqDecision ValidationError.
Proof. solve_decision. Defined.
End Enums.

Record IValidationError : Type := MkValidationError {
  error : Enums.ValidationError;
  message : string
}.

(** The concrete classes of card-elements.ts, and [CustomContainer]: a
    [Container] subclass of the host application that overrides
    [getJsonTypeName] and [getForbiddenElementTypes]. *)
Inductive CardClass : Type :=
| Container | Column | ColumnSet | AdaptiveCard | InlineAdaptiveCard
| TextBlock | TextRun | RichTextBlock | FactSet | Image | ImageSet | Media
| ActionSet
| TextInput | ToggleInput | ChoiceSetInput | NumberInput | DateInput | TimeInput
| SubmitAction | OpenUrlAction | ToggleVisibilityAction | HttpAction | ShowCardAction
| CustomContainer (jsonTypeName : string) (forbiddenElementTypes : list string).

(** An entry of a forbidden-type list ([string[]] or [any[]]): a type name,
    or a class (as [InlineAdaptiveCard.getForbiddenActionTypes] returns). *)
Inductive ForbiddenEntry : Type :=
| TypeName (name : string)
| ClassRef (c : CardClass).

Inductive CardObject : Type := MkCardObject {
  cardClass : CardClass;
  (** the value of [CardObject.typeNameProperty] *)
  typeNameValue : option string;
  id : option string;
  requires : HostCapabilities;
  _shouldFallback : bool;
  (** [CardElement._hostConfig] *)
  _hostConfig : option HostConfig;
  (** [AdaptiveCard.version] *)
  version : option Version;
  (** [CardElementContainer._selectAction], and the [selectAction] of
      [Image] and [TextRun] *)
  _selectAction : option CardObject;
  (** [Container._items], [ColumnSet._columns], [RichTextBlock._inlines] *)
  _items : list CardObject;
  (** the [items] of the [ActionCollection] of an [ActionSet] or a
      [ContainerWithActions] *)
  _actionCollection : list CardObject;
  (** [ShowCardAction.card] *)
  card : option CardObject;
  (** [AdaptiveCard._fallbackCard] *)
  _fallbackCard : option CardObject
}.

Definition getJsonTypeName (c : CardClass) : string :=
  match c with
  | Container => "Container"
  | Column => "Column"
  | ColumnSet => "ColumnSet"
  | AdaptiveCard | InlineAdaptiveCard => "AdaptiveCard"
  | TextBlock => "TextBlock"
  | TextRun => "TextRun"
  | RichTextBlock => "RichTextBlock"
  | FactSet => "FactSet"
  | Image => "Image"
  | ImageSet => "ImageSet"
  | Media => "Media"
  | ActionSet => "ActionSet"
  | TextInput => "Input.Text"
  | ToggleInput => "Input.Toggle"
  | ChoiceSetInput => "Input.ChoiceSet"
  | NumberInput => "Input.Number"
  | DateInput => "Input.Date"
  | TimeInput => "Input.Time"
  | SubmitAction => "Action.Submit"
  | OpenUrlAction => "Action.OpenUrl"
  | ToggleVisibilityAction => "Action.ToggleVisibility"
  | HttpAction => "Action.Http"
  | ShowCardAction => "Action.ShowCard"
  | CustomContainer name _ => name
  end.

(** [CardElement.isStandalone], overridden by [TextRun], [Column] and
    [ContainerWithActions]. *)
Definition isStandalone (c : CardClass) : bool :=
  match c with
  | TextRun | Column | AdaptiveCard | InlineAdaptiveCard => false
  | _ => true
  end.

(** [CardElement.isInline], overridden by [TextRun]. *)
Definition isInline (c : CardClass) : bool :=
  match c with
  | TextRun => true
  | _ => false
  end.

(** [CardElement.isInteractive], overridden by [Input] and [ActionSet]. *)
Definition isInteractive (c : CardClass) : bool :=
  match c with
  | TextInput | ToggleInput | ChoiceSetInput | NumberInput | DateInput | TimeInput
  | ActionSet => true
  | _ => false
  end.

Definition isInput (c : CardClass) : bool :=
  match c with
  | TextInput | ToggleInput | ChoiceSetInput | NumberInput | DateInput | TimeInput => true
  | _ => false
  end.

(** [instanceof Container] *)
Definition isContainer (c : CardClass) : bool :=
  match c with
  | Container | Column | AdaptiveCard | InlineAdaptiveCard | CustomContainer _ _ => true
  | _ => false
  end.

(** [instanceof ContainerWithActions] *)
Definition isContainerWithActions (c : CardClass) : bool :=
  match c with
  | AdaptiveCard | InlineAdaptiveCard => true
  | _ => false
  end.

(** [instanceof CardElementContainer] *)
Definition isCardElementContainer (c : CardClass) : bool :=
  isContainer c ||
  match c with
  | ColumnSet | ImageSet => true
  | _ => false
  end.

(** [instanceof Action] *)
Definition isAction (c : CardClass) : bool :=
  match c with
  | SubmitAction | OpenUrlAction | ToggleVisibilityAction | HttpAction | ShowCardAction => true
  | _ => false
  end.

(** Whether the schema of the class holds an [ActionPropertyDefinition]
    named [selectAction]: the selectable containers ([Container] and its
    subclasses, [ColumnSet]), [Image], and [TextRun], which adds back what
    [BaseTextBlock.populateSchema] removes. *)
Definition schemaHasSelectAction (c : CardClass) : bool :=
  isContainer c ||
  match c with
  | ColumnSet | Image | TextRun => true
  | _ => false
  end.

(** [AdaptiveCard.bypassVersionCheck], overridden by [InlineAdaptiveCard]. *)
Definition bypassVersionCheck (c : CardClass) : bool :=
  match c with
  | InlineAdaptiveCard => true
  | _ => false
  end.

(** [CardElement.getForbiddenElementTypes]: [[]] in every class of the
    file. *)
Definition getForbiddenElementTypes (c : CardClass) : list string :=
  match c with
  | CustomContainer _ forbidden => forbidden
  | _ => []
  end.

(** [CardElement.getForbiddenActionTypes], overridden by
    [InlineAdaptiveCard] to return the class [ShowCardAction]. *)
Definition getForbiddenActionTypes (c : CardClass) : list ForbiddenEntry :=
  match c with
  | InlineAdaptiveCard => [ClassRef ShowCardAction]
  | _ => []
  end.

Definition setShouldFallback (value : bool) (o : CardObject) : CardObject :=
  MkCardObject (cardClass o) (typeNameValue o) (id o) (requires o) value (_hostConfig o)
    (version o) (_selectAction o) (_items o) (_actionCollection o) (card o) (_fallbackCard o).

Definition setSchemaValues (typeName id : option string) (requires : HostCapabilities)
    (version : option Version) (o : CardObject) : CardObject :=
  MkCardObject (cardClass o) typeName id requires (_shouldFallback o) (_hostConfig o)
    version (_selectAction o) (_items o) (_actionCollection o) (card o) (_fallbackCard o).

Definition setSelectAction (value : option CardObject) (o : CardObject) : CardObject :=
  MkCardObject (cardClass o) (typeNameValue o) (id o) (requires o) (_shouldFallback o)
    (_hostConfig o) (version o) value (_items o) (_actionCollection o) (card o)
    (_fallbackCard o).

Definition setItems (value : list CardObject) (o : CardObject) : CardObject :=
  MkCardObject (cardClass o) (typeNameValue o) (id o) (requires o) (_shouldFallback o)
    (_hostConfig o) (version o) (_selectAction o) value (_actionCollection o) (card o)
    (_fallbackCard o).

Definition setActions (value : list CardObject) (o : CardObject) : CardObject :=
  MkCardObject (cardClass o) (typeNameValue o) (id o) (requires o) (_shouldFallback o)
    (_hostConfig o) (version o) (_selectAction o) (_items o) value (card o)
    (_fallbackCard o).

Definition setCard (value : option CardObject) (o : CardObject) : CardObject :=
  MkCardObject (cardClass o) (typeNameValue o) (id o) (requires o) (_shouldFallback o)
    (_hostConfig o) (version o) (_selectAction o) (_items o) (_actionCollection o) value
    (_fallbackCard o).

Definition setFallbackCard (value : option CardObject) (o : CardObject) : CardObject :=
  MkCardObject (cardClass o) (typeNameValue o) (id o) (requires o) (_shouldFallback o)
    (_hostConfig o) (version o) (_selectAction o) (_items o) (_actionCollection o) (card o)
    value.

(** [new C()]: the schema values at their defaults (the type name at its
    initial value [getJsonTypeName()]), no children; a [ShowCardAction]
    owns a new [InlineAdaptiveCard]. *)
Definition emptyObject (c : CardClass) : CardObject :=
  MkCardObject c (Some (getJsonTypeName c)) None [] false None None None [] [] None None.

Definition new (c : CardClass) : CardObject :=
  match c with
  | ShowCardAction => setCard (Some (emptyObject InlineAdaptiveCard)) (emptyObject c)
  | _ => emptyObject c
  end.

(** [clear()]: of [Container], and of [ContainerWithActions], which clears
    its action collection too. *)
Definition clear (o : CardObject) : CardObject :=
  if isContainerWithActions (cardClass o) then setActions [] (setItems [] o)
  else setItems [] o.

(* ===================================================================== *)
(** ** The schema properties of a card object *)
(* ===================================================================== *)

Definition isDigit (c : ascii) : bool :=
  let n := nat_of_ascii c in (48 <=? n)%nat && (n <=? 57)%nat.

Fixpoint allDigits (s : string) : bool :=
  match s with
  | EmptyString => true
  | String c rest => isDigit c && allDigits rest
  end.

Definition parseDecimal (s : string) : option nat :=
  if String.eqb s EmptyString then None
  else if allDigits s then option_map Nat.of_uint (NilEmpty.uint_of_string s)
  else None.

Definition printDecimal (n : nat) : string :=
  NilEmpty.string_of_uint (Nat.to_uint n).

Fixpoint splitAtDot (s : string) : option (string * string) :=
  match s with
  | EmptyString => None
  | String c rest =>
      if Ascii.eqb c "."%char then Some (EmptyString, rest)
      else match splitAtDot rest with
           | Some (before, after) => Some (String c before, after)
           | None => None
           end
  end.

Module VersionOps.

(** Modelled from the spec: [Version.parse] of shared.ts
    ("parse-from-string").  A string [major.minor] of decimal numbers is
    a valid version; any other string gives a version that is not valid;
    a value that is not a string gives [undefined]. *)
Definition parseString (s : string) : Version :=
  match splitAtDot s with
  | Some (a, b) =>
      match parseDecimal a, parseDecimal b with
      | Some ma, Some mi => MkVersion s ma mi true
      | _, _ => MkVersion s 0 0 false
      end
  | None => MkVersion s 0 0 false
  end.

Definition parse (value : option Json) : option Version :=
  match value with
  | Some (JString s) => Some (parseString s)
  | _ => None
  end.

(** Modelled from the spec: [Version.toString] of shared.ts:
    [major.minor] for a valid version, otherwise the string it was read
    from. *)
Definition toString (v : Version) : string :=
  if isValid v then printDecimal (major v) ++ "." ++ printDecimal (minor v)
  else label v.

End VersionOps.

Module HostCapabilitiesOps.

(** Modelled from the spec: [HostCapabilities.parse] of
    host-capabilities.ts, for a [requires] value such as
    [{CapX: "1.0"}]: one capability per member whose value is a valid
    version string. *)
Fixpoint parseMembers (members : list (string * Json)) : HostCapabilities :=
  match members with
  | [] => []
  | (name, JString s) :: rest =>
      let v := VersionOps.parseString s in
      if isValid v then (name, v) :: parseMembers rest else parseMembers rest
  | _ :: rest => parseMembers rest
  end.

Definition parse (value : option Json) : HostCapabilities :=
  match value with
  | Some (JObject members) => parseMembers members
  | _ => []
  end.

(** Modelled from the spec: [HostCapabilities.toJSON]; no capability is
    the default value, which is not written. *)
Definition toJSON (caps : HostCapabilities) : option Json :=
  match caps with
  | [] => None
  | _ => Some (JObject (map (fun nv => (fst nv, JString (VersionOps.toString (snd nv)))) caps))
  end.

End HostCapabilitiesOps.

(* ===================================================================== *)
(** ** Parsing: results, the error sink, exceptions *)
(* ===================================================================== *)

(** The caller's [errors: IValidationError[] | undefined]. *)
Definition Sink : Type := option (list IValidationError).

(** How a call ends: it returns, or it throws an [Error]; either way the
    caller's error array holds what was pushed so far.  [OutOfFuel] is the
    embedding's own: the recursion bound was too small for the input. *)
Inductive Outcome (A : Type) : Type :=
| Returned (value : A) (errors : Sink)
| Thrown (message : string) (errors : Sink)
| OutOfFuel.
Arguments Returned {A} value errors.
Arguments Thrown {A} message errors.
Arguments OutOfFuel {A}.

Definition M (A : Type) : Type := Sink -> Outcome A.

Definition ret {A : Type} (a : A) : M A := fun errors => Returned a errors.

Definition bind {A B : Type} (m : M A) (k : A -> M B) : M B :=
  fun errors =>
    match m errors with
    | Returned a errors' => k a errors'
    | Thrown msg errors' => Thrown msg errors'
    | OutOfFuel => OutOfFuel
    end.

Definition throw {A : Type} (msg : string) : M A := fun errors => Thrown msg errors.

Notation "'do' x <- m ; k" := (bind m (fun x => k))
  (at level 10, x name, m at level 100, k at level 200, only parsing).
Notation "'do' ' pat <- m ; k" := (bind m (fun x => match x with pat => k end))
  (at level 10, pat pattern, m at level 100, k at level 200, only parsing).

Definition pushError (e : IValidationError) (errors : Sink) : Sink :=
  match errors with
  | Some l => Some (l ++ [e])
  | None => None
  end.

(** [raiseParseError(error, errors)], with [AdaptiveCard.onParseError]
    unset. *)
Definition raiseParseError (e : IValidationError) : M unit :=
  fun errors => Returned tt (pushError e errors).

(** [for (let x of xs) { this = body(x, this) }] *)
Fixpoint forEach {A S : Type} (xs : list A) (body : A -> S -> M S) (s : S) : M S :=
  match xs with
  | [] => ret s
  | x :: rest => do s' <- body x s; forEach rest body s'
  end.

(** A live element as a callee sees it: the object, and what its
    [hostConfig] and [isDesignMode()] getters resolve to through its own
    fields and its parent chain. *)
Record Ref : Type := MkRef {
  target : CardObject;
  hostConfig : HostConfig;
  isDesignMode : bool
}.

Definition onTarget (f : CardObject -> CardObject) (r : Ref) : Ref :=
  MkRef (f (target r)) (hostConfig r) (isDesignMode r).

Inductive InstanceCreationErrorType : Type :=
| UnknownType
| ForbiddenType.

Definition CreateInstanceCallback : Type := string -> option CardObject.
Definition CreateValidationErrorCallback : Type :=
  string -> InstanceCreationErrorType -> IValidationError.

(** The type of [createCardObjectInstance]: the instance or [undefined],
    and the parent as the call leaves it. *)
Definition Instantiate : Type :=
  option Ref -> option Json -> list string -> bool ->
  CreateInstanceCallback -> CreateValidationErrorCallback ->
  M (option CardObject * option Ref).

(** The statics and module constants the code reads. *)
Record Globals : Type := MkGlobals {
  elementTypeRegistry : TypeRegistry.t CardObject;
  actionTypeRegistry : TypeRegistry.t CardObject;
  defaultHostConfig : HostConfig;
  (** [Versions.latest] of shared.ts *)
  latest : Version
}.

(** [CardObject.shouldFallback] and its override in [AdaptiveCard], on an
    object whose [hostConfig] getter resolves to [hc]. *)
Definition isVersionSupported (G : Globals) (o : CardObject) : bool :=
  if bypassVersionCheck (cardClass o) then true
  else
    let unsupportedVersion :=
      match version o with
      | None => true
      | Some v =>
          negb (isValid v) ||
          (major (latest G) <? major v)%nat ||
          ((major (latest G) =? major v)%nat && (minor (latest G) <? minor v)%nat)
      end in
    negb unsupportedVersion.

Definition CardObject_shouldFallback (hc : HostConfig) (o : CardObject) : bool :=
  _shouldFallback o || negb (areAllMet (requires o) (hostCapabilities hc)).

Definition shouldFallback (G : Globals) (hc : HostConfig) (o : CardObject) : bool :=
  match cardClass o with
  | AdaptiveCard | InlineAdaptiveCard =>
      CardObject_shouldFallback hc o || negb (isVersionSupported G o)
  | _ => CardObject_shouldFallback hc o
  end.

(** The [hostConfig] getter of [CardElement], on an element whose parent's
    getter (or [defaultHostConfig], without a parent) gives [inherited]. *)
Definition CardElement_hostConfig (inherited : HostConfig) (o : CardObject) : HostConfig :=
  match _hostConfig o with
  | Some hc => hc
  | None => inherited
  end.

(* ===================================================================== *)
(** ** createCardObjectInstance and the parse overrides *)
(* ===================================================================== *)

(** The functions below call each other through [createCardObjectInstance]
    only: a [parse] override instantiates the children of its object, and
    the instantiation parses the instance.  They are written here over
    [instantiate], the nested calls of [createCardObjectInstance]; the
    recursion is closed after the section. *)
Module Body.
Section OpenRecursion.

Variable G : Globals.
Variable instantiate : Instantiate.

Definition createActionInstance (parent : option Ref) (json : option Json)
    (forbiddenActionTypes : list string) (allowFallback : bool)
    : M (option CardObject * option Ref) :=
  instantiate parent json forbiddenActionTypes allowFallback
    (fun typeName => TypeRegistry.createInstanceOf (actionTypeRegistry G) typeName)
    (fun typeName errorType =>
       match errorType with
       | UnknownType =>
           MkValidationError Enums.UnknownActionType
             ("Unknown action type: " ++ typeName ++ ". Fallback will be used if present.")
       | ForbiddenType =>
           MkValidationError Enums.ActionTypeNotAllowed
             ("Action type " ++ typeName ++ " is not allowed in this context.")
       end).

Definition createElementInstance (parent : option Ref) (json : option Json)
    (allowFallback : bool) : M (option CardObject * option Ref) :=
  instantiate parent json
    [] (* Forbidden types not supported for elements for now *)
    allowFallback
    (fun typeName => TypeRegistry.createInstanceOf (elementTypeRegistry G) typeName)
    (fun typeName errorType =>
       match errorType with
       | UnknownType =>
           MkValidationError Enums.UnknownElementType
             ("Unknown element type: " ++ typeName ++ ". Fallback will be used if present.")
       | ForbiddenType =>
           MkValidationError Enums.ElementTypeNotAllowed
             ("Element type " ++ typeName ++ " is not allowed in this context.")
       end).

(** The parent of a call that was given one. *)
Definition parentAfter (before : Ref) (after : option Ref) : Ref :=
  match after with
  | Some r => r
  | None => before
  end.

(** [ActionPropertyDefinition.parse(sender, source, errors)] *)
Definition ActionPropertyDefinition_parse (forbiddenActionTypes : list string)
    (name : string) (sender : Ref) (source : Json) : M (option CardObject * Ref) :=
  do '(action, parent) <-
    createActionInstance (Some sender) (getMember name source) forbiddenActionTypes
      (isDesignMode sender);
  ret (action, parentAfter sender parent).

(** Modelled from the spec: [SerializableObject.parse] of
    serialization.ts, "for every property in the type's schema (in
    declaration order), invoke its parse contract", on the tracked
    properties: [type], [id], [requires], the [version] of an
    [AdaptiveCard] (absent, it behaves as its default [Versions.v1_0]),
    and [selectAction] where the schema has it. *)
Definition SerializableObject_parse (this : Ref) (json : Json) : M Ref :=
  let c := cardClass (target this) in
  let parsedVersion :=
    match c with
    | AdaptiveCard =>
        match VersionOps.parse (getMember "version" json) with
        | Some v => Some v
        | None => Some Versions.v1_0
        end
    | _ => version (target this)
    end in
  let this :=
    onTarget (setSchemaValues
                (Utils.getStringValue (getMember "type" json))
                (Utils.getStringValue (getMember "id" json))
                (HostCapabilitiesOps.parse (getMember "requires" json))
                parsedVersion) this in
  if schemaHasSelectAction c then
    do '(action, this) <-
      ActionPropertyDefinition_parse ["Action.ShowCard"] "selectAction" this json;
    ret (onTarget (setSelectAction action) this)
  else ret this.

(** [CardElement.parse]; [raiseParseElementEvent] finds no handler. *)
Definition CardElement_parse (this : Ref) (json : Json) : M Ref :=
  SerializableObject_parse this json.

(** [Action.parse]; [raiseParseActionEvent] finds no handler. *)
Definition Action_parse (this : Ref) (json : Json) : M Ref :=
  SerializableObject_parse this json.

(** [Container.insertItemAt(item, index, forceInsert)];
    [itemHasParent] is [item.parent !== undefined]. *)
Definition insertItemAt (item : CardObject) (itemHasParent : bool) (index : Z)
    (forceInsert : bool) (this : CardObject) : M CardObject :=
  if negb itemHasParent || forceInsert then
    if isStandalone (cardClass item) then
      if (index <? 0)%Z || (Z.of_nat (length (_items this)) <=? index)%Z
      then ret (setItems (_items this ++ [item]) this)
      else ret (setItems (firstn (Z.to_nat index) (_items this) ++
                          item :: skipn (Z.to_nat index) (_items this)) this)
    else
      throw ("Elements of type " ++ getJsonTypeName (cardClass item)
             ++ " cannot be used as standalone elements.")
  else throw "The element already belongs to another container.".

(** [getItemsCollectionPropertyName()], overridden by [AdaptiveCard]. *)
Definition getItemsCollectionPropertyName (c : CardClass) : string :=
  if isContainerWithActions c then "body" else "items".

(** [Container.parse] *)
Definition Container_parse (this : Ref) (json : Json) : M Ref :=
  do this <- CardElement_parse this json;
  let this := onTarget (fun o => setShouldFallback false (clear o)) this in
  match getMember (getItemsCollectionPropertyName (cardClass (target this))) json with
  | Some (JArray jsonItems) =>
      forEach jsonItems
        (fun item this =>
           do '(element, parent) <-
             createElementInstance (Some this) (Some item) (negb (isDesignMode this));
           let this := parentAfter this parent in
           match element with
           | Some element =>
               do o <- insertItemAt element true (-1) true (target this);
               ret (onTarget (fun _ => o) this)
           | None => ret this
           end)
        this
  | _ => ret this
  end.

(** [ActionCollection.addAction(action)]; [attachable] is
    [(!action.parent || action.parent === this._owner) &&
     this.items.indexOf(action) < 0]. *)
Definition ActionCollection_addAction (action : CardObject) (attachable : bool)
    (owner : CardObject) : M CardObject :=
  if attachable then ret (setActions (_actionCollection owner ++ [action]) owner)
  else throw "The action already belongs to another element.".

(** [ActionCollection.parse(json, errors)], on the collection of
    [owner]. *)
Definition ActionCollection_parse (owner : Ref) (json : option Json) : M Ref :=
  let owner := onTarget (setActions []) owner in
  match json with
  | Some (JArray jsonActions) =>
      forEach jsonActions
        (fun jsonAction owner =>
           do '(action, parent) <-
             createActionInstance (Some owner) (Some jsonAction) []
               (negb (isDesignMode owner));
           let owner := parentAfter owner parent in
           match action with
           | Some action =>
               do o <- ActionCollection_addAction action true (target owner);
               ret (onTarget (fun _ => o) owner)
           | None => ret owner
           end)
        owner
  | _ => ret owner
  end.

(** [ContainerWithActions.parse] *)
Definition ContainerWithActions_parse (this : Ref) (json : Json) : M Ref :=
  do this <- Container_parse this json;
  ActionCollection_parse this (getMember "actions" json).

(** [AdaptiveCard.parse] *)
Definition AdaptiveCard_parse (this : Ref) (json : Json) : M Ref :=
  let this := onTarget (setFallbackCard None) this in
  do '(fallbackElement, _) <-
    createElementInstance None (getMember "fallback" json) (negb (isDesignMode this));
  do this <-
    match fallbackElement with
    | Some fallbackElement =>
        do fallbackCard <- insertItemAt fallbackElement false (-1) false (new AdaptiveCard);
        ret (onTarget (setFallbackCard (Some fallbackCard)) this)
    | None => ret this
    end;
  ContainerWithActions_parse this json.

(** [ColumnSet.createColumnInstance(json, errors)] *)
Definition createColumnInstance (this : Ref) (json : option Json)
    : M (option CardObject * option Ref) :=
  instantiate (Some this) json
    [] (* Forbidden types not supported for elements for now *)
    (negb (isDesignMode this))
    (fun typeName =>
       if String.eqb typeName EmptyString || String.eqb typeName "Column"
       then Some (new Column) else None)
    (fun typeName errorType =>
       match errorType with
       | UnknownType =>
           MkValidationError Enums.UnknownElementType
             ("Unknown element type: " ++ typeName ++ ". Fallback will be used if present.")
       | ForbiddenType =>
           MkValidationError Enums.ElementTypeNotAllowed
             ("Element type " ++ typeName ++ " isn't allowed in a ColumnSet.")
       end).

(** [ColumnSet.parse] *)
Definition ColumnSet_parse (this : Ref) (json : Json) : M Ref :=
  do this <- CardElement_parse this json;
  let this := onTarget (setItems []) this in
  match getMember "columns" json with
  | Some (JArray jsonColumns) =>
      forEach jsonColumns
        (fun item this =>
           do '(column, parent) <- createColumnInstance this (Some item);
           let this := parentAfter this parent in
           match column with
           | Some column => ret (onTarget (fun o => setItems (_items o ++ [column]) o) this)
           | None => ret this
           end)
        this
  | _ => ret this
  end.

(** [RichTextBlock.internalAddInline(inline, forceAdd)];
    [inlineParent] tells whether [inline.parent] is [undefined], this
    block or another element. *)
Inductive ParentIs : Type := NoParent | ThisObject | AnotherObject.

Definition internalAddInline (inline : CardObject) (inlineParent : ParentIs)
    (forceAdd : bool) (this : CardObject) : M CardObject :=
  if negb (isInline (cardClass inline)) then
    throw "RichTextBlock.addInline: the specified card element cannot be used as a RichTextBlock inline."
  else
    let doAdd := match inlineParent with NoParent => true | _ => false end || forceAdd in
    if negb doAdd && match inlineParent with ThisObject => false | _ => true end then
      throw "RichTextBlock.addInline: the specified inline already belongs to another RichTextBlock."
    else ret (setItems (_items this ++ [inline]) this).

(** [RichTextBlock.parse] *)
Definition RichTextBlock_parse (this : Ref) (json : Json) : M Ref :=
  do this <- CardElement_parse this json;
  let this := onTarget (setItems []) this in
  match getMember "inlines" json with
  | Some (JArray jsonInlines) =>
      forEach jsonInlines
        (fun jsonInline this =>
           do '(inline, this, inlineParent) <-
             match jsonInline with
             | JString _ => ret (Some (new TextRun), this, NoParent)
             | _ =>
                 do '(inline, parent) <-
                   createElementInstance (Some this) (Some jsonInline)
                     false; (* No fallback for inlines in 1.2 *)
                 ret (inline, parentAfter this parent, ThisObject)
             end;
           match inline with
           | Some inline =>
               do o <- internalAddInline inline inlineParent true (target this);
               ret (onTarget (fun _ => o) this)
           | None => ret this
           end)
        this
  | _ => ret this
  end.

(** [ActionSet.parse] *)
Definition ActionSet_parse (this : Ref) (json : Json) : M Ref :=
  do this <- CardElement_parse this json;
  ActionCollection_parse this (getMember "actions" json).

(** [ShowCardAction.parse]; the card has the parent of the action
    ([ShowCardAction.setParent]), hence its getters. *)
Definition ShowCardAction_parse (this : Ref) (json : Json) : M Ref :=
  do this <- Action_parse this json;
  let jsonCard := getMember "card" json in
  match (if truthy jsonCard then jsonCard else None) with
  | Some j =>
      let c := default (new InlineAdaptiveCard) (card (target this)) in
      do c <- AdaptiveCard_parse (MkRef c (hostConfig this) (isDesignMode this)) j;
      ret (onTarget (setCard (Some (target c))) this)
  | None =>
      do _ <- raiseParseError
                (MkValidationError Enums.PropertyCantBeNull
                   ("An Action.ShowCard must have its " ++ quoted "card"
                    ++ " property set to a valid AdaptiveCard object."));
      ret this
  end.

(** [this.parse(json, errors)], by the class of [this]. *)
Definition parse (this : Ref) (json : Json) : M Ref :=
  match cardClass (target this) with
  | Container | Column | CustomContainer _ _ => Container_parse this json
  | AdaptiveCard | InlineAdaptiveCard => AdaptiveCard_parse this json
  | ColumnSet => ColumnSet_parse this json
  | RichTextBlock => RichTextBlock_parse this json
  | ActionSet => ActionSet_parse this json
  | ShowCardAction => ShowCardAction_parse this json
  | SubmitAction | OpenUrlAction | ToggleVisibilityAction | HttpAction =>
      Action_parse this json
  | _ => CardElement_parse this json
  end.

(** The getters of a new instance whose parent was just set: an element
    has the host configuration of its parent unless it has its own, an
    action always that of its parent; without a parent the instance is
    its own root, and not a card in design mode. *)
Definition instanceRef (parent : option Ref) (result : CardObject) : Ref :=
  let inherited :=
    match parent with
    | Some p => hostConfig p
    | None => defaultHostConfig G
    end in
  MkRef result
    (if isAction (cardClass result) then inherited
     else CardElement_hostConfig inherited result)
    (match parent with
     | Some p => isDesignMode p
     | None => false
     end).

Definition createCardObjectInstance : Instantiate :=
  fun parent json forbiddenTypeNames allowFallback
      createInstanceCallback createValidationErrorCallback =>
  match json with
  | Some j =>
      if truthy json && typeof_object json then
        let typeName := Utils.getStringValue (getMember "type" j) in
        if negb (Utils.isNullOrEmpty typeName) then
          let typeName := default EmptyString typeName in
          if existsb (String.eqb typeName) forbiddenTypeNames then
            do _ <- raiseParseError
                      (createValidationErrorCallback typeName ForbiddenType);
            ret (None, parent)
          else
            do '(result, tryToFallback) <-
              match createInstanceCallback typeName with
              | None =>
                  do _ <- raiseParseError
                            (createValidationErrorCallback typeName UnknownType);
                  ret (None, allowFallback)
              | Some result =>
                  do this <- parse (instanceRef parent result) j;
                  ret (Some (target this),
                       shouldFallback G (hostConfig this) (target this) && allowFallback)
              end;
            if tryToFallback then
              let fallback := getMember "fallback" j in
              let parent :=
                if negb (truthy fallback)
                then option_map (onTarget (setShouldFallback true)) parent
                else parent in
              match fallback with
              | Some (JString s) =>
                  if String.eqb (toLowerCase s) "drop" then ret (None, parent)
                  else ret (result, parent)
              | _ =>
                  if typeof_object fallback then
                    instantiate parent fallback forbiddenTypeNames true
                      createInstanceCallback createValidationErrorCallback
                  else ret (result, parent)
              end
            else ret (result, parent)
        else ret (None, parent)
      else ret (None, parent)
  | None => ret (None, parent)
  end.

End OpenRecursion.
End Body.

(** [createCardObjectInstance], with a bound on the depth of its nested
    calls. *)
Fixpoint createCardObjectInstance (fuel : nat) (G : Globals) : Instantiate :=
  match fuel with
  | O => fun _ _ _ _ _ _ _ => OutOfFuel
  | S fuel' => Body.createCardObjectInstance G (createCardObjectInstance fuel' G)
  end.

(** A nested call is on a value inside the [json] of its caller, so the
    depth of the calls is at most the size of the value. *)
Definition fuelFor (json : option Json) : nat :=
  match json with
  | Some j => json_size j
  | None => 1
  end.

Definition createElementInstance (G : Globals) (parent : option Ref) (json : option Json)
    (allowFallback : bool) : M (option CardObject * option Ref) :=
  Body.createElementInstance G (createCardObjectInstance (fuelFor json) G)
    parent json allowFallback.

Definition createActionInstance (G : Globals) (parent : option Ref) (json : option Json)
    (forbiddenActionTypes : list string) (allowFallback : bool)
    : M (option CardObject * option Ref) :=
  Body.createActionInstance G (createCardObjectInstance (fuelFor json) G)
    parent json forbiddenActionTypes allowFallback.

(** [this.parse(json, errors)] *)
Definition parse (G : Globals) (this : Ref) (json : Json) : M Ref :=
  Body.parse G (createCardObjectInstance (json_size json) G) this json.

(* ===================================================================== *)
(** ** The built-in registries *)
(* ===================================================================== *)

Definition registerClass (name : string) (c : CardClass) (version : TargetVersion)
    (items : TypeRegistry.t CardObject) : TypeRegistry.t CardObject :=
  TypeRegistry.registerType items name (fun _ => new c) version.

Module ElementTypeRegistry.
Definition reset (items : TypeRegistry.t CardObject) : TypeRegistry.t CardObject :=
  registerClass "Input.Toggle" ToggleInput AnyVersion
  (registerClass "Input.ChoiceSet" ChoiceSetInput AnyVersion
  (registerClass "Input.Number" NumberInput AnyVersion
  (registerClass "Input.Time" TimeInput AnyVersion
  (registerClass "Input.Date" DateInput AnyVersion
  (registerClass "Input.Text" TextInput AnyVersion
  (registerClass "ActionSet" ActionSet (AtVersion Versions.v1_2)
  (registerClass "ColumnSet" ColumnSet AnyVersion
  (registerClass "FactSet" FactSet AnyVersion
  (registerClass "Media" Media (AtVersion Versions.v1_1)
  (registerClass "ImageSet" ImageSet AnyVersion
  (registerClass "Image" Image AnyVersion
  (registerClass "TextRun" TextRun (AtVersion Versions.v1_2)
  (registerClass "RichTextBlock" RichTextBlock (AtVersion Versions.v1_2)
  (registerClass "TextBlock" TextBlock AnyVersion
  (registerClass "Container" Container AnyVersion
  (TypeRegistry.clear items)))))))))))))))).
End ElementTypeRegistry.

Module ActionTypeRegistry.
Definition reset (items : TypeRegistry.t CardObject) : TypeRegistry.t CardObject :=
  registerClass "Action.ToggleVisibility" ToggleVisibilityAction (AtVersion Versions.v1_2)
  (registerClass "Action.ShowCard" ShowCardAction AnyVersion
  (registerClass "Action.Submit" SubmitAction AnyVersion
  (registerClass "Action.OpenUrl" OpenUrlAction AnyVersion
  (TypeRegistry.clear items)))).
End ActionTypeRegistry.

(** The statics as the module leaves them when it is loaded: both
    registries as their constructors [reset] them. *)
Definition initialGlobals (hc : HostConfig) (latestVersion : Version) : Globals :=
  MkGlobals (ElementTypeRegistry.reset []) (ActionTypeRegistry.reset []) hc latestVersion.

(* ===================================================================== *)
(** ** The validation pass *)
(* ===================================================================== *)

(** Card objects are compared by reference ([===]) in [ValidationResults].
    In a card tree every object stands at one place, so an object is
    named here by the way to it from the object [validateProperties] is
    called on. *)
Inductive Step : Type :=
| ItemAt (index : nat)
| SelectAction
| ActionAt (index : nat)
| CardOf.

#[global] Instance Step_eq_dec : EqDecision Step.
Proof. solve_decision. Defined.

Definition ObjectRef : Type := list Step.

Record ValidationFailure : Type := MkValidationFailure {
  cardObject : ObjectRef;
  errors : list IValidationError
}.

(** [allIds] is a JavaScript object used as a map from ids to counts
    ([hasOwnProperty], read, write); it is a finite map here. *)
Record ValidationResults : Type := MkValidationResults {
  allIds : gmap string nat;
  failures : list ValidationFailure
}.

Fixpoint addToFailure (failures : list ValidationFailure) (o : ObjectRef)
    (e : IValidationError) : option (list ValidationFailure) :=
  match failures with
  | [] => None
  | f :: rest =>
      if decide (cardObject f = o)
      then Some (MkValidationFailure (cardObject f) (errors f ++ [e]) :: rest)
      else option_map (cons f) (addToFailure rest o e)
  end.

(** [ValidationResults.addFailure(cardObject, error)] *)
Definition addFailure (o : ObjectRef) (e : IValidationError)
    (context : ValidationResults) : ValidationResults :=
  MkValidationResults (allIds context)
    (match addToFailure (failures context) o e with
     | Some updated => updated
     | None => failures context ++ [MkValidationFailure o [e]]
     end).

(** [CardObject.internalValidateProperties(context)] *)
Definition CardObject_internalValidateProperties (this : ObjectRef) (o : CardObject)
    (context : ValidationResults) : ValidationResults :=
  match id o with
  | Some theId =>
      if negb (Utils.isNullOrEmpty (id o)) then
        match allIds context !! theId with
        | Some count =>
            let context :=
              if (count =? 1)%nat then
                addFailure this
                  (MkValidationError Enums.DuplicateId ("Duplicate Id: " ++ theId)) context
              else context in
            MkValidationResults (<[theId := count + 1]> (allIds context)) (failures context)
        | None =>
            MkValidationResults (<[theId := 1]> (allIds context)) (failures context)
        end
      else context
  | None => context
  end.

(** [CardElementContainer.isElementAllowed(element, forbiddenElementTypes)] *)
Definition isElementAllowed (hc : HostConfig) (element : CardObject)
    (forbiddenElementTypes : list string) : bool :=
  if negb (supportsInteractivity hc) && isInteractive (cardClass element) then false
  else negb (existsb (String.eqb (getJsonTypeName (cardClass element))) forbiddenElementTypes).

(** [isActionAllowed(action, forbiddenActionTypes)]: [===] of a type name
    and a list entry, which holds of no entry that is a class. *)
Definition isActionAllowed (action : CardObject) (forbiddenActionTypes : list ForbiddenEntry)
    : bool :=
  negb (existsb (fun forbiddenType =>
                   match forbiddenType with
                   | TypeName name => String.eqb (getJsonTypeName (cardClass action)) name
                   | ClassRef _ => false
                   end) forbiddenActionTypes).

Definition whenb (b : bool) (f : ValidationResults -> ValidationResults)
    (context : ValidationResults) : ValidationResults :=
  if b then f context else context.

Section Indexed.
Context {A S B : Type}.

(** [for (let i = 0; i < xs.length; i++) { s = body(i, xs[i], s) }], from
    index [i] on. *)
Fixpoint forEachIndexed (body : nat -> A -> S -> S) (xs : list A) (i : nat) (s : S) : S :=
  match xs with
  | [] => s
  | x :: rest => forEachIndexed body rest (Datatypes.S i) (body i x s)
  end.

Fixpoint flatMapIndexed (f : nat -> A -> list B) (xs : list A) (i : nat) : list B :=
  match xs with
  | [] => []
  | x :: rest => f i x ++ flatMapIndexed f rest (Datatypes.S i)
  end.

End Indexed.

(** [instanceof ActionSet || instanceof ContainerWithActions]: the classes
    that own an [ActionCollection]. *)
Definition hasActionCollection (c : CardClass) : bool :=
  isContainerWithActions c || match c with ActionSet => true | _ => false end.

(** [internalValidateProperties(context)] by the class of the object:
    every override calls [super] first, so the [CardObject] check comes
    first and the checks of the subclasses follow in the order of the
    class chain.  [hc] is what the [hostConfig] getter of the object
    resolves to.  The checks of properties outside the embedding (the
    style of a container, the column widths, the choices of a choice set,
    the url of an action) are not part of it: they add failures of other
    kinds to their own object and leave [allIds] alone. *)
Fixpoint internalValidateProperties (G : Globals) (hc : HostConfig) (this : ObjectRef)
    (o : CardObject) (context : ValidationResults) {struct o} : ValidationResults :=
  let c := cardClass o in
  (* CardObject *)
  let context := CardObject_internalValidateProperties this o context in
  (* Input *)
  let context :=
    whenb (isInput c && Utils.isNullOrEmpty (id o))
      (addFailure this
         (MkValidationError Enums.PropertyCantBeNull "All inputs must have a unique Id"))
      context in
  (* CardElementContainer *)
  let context :=
    if isCardElementContainer c then
      let context :=
        forEachIndexed
          (fun i item context =>
             let context :=
               whenb (negb (supportsInteractivity hc) && isInteractive (cardClass item))
                 (addFailure this
                    (MkValidationError Enums.InteractivityNotAllowed
                       "Interactivity is not allowed."))
                 context in
             let context :=
               whenb (negb (isElementAllowed hc item (getForbiddenElementTypes c)))
                 (addFailure this
                    (MkValidationError Enums.InteractivityNotAllowed
                       ("Elements of type " ++ getJsonTypeName (cardClass item)
                        ++ " are not allowed in this container.")))
                 context in
             internalValidateProperties G (CardElement_hostConfig hc item)
               (this ++ [ItemAt i]) item context)
          (_items o) 0%nat context in
      match _selectAction o with
      | Some action => internalValidateProperties G hc (this ++ [SelectAction]) action context
      | None => context
      end
    else context in
  (* ActionSet, ContainerWithActions: ActionCollection.validateProperties *)
  let context :=
    if hasActionCollection c then
      let context :=
        whenb (negb (maxActions hc =? 0)%nat
               && (maxActions hc <? length (_actionCollection o))%nat)
          (addFailure this
             (MkValidationError Enums.TooManyActions
                ("A maximum of " ++ printDecimal (maxActions hc) ++ " actions are allowed.")))
          context in
      let context :=
        whenb ((0 <? length (_actionCollection o))%nat && negb (supportsInteractivity hc))
          (addFailure this
             (MkValidationError Enums.InteractivityNotAllowed "Interactivity is not allowed."))
          context in
      forEachIndexed
        (fun i item context =>
           let context :=
             whenb (negb (isActionAllowed item (getForbiddenActionTypes c)))
               (addFailure this
                  (MkValidationError Enums.ActionTypeNotAllowed
                     ("Actions of type " ++ getJsonTypeName (cardClass item)
                      ++ " are not allowe.")))
               context in
           internalValidateProperties G hc (this ++ [ActionAt i]) item context)
        (_actionCollection o) 0%nat context
    else context in
  (* ShowCardAction *)
  let context :=
    match c, card o with
    | ShowCardAction, Some theCard =>
        internalValidateProperties G (CardElement_hostConfig hc theCard)
          (this ++ [CardOf]) theCard context
    | _, _ => context
    end in
  (* AdaptiveCard *)
  match c with
  | AdaptiveCard | InlineAdaptiveCard =>
      let context :=
        whenb (negb (bool_decide (typeNameValue o = Some "AdaptiveCard")))
          (addFailure this
             (MkValidationError Enums.MissingCardType
                ("Invalid or missing card type. Make sure the card's type property is set to "
                 ++ quoted "AdaptiveCard" ++ ".")))
          context in
      match version o with
      | None =>
          if negb (bypassVersionCheck c) then
            addFailure this
              (MkValidationError Enums.PropertyCantBeNull
                 "The version property must be specified.") context
          else context
      | Some v =>
          if negb (isVersionSupported G o) then
            addFailure this
              (MkValidationError Enums.UnsupportedCardVersion
                 ("The specified card version (" ++ VersionOps.toString v
                  ++ ") is not supported. The maximum supported card version is "
                  ++ VersionOps.toString (latest G))) context
          else context
      end
  | _ => context
  end.

(** [validateProperties()] *)
Definition validateProperties (G : Globals) (hc : HostConfig) (o : CardObject)
    : ValidationResults :=
  internalValidateProperties G hc [] o (MkValidationResults ∅ []).

(** The failures of one kind that a report holds, with their objects. *)
Definition failuresOfKind (kind : Enums.ValidationError) (r : ValidationResults)
    : list (ObjectRef * IValidationError) :=
  flat_map (fun f =>
              map (fun e => (cardObject f, e))
                (List.filter (fun e => bool_decide (error e = kind)) (errors f)))
           (failures r).

(* ===================================================================== *)
(** ** toJSON *)
(* ===================================================================== *)

(** Modelled from the spec: [Utils.setProperty] of utils.ts; a value that
    is [undefined] is not written. *)
Definition setProperty (name : string) (value : option Json) : list (string * Json) :=
  match value with
  | Some v => [(name, v)]
  | None => []
  end.

(** Modelled from the spec: [Utils.setArrayProperty] of utils.ts, "nested
    collections serialize as arrays of their items' own toJSON()"; an
    empty collection is not written. *)
Definition setArrayProperty (name : string) (items : list Json) : list (string * Json) :=
  match items with
  | [] => []
  | _ => [(name, JArray items)]
  end.

Definition schemaUrl : string := "http://adaptivecards.io/schemas/adaptive-card.json".

(** [toJSON()] by the class of the object.  The first members are those of
    [SerializableObject.toJSON] (modelled from the spec: "for every schema
    property, invoke its serialize contract", a property at its default
    value is omitted), on the tracked properties; the members after them
    are added by the overrides of [Container], [ColumnSet],
    [RichTextBlock], [ActionSet], [ContainerWithActions] and
    [ShowCardAction]. *)
Fixpoint toJSON (o : CardObject) : Json :=
  let c := cardClass o in
  JObject
    (setProperty "type" (option_map JString (typeNameValue o))
     ++ setProperty "id" (option_map JString (id o))
     ++ setProperty "requires" (HostCapabilitiesOps.toJSON (requires o))
     ++ (if schemaHasSelectAction c
         then setProperty "selectAction" (option_map toJSON (_selectAction o))
         else [])
     ++ match c with
        | AdaptiveCard =>
            setProperty "$schema" (Some (JString schemaUrl))
            ++ setProperty "version"
                 (option_map (fun v => JString (VersionOps.toString v)) (version o))
        | _ => []
        end
     ++ (if isContainer c
         then setArrayProperty (Body.getItemsCollectionPropertyName c) (map toJSON (_items o))
         else [])
     ++ match c with
        | ColumnSet => setArrayProperty "columns" (map toJSON (_items o))
        | RichTextBlock => setArrayProperty "inlines" (map toJSON (_items o))
        | _ => []
        end
     ++ (if isContainerWithActions c || match c with ActionSet => true | _ => false end
         then setProperty "actions"
                (* this._actionCollection.toJSON() *)
                match _actionCollection o with
                | [] => None
                | actions => Some (JArray (map toJSON actions))
                end
         else [])
     ++ match c with
        | ShowCardAction => setProperty "card" (option_map toJSON (card o))
        | _ => []
        end).

(** [ActionCollection.toJSON()]: the array of the actions, [undefined]
    when there is none. *)
Definition ActionCollection_toJSON (items : list CardObject) : option Json :=
  match items with
  | [] => None
  | _ => Some (JArray (map toJSON items))
  end.

(** The objects of a tree in the order in which the validation pass comes
    to them, each with its [id]: an object before the objects it owns, the
    items of a [CardElementContainer] before its select action, these
    before the actions of the action collection, and the card of a
    [ShowCardAction] after the action. *)
Fixpoint visitOrder (this : ObjectRef) (o : CardObject) {struct o}
    : list (ObjectRef * option string) :=
  let c := cardClass o in
  (this, id o)
  :: (if isCardElementContainer c then
        flatMapIndexed (fun i item => visitOrder (this ++ [ItemAt i]) item) (_items o) 0%nat
        ++ match _selectAction o with
           | Some action => visitOrder (this ++ [SelectAction]) action
           | None => []
           end
      else [])
  ++ (if hasActionCollection c then
        flatMapIndexed (fun i item => visitOrder (this ++ [ActionAt i]) item)
          (_actionCollection o) 0%nat
      else [])
  ++ match c, card o with
     | ShowCardAction, Some theCard => visitOrder (this ++ [CardOf]) theCard
     | _, _ => []
     end.

(** How many of the entries of a visit order have the id [s]. *)
Definition occurrences (s : string) (visited : list (ObjectRef * option string)) : nat :=
  length (List.filter (fun v => bool_decide (snd v = Some s)) visited).

(** The entries of a visit order whose non-empty id was met exactly once
    before, each with the failure the pass records for it; [before] are
    the entries already passed. *)
Fixpoint secondOccurrences (before visited : list (ObjectRef * option string))
    : list (ObjectRef * IValidationError) :=
  match visited with
  | [] => []
  | (r, theId) :: rest =>
      match theId with
      | Some s =>
          if negb (String.eqb s EmptyString) && (occurrences s before =? 1)%nat
          then (r, MkValidationError Enums.DuplicateId ("Duplicate Id: " ++ s))
               :: secondOccurrences (before ++ [(r, theId)]) rest
          else secondOccurrences (before ++ [(r, theId)]) rest
      | None => secondOccurrences (before ++ [(r, theId)]) rest
      end
  end.

(* ===================================================================== *)
(** ** Sample inputs *)
(* ===================================================================== *)

Module Sample.

(** A host that declares no capability. *)
Definition hostConfig : HostConfig := MkHostConfig [] true 5.

Definition globals : Globals := initialGlobals hostConfig Versions.v1_2.

(** A [TextBlock] with an id. *)
Definition textBlock (theId : string) : CardObject :=
  setSchemaValues (Some "TextBlock") (Some theId) [] None (new TextBlock).

(** A [Container] of text blocks with the given ids. *)
Definition containerOf (ids : list string) : CardObject :=
  setItems (map textBlock ids) (new Container).

(** A live container to parse children into. *)
Definition parent : Ref := MkRef (new Container) hostConfig false.

(** [{"type": "Foo", "fallback": "drop"}] *)
Definition fooDrop : Json :=
  JObject [("type", JString "Foo"); ("fallback", JString "drop")].

(** [{"type": "Container", "items": [{"type": "TextRun"}]}] *)
Definition containerOfTextRun : Json :=
  JObject [("type", JString "Container");
           ("items", JArray [JObject [("type", JString "TextRun")]])].

(** [{"type": "Image", "fallback": {"type": "TextBlock"}}] *)
Definition imageWithFallback : Json :=
  JObject [("type", JString "Image");
           ("fallback", JObject [("type", JString "TextBlock")])].

(** [{"type": "Foo", "fallback": {"type": "TextBlock"}}] *)
Definition fooWithFallback : Json :=
  JObject [("type", JString "Foo");
           ("fallback", JObject [("type", JString "TextBlock")])].

(** [{"type": "TextBlock", "requires": {"CapX": "1.0"}}] *)
Definition textBlockRequiringCapX : Json :=
  JObject [("type", JString "TextBlock");
           ("requires", JObject [("CapX", JString "1.0")])].

(** [{"type": "Action.ShowCard", "fallback": {"type": "Action.Submit"}}] *)
Definition showCardWithFallback : Json :=
  JObject [("type", JString "Action.ShowCard");
           ("fallback", JObject [("type", JString "Action.Submit")])].

(** [{"type": "Container", "items": [{"type": "Foo"}]}] *)
Definition containerOfFoo : Json :=
  JObject [("type", JString "Container");
           ("items", JArray [JObject [("type", JString "Foo")]])].

(** [{"type": "Container", "id": "c",
      "items": [{"type": "TextBlock", "requires": {"CapX": "1.0"}}]}] *)
Definition containerOfTextBlock : Json :=
  JObject [("type", JString "Container"); ("id", JString "c");
           ("items", JArray [textBlockRequiringCapX])].

(** A card of version 9.0, with no flag and no requirement. *)
Definition cardOfVersion9 : CardObject :=
  setSchemaValues (Some "AdaptiveCard") None [] (Some (MkVersion "9.0" 9 0 true))
    (new AdaptiveCard).

End Sample.

(* ===================================================================== *)
(** ** What the validation pass has recorded *)
(* ===================================================================== *)

(** The failures of one kind in a list of failures, with their objects. *)
Definition flatten (kind : Enums.ValidationError) (fs : list ValidationFailure)
    : list (ObjectRef * IValidationError) :=
  flat_map (fun f =>
              map (fun e => (cardObject f, e))
                (List.filter (fun e => bool_decide (error e = kind)) (errors f))) fs.

(** What [addFailure(r, e)] adds to the failures of a kind. *)
Definition single (kind : Enums.ValidationError) (r : ObjectRef) (e : IValidationError)
    : list (ObjectRef * IValidationError) :=
  if bool_decide (error e = kind) then [(r, e)] else [].

(** What the pass has recorded when it has come to the objects [V]:
    [allIds] counts the non-empty ids met, and the [DuplicateId]
    failures are those of the second occurrences. *)
Record Recorded (V : list (ObjectRef * option string)) (ctx : ValidationResults) : Prop := {
  recorded_ids : forall s, s <> EmptyString ->
    allIds ctx !! s = if (occurrences s V =? 0)%nat then None else Some (occurrences s V);
  recorded_empty : allIds ctx !! EmptyString = None;
  recorded_failures :
    failuresOfKind Enums.DuplicateId ctx ≡ₚ secondOccurrences [] V
}.


(* ===================================================================== *)
(** ** Round trips *)
(* ===================================================================== *)

(** The round-trip law as the specification words it compares JSON values
    up to the order of the members of an object ("deep-equal"). *)
Fixpoint deepEqual (a b : Json) {struct a} : bool :=
  match a, b with
  | JNull, JNull => true
  | JBool x, JBool y => Bool.eqb x y
  | JNumber x, JNumber y => Z.eqb x y
  | JString x, JString y => String.eqb x y
  | JArray xs, JArray ys =>
      (fix each (xs ys : list Json) : bool :=
         match xs, ys with
         | [], [] => true
         | x :: xs', y :: ys' => deepEqual x y && each xs' ys'
         | _, _ => false
         end) xs ys
  | JObject ms, JObject ns =>
      (length ms =? length ns)%nat
      && (fix each (ms : list (string * Json)) : bool :=
            match ms with
            | [] => true
            | (k, v) :: ms' =>
                match assoc k ns with
                | Some v' => deepEqual v v'
                | None => false
                end && each ms'
            end) ms
  | _, _ => false
  end.

(** A member value that reads as the default of its property: [null], an
    empty array, an empty object. *)
Definition isDefaultValue (v : Json) : bool :=
  match v with
  | JNull | JArray [] | JObject [] => true
  | _ => false
  end.

(** "J with all default-valued keys removed", at every depth. *)
Fixpoint withoutDefaults (j : Json) : Json :=
  match j with
  | JArray items => JArray (map withoutDefaults items)
  | JObject members =>
      JObject
        ((fix each (ms : list (string * Json)) : list (string * Json) :=
            match ms with
            | [] => []
            | (k, v) :: ms' =>
                if isDefaultValue v then each ms' else (k, withoutDefaults v) :: each ms'
            end) members)
  | _ => j
  end.

(** No member of the value, at any depth, is [null] or an empty array, and
    no [requires] member is an empty object: what [toJSON] leaves out. *)
Fixpoint omitsDefaults (j : Json) : bool :=
  match j with
  | JNull => false
  | JArray items => forallb omitsDefaults items
  | JObject members =>
      forallb (fun kv =>
                 omitsDefaults (snd kv)
                 && match snd kv with
                    | JArray [] => false
                    | JObject [] => negb (String.eqb (fst kv) "requires")
                    | _ => true
                    end) members
  | _ => true
  end.

(** What [omitsDefaults] asks of a member of an object. *)
Definition memberOK (kv : string * Json) : bool :=
  omitsDefaults (snd kv)
  && match snd kv with
     | JArray [] => false
     | JObject [] => negb (String.eqb (fst kv) "requires")
     | _ => true
     end.

(** The capabilities parsed from the JSON of valid capabilities: the same
    names and numbers, read from the strings that were written. *)
Definition reread (caps : HostCapabilities) : HostCapabilities :=
  map (fun nv => (fst nv,
                  MkVersion (VersionOps.toString (snd nv)) (major (snd nv)) (minor (snd nv))
                    true)) caps.

(** The place of an object in a parsed tree: an element of a collection of
    elements, an action, a column of a [ColumnSet], the card of a
    [ShowCardAction]. *)
Inductive Role : Type := AsElement | AsAction | AsColumn | AsCard.

(** The classes the built-in registries, [createColumnInstance] and
    [ShowCardAction] instantiate in each place. *)
Definition classOfRole (role : Role) (c : CardClass) : bool :=
  match role, c with
  | AsElement, (Container | TextBlock | RichTextBlock | TextRun | Image | ImageSet | Media
               | FactSet | ColumnSet | ActionSet | TextInput | DateInput | TimeInput
               | NumberInput | ChoiceSetInput | ToggleInput) => true
  | AsAction, (OpenUrlAction | SubmitAction | ShowCardAction | ToggleVisibilityAction) => true
  | AsColumn, Column => true
  | AsCard, InlineAdaptiveCard => true
  | _, _ => false
  end.

(** The shape of the objects that parsing with the built-in registries
    builds: every object is of a class of its place and, the card of a
    [ShowCardAction] apart, has the type name of its class; the items of a
    container are standalone elements, those of a [ColumnSet] columns,
    those of a [RichTextBlock] inlines; a select action is an action other
    than [Action.ShowCard]; a [ShowCardAction] has its card; the required
    versions are valid; and an object holds nothing that its class does
    not own. *)
Fixpoint parsedShape (role : Role) (o : CardObject) {struct o} : bool :=
  let c := cardClass o in
  classOfRole role c
  && match role with
     | AsCard => true
     | _ => bool_decide (typeNameValue o = Some (getJsonTypeName c))
     end
  && forallb (fun nv => isValid (snd nv)) (requires o)
  && match _selectAction o with
     | Some action =>
         schemaHasSelectAction c
         && parsedShape AsAction action
         && negb (String.eqb (getJsonTypeName (cardClass action)) "Action.ShowCard")
     | None => true
     end
  && (if isContainer c then
        forallb (fun item => parsedShape AsElement item && isStandalone (cardClass item))
          (_items o)
      else
        match c with
        | ColumnSet => forallb (parsedShape AsColumn) (_items o)
        | RichTextBlock =>
            forallb (fun item => parsedShape AsElement item && isInline (cardClass item))
              (_items o)
        | _ => match _items o with [] => true | _ => false end
        end)
  && (if hasActionCollection c then forallb (parsedShape AsAction) (_actionCollection o)
      else match _actionCollection o with [] => true | _ => false end)
  && match c, card o with
     | ShowCardAction, Some theCard => parsedShape AsCard theCard
     | ShowCardAction, None => false
     | _, Some _ => false
     | _, None => true
     end.

(** What a call may have done to the parent it was given: nothing, or
    [parent.setShouldFallback(true)]. *)
Definition FlagOnly (before after : option Ref) : Prop :=
  after = before \/ after = option_map (onTarget (setShouldFallback true)) before.

(** An instance callback of the built-in kind for a place: for a type
    name it knows it returns a new object of a class of the place, whose
    type name it is. *)
Definition BuiltInCallback (role : Role) (cb : CreateInstanceCallback) : Prop :=
  forall name obj,
    name <> EmptyString -> cb name = Some obj ->
    exists c, obj = new c /\ getJsonTypeName c = name /\ classOfRole role c = true.

(** A registry all of whose factories are of the built-in kind for a
    place. *)
Definition BuiltInRegistry (role : Role) (items : TypeRegistry.t CardObject) : Prop :=
  Forall (fun registration =>
            exists c, TypeRegistry.createInstance registration tt = new c
                      /\ getJsonTypeName c = TypeRegistry.typeName registration
                      /\ classOfRole role c = true) items.

(** What the objects that an instantiation returns look like. *)
Definition BuildsParsedShapes (instantiate : Instantiate) : Prop :=
  forall role parent json forbiddenTypeNames allowFallback cb ecb errors result parent' errors',
    role <> AsCard ->
    BuiltInCallback role cb ->
    instantiate parent json forbiddenTypeNames allowFallback cb ecb errors
      = Returned (result, parent') errors' ->
    FlagOnly parent parent'
    /\ forall o, result = Some o ->
         parsedShape role o = true
         /\ existsb (String.eqb (getJsonTypeName (cardClass o))) forbiddenTypeNames = false.

(** A live object before and after a call that may have set its fallback
    flag. *)
Inductive SameButFlag (before : Ref) : Ref -> Prop :=
| same_unchanged : SameButFlag before before
| same_flagged : SameButFlag before (onTarget (setShouldFallback true) before).

(** What a [parse] keeps of the object it fills. *)
Definition Kept (role : Role) (this this' : Ref) : Prop :=
  parsedShape role (target this') = true
  /\ cardClass (target this') = cardClass (target this)
  /\ hostConfig this' = hostConfig this
  /\ isDesignMode this' = isDesignMode this.


(** Two objects with the same class whose own members [toJSON] writes
    alike: the type name and the id are the same, and the required
    capabilities, the select action, the items, the actions and the card
    serialize to the same values.  The fallback flag, the host
    configuration and the fallback card, which [toJSON] does not write,
    may differ. *)
Record Alike (a b : CardObject) : Prop := MkAlike {
  alike_class : cardClass a = cardClass b;
  alike_type : typeNameValue a = typeNameValue b;
  alike_id : id a = id b;
  alike_requires :
    HostCapabilitiesOps.toJSON (requires a) = HostCapabilitiesOps.toJSON (requires b);
  alike_selectAction :
    option_map toJSON (_selectAction a) = option_map toJSON (_selectAction b);
  alike_items : map toJSON (_items a) = map toJSON (_items b);
  alike_actions : map toJSON (_actionCollection a) = map toJSON (_actionCollection b);
  alike_card : option_map toJSON (card a) = option_map toJSON (card b)
}.

(** An instantiation that, given the JSON that [toJSON] wrote for [o],
    returns an object alike [o] and reports no error. *)
Definition Reinstantiates (instantiate : Instantiate) (o : CardObject) : Prop :=
  forall parent forbiddenTypeNames allowFallback cb ecb errors,
    cb (getJsonTypeName (cardClass o)) = Some (new (cardClass o)) ->
    existsb (String.eqb (getJsonTypeName (cardClass o))) forbiddenTypeNames = false ->
    exists o' parent',
      instantiate parent (Some (toJSON o)) forbiddenTypeNames allowFallback cb ecb errors
      = Returned (Some o', parent') errors
      /\ Alike o' o /\ FlagOnly parent parent'.

(* ===================================================================== *)
(** ** The item collection of a container *)
(* ===================================================================== *)

(** The arrays of the code hold references, and [Array.indexOf] compares
    by reference.  An element stands at one place of one collection at
    most, so a reference is given here by the place where the element
    stands in the [_items] of the container: [Some i] when it is
    [_items[i]], [None] when it is not among the items. *)
Module ContainerOps.

(** [this._items.indexOf(element)] *)
Definition indexOf (place : option nat) : Z :=
  match place with
  | Some i => Z.of_nat i
  | None => (-1)%Z
  end.

(** [Container.addItem(item)] *)
Definition addItem (item : CardObject) (itemHasParent : bool) (this : CardObject)
    : M CardObject :=
  Body.insertItemAt item itemHasParent (-1) false this.

(** [Container.insertItemBefore(item, insertBefore)] *)
Definition insertItemBefore (item : CardObject) (itemHasParent : bool)
    (insertBefore : option nat) (this : CardObject) : M CardObject :=
  Body.insertItemAt item itemHasParent (indexOf insertBefore) false this.

(** [Container.insertItemAfter(item, insertAfter)] *)
Definition insertItemAfter (item : CardObject) (itemHasParent : bool)
    (insertAfter : option nat) (this : CardObject) : M CardObject :=
  Body.insertItemAt item itemHasParent (indexOf insertAfter + 1) false this.

(** [Container.removeItem(item)]: [splice(itemIndex, 1)] when the item is
    found, with the result of the call. *)
Definition removeItem (item : option nat) (this : CardObject) : bool * CardObject :=
  match item with
  | Some itemIndex =>
      (true,
       setItems (firstn itemIndex (_items this) ++ skipn (S itemIndex) (_items this)) this)
  | None => (false, this)
  end.

End ContainerOps.

(* ===================================================================== *)
(** ** Looking objects up in a tree *)
(* ===================================================================== *)

(** [for (let x of xs) { result = f(x); if (result) break; }] *)
Definition firstFound {A B : Type} (f : A -> option B) : list A -> option B :=
  fix loop (xs : list A) : option B :=
    match xs with
    | [] => None
    | x :: rest =>
        match f x with
        | Some found => Some found
        | None => loop rest
        end
    end.

(** [getElementById(id)]: of [CardElement], and its override in
    [CardElementContainer], which goes through [getItemAt(i)] for
    [i < getItemCount()]: the items of a container, the columns of a
    column set, the images of an image set. *)
Fixpoint getElementById (theId : string) (o : CardObject) {struct o} : option CardObject :=
  (* CardElement.getElementById *)
  let result := if bool_decide (id o = Some theId) then Some o else None in
  if isCardElementContainer (cardClass o) then
    match result with
    | Some _ => result
    | None => firstFound (getElementById theId) (_items o)
    end
  else result.

(** The element itself and the elements under it through the item
    collections, in document order. *)
Fixpoint itemTree (o : CardObject) {struct o} : list CardObject :=
  o :: (if isCardElementContainer (cardClass o) then flat_map itemTree (_items o) else []).

(** [getAllInputs()]: of [CardElement] ([[]]), [Input] ([[this]]),
    [CardElementContainer] (those of the items), [ContainerWithActions]
    (and then those of the action collection), [ActionSet] (those of the
    action collection), [Action] ([[]]) and [ShowCardAction] (those of the
    card). *)
Fixpoint getAllInputs (o : CardObject) {struct o} : list CardObject :=
  let c := cardClass o in
  if isAction c then
    match c, card o with
    | ShowCardAction, Some theCard => getAllInputs theCard
    | _, _ => []
    end
  else if isInput c then [o]
  else if isCardElementContainer c then
    flat_map getAllInputs (_items o)
    ++ (if isContainerWithActions c then flat_map getAllInputs (_actionCollection o) else [])
  else
    match c with
    | ActionSet => flat_map getAllInputs (_actionCollection o)
    | _ => []
    end.

(** The key of [result[input.id]]: an [undefined] id is the key
    ["undefined"]. *)
Definition inputKey (input : CardObject) : string := default "undefined" (id input).

(** [SubmitAction.internalGetReferencedInputs(allInputs)]; the dictionary
    is a finite map here. *)
Definition internalGetReferencedInputs (allInputs : list CardObject)
    : gmap string CardObject :=
  fold_left (fun result input => <[inputKey input := input]> result) allInputs ∅.

(** [getActionById(id)]: of [CardElement] ([undefined]), [Action], and the
    overrides of [ShowCardAction], [Image], [Container], [ColumnSet] and
    [ContainerWithActions]; [ActionCollection.getActionById] is the loop
    over the actions.  The inline action of a [TextInput] is outside the
    embedding: a [TextInput] has none here. *)
Fixpoint getActionById (theId : string) (o : CardObject) {struct o} : option CardObject :=
  let c := cardClass o in
  let ofSelectAction :=
    match _selectAction o with
    | Some action => getActionById theId action
    | None => None
    end in
  if isAction c then
    (* Action.getActionById *)
    if bool_decide (id o = Some theId) then Some o
    else
      match c, card o with
      | ShowCardAction, Some theCard => getActionById theId theCard
      | _, _ => None
      end
  else if isContainer c then
    (* ContainerWithActions.getActionById, Container.getActionById *)
    match (if isContainerWithActions c
           then firstFound (getActionById theId) (_actionCollection o)
           else None) with
    | Some found => Some found
    | None =>
        match ofSelectAction with
        | Some found => Some found
        | None => firstFound (getActionById theId) (_items o)
        end
    end
  else
    match c with
    | ColumnSet => firstFound (getActionById theId) (_items o)
    | Image => ofSelectAction
    | _ => None
    end.

(** The actions that [getActionById] reaches from an object, in the order
    in which it asks them. *)
Fixpoint actionTree (o : CardObject) {struct o} : list CardObject :=
  let c := cardClass o in
  let ofSelectAction :=
    match _selectAction o with
    | Some action => actionTree action
    | None => []
    end in
  if isAction c then
    o :: match c, card o with
         | ShowCardAction, Some theCard => actionTree theCard
         | _, _ => []
         end
  else if isContainer c then
    (if isContainerWithActions c then flat_map actionTree (_actionCollection o) else [])
    ++ ofSelectAction ++ flat_map actionTree (_items o)
  else
    match c with
    | ColumnSet => flat_map actionTree (_items o)
    | Image => ofSelectAction
    | _ => []
    end.

(* ===================================================================== *)
(** ** Places of a tree, and what a report says of them *)
(* ===================================================================== *)

(** The object at a place that the validation pass comes to. *)
Fixpoint objectAt (r : ObjectRef) (o : CardObject) {struct r} : option CardObject :=
  match r with
  | [] => Some o
  | ItemAt i :: rest =>
      if isCardElementContainer (cardClass o) then
        match nth_error (_items o) i with
        | Some item => objectAt rest item
        | None => None
        end
      else None
  | SelectAction :: rest =>
      if isCardElementContainer (cardClass o) then
        match _selectAction o with
        | Some action => objectAt rest action
        | None => None
        end
      else None
  | ActionAt i :: rest =>
      if hasActionCollection (cardClass o) then
        match nth_error (_actionCollection o) i with
        | Some action => objectAt rest action
        | None => None
        end
      else None
  | CardOf :: rest =>
      match cardClass o, card o with
      | ShowCardAction, Some theCard => objectAt rest theCard
      | _, _ => None
      end
  end.

(** A report holds the error for the object. *)
Definition Reported (r : ObjectRef) (e : IValidationError) (failures : list ValidationFailure)
    : Prop :=
  exists f, f ∈ failures /\ cardObject f = r /\ e ∈ errors f.

(* ===================================================================== *)
(** ** The error array across a call *)
(* ===================================================================== *)

(** The caller's error array after a call holds what it held before and,
    after that, what the call pushed; an [undefined] array stays so. *)
Definition sinkExtends (before after : Sink) : Prop :=
  match before, after with
  | Some l, Some l' => exists added, l' = l ++ added
  | None, None => True
  | _, _ => False
  end.

(** A call that only pushes to the error array, whether it returns or
    throws. *)
Definition AppendsOnly {A : Type} (m : M A) : Prop :=
  forall errors,
    match m errors with
    | Returned _ errors' | Thrown _ errors' => sinkExtends errors errors'
    | OutOfFuel => True
    end.

(** An instantiation that only pushes to the error array. *)
Definition InstantiateAppendsOnly (instantiate : Instantiate) : Prop :=
  forall parent json forbiddenTypeNames allowFallback cb ecb,
    AppendsOnly (instantiate parent json forbiddenTypeNames allowFallback cb ecb).

(* ===================================================================== *)
(** * Properties *)
(* ===================================================================== *)

Lemma eqb_false_neq (a b : string) : String.eqb a b = false -> a <> b.
Proof. intros H ->. rewrite String.eqb_refl in H. discriminate. Qed.

(** Induction on a card object with the objects it owns. *)
Lemma CardObject_nested_ind (P : CardObject -> Prop) :
  (forall c tn i rq sf hcfg v sa items acts cd fb,
      (forall x, sa = Some x -> P x) ->
      Forall P items ->
      Forall P acts ->
      (forall x, cd = Some x -> P x) ->
      (forall x, fb = Some x -> P x) ->
      P (MkCardObject c tn i rq sf hcfg v sa items acts cd fb)) ->
  forall o, P o.
Proof.
  intros H. fix IH 1. intros [c tn i rq sf hcfg v sa items acts cd fb].
  apply H.
  - destruct sa as [y|]; intros x [= <-]. apply IH.
  - induction items as [|x items IHl]; constructor; [apply IH | exact IHl].
  - induction acts as [|x acts IHl]; constructor; [apply IH | exact IHl].
  - destruct cd as [y|]; intros x [= <-]. apply IH.
  - destruct fb as [y|]; intros x [= <-]. apply IH.
Qed.


(* ===================================================================== *)
(** ** The type registries hold one registration per name *)
(* ===================================================================== *)


Module RegistryFacts.
Import TypeRegistry.
Section Facts.
Context {T : Type}.
Implicit Types (items : TypeRegistry.t T) (name n : string) (factory : unit -> T).

Lemma find_None_not_elem items name :
  findTypeRegistration items name = None <-> name ∉ typeNames items.
Proof.
  induction items as [|item rest IH]; simpl.
  - split; [intros _; apply not_elem_of_nil | reflexivity].
  - rewrite not_elem_of_cons. destruct (String.eqb (typeName item) name) eqn:E.
    + apply String.eqb_eq in E. split; [discriminate | intros [H _]; congruence].
    + apply eqb_false_neq in E. rewrite IH. intuition congruence.
Qed.

Lemma typeNames_replaceFactory items name factory :
  typeNames (replaceFactory items name factory) = typeNames items.
Proof.
  induction items as [|item rest IH]; simpl; [reflexivity|].
  destruct (String.eqb (typeName item) name); simpl; [reflexivity | now rewrite IH].
Qed.

Lemma typeNames_registerType items name factory version :
  typeNames (registerType items name factory version) =
  match findTypeRegistration items name with
  | Some _ => typeNames items
  | None => typeNames items ++ [name]
  end.
Proof.
  unfold registerType. destruct (findTypeRegistration items name).
  - apply typeNames_replaceFactory.
  - unfold typeNames. now rewrite map_app.
Qed.

Lemma typeNames_unregisterType_elem items name x :
  x ∈ typeNames (unregisterType items name) -> x ∈ typeNames items.
Proof.
  induction items as [|item rest IH]; simpl; [tauto|].
  destruct (String.eqb (typeName item) name); simpl; rewrite ?elem_of_cons; tauto.
Qed.

Lemma NoDup_registerType items name factory version :
  NoDup (typeNames items) -> NoDup (typeNames (registerType items name factory version)).
Proof.
  intros ND. rewrite typeNames_registerType.
  destruct (findTypeRegistration items name) eqn:E; [exact ND|].
  apply find_None_not_elem in E.
  apply NoDup_app. repeat split; auto.
  - intros x Hx ->%list_elem_of_singleton. contradiction.
  - apply NoDup_singleton.
Qed.

Lemma NoDup_unregisterType items name :
  NoDup (typeNames items) -> NoDup (typeNames (unregisterType items name)).
Proof.
  induction items as [|item rest IH]; simpl; [auto|].
  rewrite NoDup_cons. intros [Hnot ND].
  destruct (String.eqb (typeName item) name); simpl; [exact ND|].
  apply NoDup_cons. split; [|auto].
  intros H. apply Hnot. eapply typeNames_unregisterType_elem, H.
Qed.

Lemma NoDup_perform items c :
  NoDup (typeNames items) -> NoDup (typeNames (perform items c)).
Proof.
  destruct c; simpl.
  - apply NoDup_registerType.
  - apply NoDup_unregisterType.
  - intros _. apply NoDup_nil_2.
Qed.

Lemma factoryOf_replaceFactory items n factory name :
  n ∈ typeNames items ->
  factoryOf (replaceFactory items n factory) name =
  if String.eqb n name then Some factory else factoryOf items name.
Proof.
  unfold factoryOf. induction items as [|item rest IH]; simpl.
  - intros H. now apply elem_of_nil in H.
  - rewrite elem_of_cons. intros Hin.
    destruct (String.eqb (typeName item) n) eqn:E; simpl.
    + apply String.eqb_eq in E. subst n.
      destruct (String.eqb (typeName item) name); reflexivity.
    + apply eqb_false_neq in E.
      destruct Hin as [->|Hin]; [congruence|].
      destruct (String.eqb (typeName item) name) eqn:E2; simpl.
      * apply String.eqb_eq in E2. subst name.
        destruct (String.eqb n (typeName item)) eqn:E3; [|reflexivity].
        apply String.eqb_eq in E3. congruence.
      * now apply IH.
Qed.

Lemma factoryOf_app_new items n version factory name :
  factoryOf (items ++ [MkRegistration n version factory]) name =
  match factoryOf items name with
  | Some f => Some f
  | None => if String.eqb n name then Some factory else None
  end.
Proof.
  unfold factoryOf. induction items as [|item rest IH]; simpl.
  - destruct (String.eqb n name); reflexivity.
  - destruct (String.eqb (typeName item) name); simpl; [reflexivity | exact IH].
Qed.

Lemma factoryOf_registerType items n factory version name :
  factoryOf (registerType items n factory version) name =
  if String.eqb n name then Some factory else factoryOf items name.
Proof.
  unfold registerType. destruct (findTypeRegistration items n) eqn:E.
  - apply factoryOf_replaceFactory.
    destruct (decide (n ∈ typeNames items)) as [|Hn]; [assumption|].
    apply find_None_not_elem in Hn. congruence.
  - rewrite factoryOf_app_new.
    destruct (String.eqb n name) eqn:E2.
    + apply String.eqb_eq in E2. subst name. unfold factoryOf. now rewrite E.
    + now destruct (factoryOf items name).
Qed.

Lemma factoryOf_not_elem items name :
  name ∉ typeNames items -> factoryOf items name = None.
Proof. intros H. apply find_None_not_elem in H. unfold factoryOf. now rewrite H. Qed.

Lemma factoryOf_unregisterType items n name :
  NoDup (typeNames items) ->
  factoryOf (unregisterType items n) name =
  if String.eqb n name then None else factoryOf items name.
Proof.
  induction items as [|item rest IH]; simpl.
  - now destruct (String.eqb n name).
  - rewrite NoDup_cons. intros [Hnot ND].
    destruct (String.eqb (typeName item) n) eqn:E.
    + apply String.eqb_eq in E. subst n.
      destruct (String.eqb (typeName item) name) eqn:E2.
      * apply String.eqb_eq in E2. subst name. now apply factoryOf_not_elem.
      * unfold factoryOf. simpl. now rewrite E2.
    + apply eqb_false_neq in E. specialize (IH ND).
      unfold factoryOf in *. simpl.
      destruct (String.eqb (typeName item) name) eqn:E2.
      * apply String.eqb_eq in E2. subst name.
        destruct (String.eqb n (typeName item)) eqn:E3; [|reflexivity].
        apply String.eqb_eq in E3. congruence.
      * exact IH.
Qed.

Lemma factoryOf_fold (calls : list (Call T)) items name :
  NoDup (typeNames items) ->
  factoryOf (fold_left perform calls items) name =
  boundFactory calls name (factoryOf items name).
Proof.
  revert items. induction calls as [|c calls IH]; intros items ND; simpl; [reflexivity|].
  rewrite IH by now apply NoDup_perform.
  destruct c; simpl.
  - now rewrite factoryOf_registerType.
  - now rewrite factoryOf_unregisterType.
  - reflexivity.
Qed.

Lemma NoDup_fold (calls : list (Call T)) items :
  NoDup (typeNames items) -> NoDup (typeNames (fold_left perform calls items)).
Proof.
  revert items. induction calls as [|c calls IH]; intros items ND; simpl; [exact ND|].
  apply IH. now apply NoDup_perform.
Qed.

Lemma replaceFactory_split items name factory :
  name ∈ typeNames items ->
  exists before old rest,
    items = before ++ (old :: rest) /\ typeName old = name /\ (name ∉ typeNames before) /\
    replaceFactory items name factory =
    before ++ MkRegistration name (schemaVersion old) factory :: rest.
Proof.
  induction items as [|item items IH]; simpl.
  - intros H. now apply elem_of_nil in H.
  - rewrite elem_of_cons. intros Hin.
    destruct (String.eqb (typeName item) name) eqn:E.
    + apply String.eqb_eq in E. exists [], item, items. simpl.
      repeat split; auto using not_elem_of_nil. now rewrite E.
    + apply eqb_false_neq in E. destruct Hin as [->|Hin]; [congruence|].
      destruct (IH Hin) as (before & old & rest & -> & Hn & Hb & Hr).
      exists (item :: before), old, rest. simpl. rewrite Hr.
      repeat split; auto. rewrite not_elem_of_cons. split; [congruence | exact Hb].
Qed.

End Facts.
End RegistryFacts.

(** C10.  After any sequence of [registerType], [unregisterType] and
    [clear] calls on a new registry, no two registrations have the same
    type name; [registerType] of a name that is registered changes the
    factory of its registration where it stands, leaving the number, the
    names, the order and the schema versions of the registrations as they
    are, and [registerType] of a name that is not registered appends one
    registration; and [createInstance] of a name gives an instance of the
    factory of the last [registerType] of that name, or nothing when the
    name was never registered or was unregistered (or cleared) since. *)
Theorem TypeRegistry_one_registration_per_name :
  forall (T : Type) (calls : list (TypeRegistry.Call T)) (name : string)
         (factory : unit -> T) (version : TargetVersion),
    let registry := TypeRegistry.after calls in
    NoDup (TypeRegistry.typeNames registry)
    /\ (match TypeRegistry.findTypeRegistration registry name with
        | Some old =>
            exists before rest,
              registry = before ++ (old :: rest)
              /\ (name ∉ TypeRegistry.typeNames before)
              /\ TypeRegistry.registerType registry name factory version =
                 before ++ TypeRegistry.MkRegistration name
                             (TypeRegistry.schemaVersion old) factory :: rest
        | None =>
            TypeRegistry.registerType registry name factory version =
            registry ++ [TypeRegistry.MkRegistration name version factory]
        end)
    /\ TypeRegistry.createInstanceOf
         (TypeRegistry.registerType registry name factory version) name = Some (factory tt)
    /\ TypeRegistry.createInstanceOf registry name =
       option_map (fun f => f tt) (TypeRegistry.boundFactory calls name None).
Proof.
  intros T calls name factory version registry.
  assert (ND : NoDup (TypeRegistry.typeNames registry)).
  { apply RegistryFacts.NoDup_fold. apply NoDup_nil_2. }
  split; [exact ND|]. split; [|split].
  - destruct (TypeRegistry.findTypeRegistration registry name) as [old|] eqn:E.
    + assert (Hin : name ∈ TypeRegistry.typeNames registry).
      { destruct (decide (name ∈ TypeRegistry.typeNames registry)) as [|Hn]; [assumption|].
        apply RegistryFacts.find_None_not_elem in Hn. congruence. }
      destruct (RegistryFacts.replaceFactory_split registry name factory Hin)
        as (before & old' & rest & Hreg & Hn & Hb & Hr).
      assert (old' = old) as ->.
      { rewrite Hreg in E. clear -E Hn Hb.
        induction before as [|b before IH]; simpl in E.
        - rewrite Hn, String.eqb_refl in E. congruence.
        - apply not_elem_of_cons in Hb as [Hne Hb].
          destruct (String.eqb (TypeRegistry.typeName b) name) eqn:E2.
          + apply String.eqb_eq in E2. congruence.
          + auto. }
      exists before, rest. unfold TypeRegistry.registerType. rewrite E. auto.
    + unfold TypeRegistry.registerType. now rewrite E.
  - pose proof (RegistryFacts.factoryOf_registerType registry name factory version name) as H.
    rewrite String.eqb_refl in H. unfold TypeRegistry.factoryOf in H.
    unfold TypeRegistry.createInstanceOf.
    destruct (TypeRegistry.findTypeRegistration _ name); simpl in H; [|discriminate].
    now injection H as ->.
  - pose proof (RegistryFacts.factoryOf_fold calls [] name (NoDup_nil_2)) as H.
    change (TypeRegistry.factoryOf [] name) with (@None (unit -> T)) in H.
    change (fold_left TypeRegistry.perform calls []) with registry in H.
    rewrite <- H. unfold TypeRegistry.factoryOf, TypeRegistry.createInstanceOf.
    now destruct (TypeRegistry.findTypeRegistration registry name).
Qed.

(* ===================================================================== *)
(** ** Duplicate ids *)
(* ===================================================================== *)

Module ValidationFacts.

Lemma allIds_addFailure r e ctx : allIds (addFailure r e ctx) = allIds ctx.
Proof. reflexivity. Qed.

Lemma flatten_addToFailure kind fs r e fs' :
  addToFailure fs r e = Some fs' ->
  flatten kind fs' ≡ₚ single kind r e ++ flatten kind fs.
Proof.
  revert fs'. induction fs as [|f fs IH]; intros fs'; simpl; [discriminate|].
  destruct (decide (cardObject f = r)) as [<-|Hne].
  - intros [= <-]. simpl. rewrite List.filter_app, map_app. simpl. unfold single.
    destruct (bool_decide (error e = kind)); simpl.
    + rewrite <- (app_assoc _ [_]). simpl.
      rewrite <- Permutation_middle. reflexivity.
    + now rewrite app_nil_r.
  - destruct (addToFailure fs r e) as [u|] eqn:E; simpl; [|discriminate].
    intros [= <-]. simpl. rewrite (IH u eq_refl).
    rewrite !app_assoc. apply Permutation_app_tail, Permutation_app_comm.
Qed.

Lemma failuresOfKind_addFailure kind r e ctx :
  failuresOfKind kind (addFailure r e ctx) ≡ₚ single kind r e ++ failuresOfKind kind ctx.
Proof.
  unfold failuresOfKind, addFailure. simpl. fold (flatten kind).
  change (flat_map _ (failures ctx)) with (flatten kind (failures ctx)).
  destruct (addToFailure (failures ctx) r e) as [u|] eqn:E.
  - now apply flatten_addToFailure.
  - unfold flatten. rewrite flat_map_app. simpl. rewrite app_nil_r.
    rewrite Permutation_app_comm. apply Permutation_app_tail.
    unfold single. now destruct (bool_decide (error e = kind)).
Qed.

Lemma failuresOfKind_addFailure_other kind r e ctx :
  error e <> kind ->
  failuresOfKind kind (addFailure r e ctx) ≡ₚ failuresOfKind kind ctx.
Proof.
  intros H. rewrite failuresOfKind_addFailure. unfold single.
  now rewrite bool_decide_eq_false_2.
Qed.

Lemma failuresOfKind_allIds kind m ctx :
  failuresOfKind kind (MkValidationResults m (failures ctx)) = failuresOfKind kind ctx.
Proof. reflexivity. Qed.

Lemma occurrences_app s V W : occurrences s (V ++ W) = (occurrences s V + occurrences s W)%nat.
Proof. unfold occurrences. now rewrite List.filter_app, length_app. Qed.

Lemma secondOccurrences_app B V W :
  secondOccurrences B (V ++ W) = secondOccurrences B V ++ secondOccurrences (B ++ V) W.
Proof.
  revert B. induction V as [|[r i] V IH]; intros B; simpl.
  - now rewrite app_nil_r.
  - rewrite !IH, <- !app_assoc. simpl.
    destruct i as [s|]; [|reflexivity].
    now destruct (negb (String.eqb s EmptyString) && (occurrences s B =? 1)%nat).
Qed.

Lemma Recorded_addFailure V ctx r e :
  error e <> Enums.DuplicateId -> Recorded V ctx -> Recorded V (addFailure r e ctx).
Proof.
  intros He [H1 H2 H3]. split; auto.
  now rewrite failuresOfKind_addFailure_other.
Qed.

Lemma Recorded_whenb V ctx b r e :
  error e <> Enums.DuplicateId -> Recorded V ctx -> Recorded V (whenb b (addFailure r e) ctx).
Proof. destruct b; simpl; auto using Recorded_addFailure. Qed.

Lemma occurrences_single s r i :
  occurrences s [(r, i)] = if bool_decide (i = Some s) then 1%nat else 0%nat.
Proof. unfold occurrences. simpl. now destruct (bool_decide (i = Some s)). Qed.

Lemma Recorded_CardObject V ctx this o :
  Recorded V ctx ->
  Recorded (V ++ [(this, id o)]) (CardObject_internalValidateProperties this o ctx).
Proof.
  intros [H1 H2 H3]. unfold CardObject_internalValidateProperties.
  destruct (id o) as [theId|] eqn:Eid; simpl.
  2:{ split.
      - intros s Hs. rewrite occurrences_app, occurrences_single.
        rewrite bool_decide_eq_false_2 by discriminate. rewrite Nat.add_0_r. auto.
      - exact H2.
      - rewrite secondOccurrences_app. simpl. now rewrite app_nil_r. }
  destruct (String.eqb theId EmptyString) eqn:Ee; simpl.
  { apply String.eqb_eq in Ee. subst theId. split.
    - intros s Hs. rewrite occurrences_app, occurrences_single.
      rewrite bool_decide_eq_false_2 by congruence. rewrite Nat.add_0_r. auto.
    - exact H2.
    - rewrite secondOccurrences_app. simpl. now rewrite app_nil_r. }
  apply eqb_false_neq in Ee.
  pose proof (H1 theId Ee) as Hid.
  destruct (allIds ctx !! theId) as [count|] eqn:Ec.
  - destruct (occurrences theId V =? 0)%nat eqn:E0; [discriminate|].
    injection Hid as ->. apply Nat.eqb_neq in E0.
    split; simpl.
    + intros s Hs. rewrite occurrences_app, occurrences_single.
      assert (Ha : forall c, allIds (if (occurrences theId V =? 1)%nat
                                     then addFailure this c ctx else ctx) = allIds ctx).
      { intros c. now destruct (occurrences theId V =? 1)%nat. }
      rewrite Ha. destruct (decide (theId = s)) as [->|Hne].
      * rewrite lookup_insert_eq, bool_decide_eq_true_2 by reflexivity.
        destruct (occurrences s V + 1 =? 0)%nat eqn:E1; [apply Nat.eqb_eq in E1; lia | reflexivity].
      * rewrite lookup_insert_ne by assumption.
        rewrite bool_decide_eq_false_2 by congruence. rewrite Nat.add_0_r. auto.
    + assert (Ha : forall c, allIds (if (occurrences theId V =? 1)%nat
                                     then addFailure this c ctx else ctx) = allIds ctx).
      { intros c. now destruct (occurrences theId V =? 1)%nat. }
      rewrite Ha. rewrite lookup_insert_ne by congruence. exact H2.
    + rewrite secondOccurrences_app. simpl.
      rewrite (proj2 (negb_true_iff _) (proj2 (String.eqb_neq _ _) Ee)). simpl.
      rewrite failuresOfKind_allIds.
      destruct (occurrences theId V =? 1)%nat eqn:E1; simpl.
      * rewrite failuresOfKind_addFailure. unfold single. simpl.
        rewrite Permutation_app_comm. simpl. now apply perm_skip.
      * now rewrite app_nil_r.
  - destruct (occurrences theId V =? 0)%nat eqn:E0; [|discriminate].
    apply Nat.eqb_eq in E0. split; simpl.
    + intros s Hs. rewrite occurrences_app, occurrences_single.
      destruct (decide (theId = s)) as [->|Hne].
      * rewrite lookup_insert_eq, bool_decide_eq_true_2 by reflexivity.
        rewrite E0. reflexivity.
      * rewrite lookup_insert_ne by assumption.
        rewrite bool_decide_eq_false_2 by congruence. rewrite Nat.add_0_r. auto.
    + rewrite lookup_insert_ne by congruence. exact H2.
    + rewrite secondOccurrences_app. simpl. rewrite E0. simpl.
      rewrite andb_false_r. now rewrite app_nil_r.
Qed.

Lemma Recorded_forEachIndexed (body : nat -> CardObject -> ValidationResults -> ValidationResults)
    (visit : nat -> CardObject -> list (ObjectRef * option string)) (l : list CardObject) :
  Forall (fun item => forall i V ctx,
            Recorded V ctx -> Recorded (V ++ visit i item) (body i item ctx)) l ->
  forall i V ctx,
    Recorded V ctx ->
    Recorded (V ++ flatMapIndexed visit l i) (forEachIndexed body l i ctx).
Proof.
  induction 1 as [|item l Hitem _ IH]; intros i V ctx HR; simpl.
  - now rewrite app_nil_r.
  - rewrite app_assoc. apply IH, Hitem, HR.
Qed.

Ltac recorded_stage IH :=
  lazymatch goal with
  | |- Recorded _ (whenb _ (addFailure _ _) _) =>
      apply Recorded_whenb; [discriminate|]
  | |- Recorded _ (addFailure _ _ _) =>
      apply Recorded_addFailure; [discriminate|]
  | |- Recorded _ (if ?b then _ else _) => destruct b
  | |- Recorded (_ ++ visitOrder _ ?x) (internalValidateProperties _ _ _ ?x _) =>
      apply IH
  | |- Recorded _ (CardObject_internalValidateProperties ?this ?o ?ctx) =>
      apply (Recorded_CardObject _ ctx this o)
  end.

Lemma Recorded_internalValidateProperties G o :
  forall hc this V ctx,
    Recorded V ctx ->
    Recorded (V ++ visitOrder this o) (internalValidateProperties G hc this o ctx).
Proof.
  induction o as [c tn i rq sf hcfg v sa items acts cd fb IHsa IHitems IHacts IHcd _]
    using CardObject_nested_ind.
  intros hc this V ctx HR.
  destruct c;
  cbn [internalValidateProperties visitOrder cardClass id _items _selectAction
       _actionCollection card version typeNameValue isCardElementContainer isContainer
       isInput hasActionCollection isContainerWithActions andb orb app];
  repeat match goal with
         | |- context [match ?x with Some _ => _ | None => _ end] => is_var x; destruct x
         end;
  cbn [app];
  change (V ++ (this, i) :: ?R) with (V ++ ([(this, i)] ++ R));
  repeat (rewrite app_nil_r || rewrite app_assoc);
  repeat first
    [ apply (IHsa _ eq_refl) | apply (IHcd _ eq_refl)
    | apply Recorded_forEachIndexed;
      [ eapply Forall_impl; [first [exact IHitems | exact IHacts]|];
        cbv beta; intros item IH ? ? ? HR'; repeat recorded_stage IH; exact HR' |]
    | recorded_stage IHsa ];
  exact HR.
Qed.


Lemma secondOccurrences_elem B V r e :
  (r, e) ∈ secondOccurrences B V <->
  exists V1 V2 s,
    V = V1 ++ (r, Some s) :: V2 /\ s <> EmptyString /\ occurrences s (B ++ V1) = 1%nat
    /\ e = MkValidationError Enums.DuplicateId ("Duplicate Id: " ++ s).
Proof.
  revert B. induction V as [|[r' i] V IH]; intros B.
  - simpl. split.
    + intros H. now apply elem_of_nil in H.
    + intros (V1 & V2 & s & H & _). now destruct V1.
  - assert (Hrest : (r, e) ∈ secondOccurrences (B ++ [(r', i)]) V <->
                    exists V1 V2 s,
                      (r', i) :: V = ((r', i) :: V1) ++ (r, Some s) :: V2
                      /\ s <> EmptyString /\ occurrences s (B ++ (r', i) :: V1) = 1%nat
                      /\ e = MkValidationError Enums.DuplicateId ("Duplicate Id: " ++ s)).
    { rewrite IH. split; intros (V1 & V2 & s & H1 & H2 & H3 & H4);
        exists V1, V2, s; repeat split; auto.
      - simpl. now rewrite H1.
      - now rewrite <- app_assoc in H3.
      - simpl in H1. now injection H1.
      - now rewrite <- app_assoc. }
    assert (Hhead : forall V1 V2 s,
               (r', i) :: V = V1 ++ (r, Some s) :: V2 ->
               (V1 = [] /\ r' = r /\ i = Some s /\ V2 = V) \/
               (exists V1', V1 = (r', i) :: V1')).
    { intros V1 V2 s H. destruct V1 as [|x V1]; simpl in H.
      - injection H as -> -> ->. left. auto.
      - injection H as <- _. right. eauto. }
    simpl. destruct i as [s'|].
    2:{ rewrite Hrest. split; intros (V1 & V2 & s & H1 & H2 & H3 & H4).
        - eauto 8.
        - destruct (Hhead _ _ _ H1) as [(_ & _ & ? & _)|[V1' ->]]; [discriminate|].
          exists V1', V2, s. auto. }
    destruct (negb (String.eqb s' EmptyString) && (occurrences s' B =? 1)%nat) eqn:E.
    + apply andb_true_iff in E as [E1 E2].
      apply negb_true_iff, eqb_false_neq in E1. apply Nat.eqb_eq in E2.
      rewrite elem_of_cons, Hrest. split.
      * intros [[= -> ->]|(V1 & V2 & s & H1 & H2 & H3 & H4)].
        -- exists [], V, s'. rewrite app_nil_r. auto.
        -- eauto 8.
      * intros (V1 & V2 & s & H1 & H2 & H3 & H4).
        destruct (Hhead _ _ _ H1) as [(-> & -> & [= ->] & ->)|[V1' ->]].
        -- left. now rewrite H4.
        -- right. exists V1', V2, s. auto.
    + rewrite Hrest. split; intros (V1 & V2 & s & H1 & H2 & H3 & H4).
      * eauto 8.
      * destruct (Hhead _ _ _ H1) as [(-> & -> & [= ->] & ->)|[V1' ->]].
        -- rewrite app_nil_r in H3. exfalso.
           apply andb_false_iff in E as [E|E].
           ++ apply negb_false_iff, String.eqb_eq in E. contradiction.
           ++ apply Nat.eqb_neq in E. contradiction.
        -- exists V1', V2, s. auto.
Qed.

Lemma Recorded_initial : Recorded [] (MkValidationResults ∅ []).
Proof.
  split; simpl.
  - intros s _. apply lookup_empty.
  - apply lookup_empty.
  - reflexivity.
Qed.

End ValidationFacts.



(* ===================================================================== *)
(** ** shouldFallback and the version gate *)
(* ===================================================================== *)

(** C4, as the code has it.  [shouldFallback()] is true exactly when the
    object was flagged, or its [requires] are not all met by the host
    capabilities of its host configuration, or, [AdaptiveCard] overriding
    the method, the object is a card whose version is not supported.  For
    an object that is not a card this is the claim as stated; and an unmet
    requirement makes [shouldFallback()] true in every class, flag or no
    flag. *)
Theorem shouldFallback_iff :
  forall (G : Globals) (hc : HostConfig) (o : CardObject),
    (shouldFallback G hc o = true <->
       _shouldFallback o = true
       \/ areAllMet (requires o) (hostCapabilities hc) = false
       \/ (isContainerWithActions (cardClass o) = true /\ isVersionSupported G o = false))
    /\ (isContainerWithActions (cardClass o) = false ->
        (shouldFallback G hc o = true <->
           _shouldFallback o = true \/ areAllMet (requires o) (hostCapabilities hc) = false))
    /\ (areAllMet (requires o) (hostCapabilities hc) = false -> shouldFallback G hc o = true).
Proof.
  intros G hc o.
  assert (Hbase : CardObject_shouldFallback hc o = true <->
                  _shouldFallback o = true \/ areAllMet (requires o) (hostCapabilities hc) = false).
  { unfold CardObject_shouldFallback. rewrite orb_true_iff, negb_true_iff. reflexivity. }
  unfold shouldFallback.
  destruct (cardClass o) eqn:Ec; simpl;
    rewrite ?orb_true_iff, ?negb_true_iff, ?Hbase;
    (split; [|split]); try tauto; try discriminate;
    intuition discriminate.
Qed.

(** C4 fails as stated: a card of version 9.0, above the latest supported
    version 1.2, reports [shouldFallback()] although it was not flagged
    and requires nothing. *)
Lemma card_falls_back_unflagged :
  shouldFallback Sample.globals Sample.hostConfig Sample.cardOfVersion9 = true
  /\ _shouldFallback Sample.cardOfVersion9 = false
  /\ areAllMet (requires Sample.cardOfVersion9) (hostCapabilities Sample.hostConfig) = true.
Proof. repeat split. Qed.

Module AddFailureFacts.

Lemma addToFailure_Some fs r e fs' :
  addToFailure fs r e = Some fs' ->
  exists f, f ∈ fs' /\ cardObject f = r /\ e ∈ errors f.
Proof.
  revert fs'. induction fs as [|f fs IH]; intros fs'; simpl; [discriminate|].
  destruct (decide (cardObject f = r)) as [Heq|Hne].
  - intros [= <-]. eexists. split; [apply list_elem_of_here|]. simpl. split; [exact Heq|].
    apply elem_of_app. right. apply list_elem_of_here.
  - destruct (addToFailure fs r e) as [u|]; simpl; [|discriminate].
    intros [= <-]. destruct (IH u eq_refl) as (g & Hg & H1 & H2).
    exists g. split; [now apply list_elem_of_further | auto].
Qed.

Lemma addFailure_reported r e ctx :
  exists f, f ∈ failures (addFailure r e ctx) /\ cardObject f = r /\ e ∈ errors f.
Proof.
  unfold addFailure. simpl. destruct (addToFailure (failures ctx) r e) as [u|] eqn:E.
  - now apply (addToFailure_Some (failures ctx)).
  - exists (MkValidationFailure r [e]). split.
    + apply elem_of_app. right. apply list_elem_of_here.
    + simpl. split; [reflexivity | apply list_elem_of_here].
Qed.

End AddFailureFacts.




(* ===================================================================== *)
(** ** The instantiation procedure *)
(* ===================================================================== *)

Lemma existsb_eqb_elem (x : string) (l : list string) :
  existsb (String.eqb x) l = true <-> x ∈ l.
Proof.
  rewrite existsb_exists. split.
  - intros (y & Hy & ->%String.eqb_eq). now apply list_elem_of_In.
  - intros H. exists x. split; [now apply list_elem_of_In | apply String.eqb_refl].
Qed.

Lemma isNullOrEmpty_Some (s : string) :
  s <> EmptyString -> Utils.isNullOrEmpty (Some s) = false.
Proof. intros H. simpl. now apply String.eqb_neq. Qed.



(** C6.  [{"type": "Foo", "fallback": "drop"}], where no element type
    [Foo] is registered, parsed as a child with fallback allowed: the call
    returns (it does not throw), it returns no element, the parent is
    untouched, and one error, an [UnknownElementType], is added to the
    caller's errors. *)
Theorem unknown_type_with_drop_fallback :
  forall (G : Globals) (parent : Ref) (errors : list IValidationError),
    TypeRegistry.createInstanceOf (elementTypeRegistry G) "Foo" = None ->
    createElementInstance G (Some parent) (Some Sample.fooDrop) true (Some errors)
    = Returned (None, Some parent)
        (Some (errors ++
               [MkValidationError Enums.UnknownElementType
                  "Unknown element type: Foo. Fallback will be used if present."])).
Proof.
  intros G parent errors Hfoo.
  unfold createElementInstance, Body.createElementInstance, fuelFor.
  cbn [Sample.fooDrop json_size map list_sum snd Nat.add createCardObjectInstance].
  unfold Body.createCardObjectInstance.
  cbn [Sample.fooDrop truthy typeof_object andb getMember assoc String.eqb Ascii.eqb
       Bool.eqb Utils.getStringValue Utils.isNullOrEmpty negb default from_option Datatypes.id existsb].
  rewrite Hfoo. reflexivity.
Qed.

(** C6 applies: the built-in element registry has no type [Foo]. *)
Lemma unknown_type_with_drop_fallback_witness :
  createElementInstance Sample.globals (Some Sample.parent) (Some Sample.fooDrop) true
    (Some [])
  = Returned (None, Some Sample.parent)
      (Some [MkValidationError Enums.UnknownElementType
               "Unknown element type: Foo. Fallback will be used if present."]).
Proof.
  apply (unknown_type_with_drop_fallback Sample.globals Sample.parent []).
  reflexivity.
Defined.

(** C7.  An instance whose [shouldFallback()] is true after its parse,
    with fallback allowed and no [fallback] member in the fragment: the
    parent, when there is one, has its fallback flag set to true and
    nothing else changed, and the instance is returned as it was parsed,
    with the errors of its parse. *)
Theorem unsupported_instance_without_fallback_is_kept :
  forall (G : Globals) (fuel : nat) (parent : option Ref) (json : Json)
         (typeName : string) (forbiddenTypeNames : list string)
         (createInstanceCallback : CreateInstanceCallback)
         (createValidationErrorCallback : CreateValidationErrorCallback)
         (result : CardObject) (errors errors' : Sink) (this : Ref),
    truthy (Some json) && typeof_object (Some json) = true ->
    getMember "type" json = Some (JString typeName) ->
    typeName <> EmptyString ->
    typeName ∉ forbiddenTypeNames ->
    createInstanceCallback typeName = Some result ->
    Body.parse G (createCardObjectInstance fuel G) (Body.instanceRef G parent result)
      json errors = Returned this errors' ->
    shouldFallback G (hostConfig this) (target this) = true ->
    getMember "fallback" json = None ->
    createCardObjectInstance (S fuel) G parent (Some json) forbiddenTypeNames true
      createInstanceCallback createValidationErrorCallback errors
    = Returned (Some (target this),
                option_map (onTarget (setShouldFallback true)) parent) errors'
    /\ (forall p, parent = Some p ->
          exists p', option_map (onTarget (setShouldFallback true)) parent = Some p'
                     /\ _shouldFallback (target p') = true
                     /\ setShouldFallback true (target p) = target p'
                     /\ hostConfig p' = hostConfig p
                     /\ isDesignMode p' = isDesignMode p).
Proof.
  intros G fuel parent json typeName forbidden cb ecb result errors errors' this
         Hobj Ht Hne Hnot Hcb Hparse Hsf Hfb.
  split.
  - cbn [createCardObjectInstance]. unfold Body.createCardObjectInstance.
    rewrite Hobj, Ht. cbn [Utils.getStringValue].
    rewrite (isNullOrEmpty_Some _ Hne). cbn [negb default from_option Datatypes.id].
    destruct (existsb (String.eqb typeName) forbidden) eqn:E.
    { apply existsb_eqb_elem in E. contradiction. }
    rewrite Hcb. unfold bind at 1. unfold bind at 1. rewrite Hparse.
    unfold ret at 1. rewrite Hsf, Hfb. reflexivity.
  - intros p ->. eexists. split; [reflexivity|]. simpl. auto.
Qed.

(** C7 applies: a text block that requires a capability the host lacks,
    parsed into a container, with no [fallback] member. *)
Lemma unsupported_instance_without_fallback_is_kept_witness :
  exists kept,
    createCardObjectInstance 2 Sample.globals (Some Sample.parent)
      (Some Sample.textBlockRequiringCapX) [] true
      (fun typeName =>
         TypeRegistry.createInstanceOf (elementTypeRegistry Sample.globals) typeName)
      (fun _ _ => MkValidationError Enums.UnknownElementType EmptyString) (Some [])
    = Returned (Some kept,
                Some (onTarget (setShouldFallback true) Sample.parent)) (Some [])
    /\ cardClass kept = TextBlock.
Proof.
  eexists. split.
  - refine (proj1 (unsupported_instance_without_fallback_is_kept Sample.globals 1
              (Some Sample.parent) Sample.textBlockRequiringCapX "TextBlock" [] _ _
              (new TextBlock) (Some []) (Some [])
              (MkRef (setSchemaValues (Some "TextBlock") None
                        [("CapX", MkVersion "1.0" 1 0 true)] None (new TextBlock))
                 Sample.hostConfig false)
              _ _ _ _ _ _ _ _)).
    + reflexivity.
    + reflexivity.
    + discriminate.
    + apply not_elem_of_nil.
    + reflexivity.
    + vm_compute. reflexivity.
    + reflexivity.
    + reflexivity.
  - reflexivity.
Defined.

(** C3 fails on the code.  A [Container] whose [items] hold a [TextRun],
    an element type of the built-in registry that is not standalone: the
    [Error] of [Container.insertItemAt] leaves [createElementInstance]. *)
Theorem parse_of_text_run_item_throws :
  createElementInstance Sample.globals None (Some Sample.containerOfTextRun) true (Some [])
  = Thrown "Elements of type TextRun cannot be used as standalone elements." (Some []).
Proof. vm_compute. reflexivity. Qed.



(* ===================================================================== *)
(** ** toJSON omits defaults *)
(* ===================================================================== *)

Module ToJSONFacts.

Lemma omitsDefaults_object members :
  omitsDefaults (JObject members) = forallb memberOK members.
Proof. reflexivity. Qed.

Lemma memberOK_setProperty name v :
  match v with Some j => memberOK (name, j) | None => true end = true ->
  forallb memberOK (setProperty name v) = true.
Proof. destruct v; simpl; [now rewrite andb_true_r | reflexivity]. Qed.

Lemma memberOK_setArrayProperty name items :
  forallb omitsDefaults items = true ->
  forallb memberOK (setArrayProperty name items) = true.
Proof.
  destruct items as [|x items]; [reflexivity|]. intros H. simpl in *.
  unfold memberOK. simpl. now rewrite H.
Qed.

Lemma memberOK_toJSON_object name members :
  name <> "requires" -> omitsDefaults (JObject members) = true ->
  memberOK (name, JObject members) = true.
Proof.
  intros Hn H. unfold memberOK. cbn [snd fst]. rewrite H.
  destruct members; [|reflexivity]. simpl. now apply negb_true_iff, String.eqb_neq.
Qed.

Lemma omitsDefaults_requires caps :
  match HostCapabilitiesOps.toJSON caps with
  | Some j => memberOK ("requires", j)
  | None => true
  end = true.
Proof.
  destruct caps as [|nv caps]; [reflexivity|]. unfold HostCapabilitiesOps.toJSON, memberOK.
  cbn [snd fst map]. rewrite andb_true_r. cbn [omitsDefaults].
  apply forallb_forall. intros kv [<-|(x & <- & _)%in_map_iff]%in_inv; reflexivity.
Qed.

Lemma toJSON_is_object o : exists members, toJSON o = JObject members.
Proof. destruct o. eexists. reflexivity. Qed.

Lemma omitsDefaults_toJSON o : omitsDefaults (toJSON o) = true.
Proof.
  induction o as [c tn i rq sf hcfg v sa items acts cd fb IHsa IHitems IHacts IHcd _]
    using CardObject_nested_ind.
  assert (Hitems : forallb omitsDefaults (map toJSON items) = true).
  { apply forallb_forall. intros j (x & <- & Hx)%in_map_iff.
    rewrite List.Forall_forall in IHitems. now apply IHitems. }
  assert (Hacts : forallb omitsDefaults (map toJSON acts) = true).
  { apply forallb_forall. intros j (x & <- & Hx)%in_map_iff.
    rewrite List.Forall_forall in IHacts. now apply IHacts. }
  assert (Hsa : forall name, name <> "requires" ->
            forallb memberOK (setProperty name (option_map toJSON sa)) = true).
  { intros name Hn. apply memberOK_setProperty. destruct sa as [a|]; [|reflexivity]. simpl.
    destruct (toJSON_is_object a) as [ms Hms]. rewrite Hms.
    apply memberOK_toJSON_object; [exact Hn|]. rewrite <- Hms. now apply IHsa. }
  assert (Hcd : forall name, name <> "requires" ->
            forallb memberOK (setProperty name (option_map toJSON cd)) = true).
  { intros name Hn. apply memberOK_setProperty. destruct cd as [a|]; [|reflexivity]. simpl.
    destruct (toJSON_is_object a) as [ms Hms]. rewrite Hms.
    apply memberOK_toJSON_object; [exact Hn|]. rewrite <- Hms. now apply IHcd. }
  cbn [toJSON cardClass typeNameValue id requires _selectAction _items _actionCollection
       card version].
  rewrite omitsDefaults_object, !forallb_app.
  repeat (apply andb_true_iff; split).
  - now destruct tn.
  - now destruct i.
  - apply memberOK_setProperty, omitsDefaults_requires.
  - destruct (schemaHasSelectAction c); [|reflexivity]. now apply Hsa.
  - destruct c; try reflexivity. now destruct v.
  - destruct (isContainer c); [|reflexivity]. now apply memberOK_setArrayProperty.
  - destruct c; try reflexivity; now apply memberOK_setArrayProperty.
  - destruct (isContainerWithActions c || _); [|reflexivity].
    destruct acts as [|a acts]; [reflexivity|]. cbn [setProperty forallb].
    unfold memberOK. cbn [snd fst]. cbn [omitsDefaults]. rewrite Hacts. reflexivity.
  - destruct c; try reflexivity. now apply Hcd.
Qed.

End ToJSONFacts.

(* ===================================================================== *)
(** ** Versions and capabilities survive a round trip *)
(* ===================================================================== *)

Module VersionFacts.

Lemma to_uint_nonnil n : Nat.to_uint n <> Decimal.Nil.
Proof.
  rewrite <- (Unsigned.of_to n) at 1. rewrite Unsigned.to_of.
  apply DecimalFacts.unorm_nonnil.
Qed.

Lemma allDigits_string_of_uint d : allDigits (NilEmpty.string_of_uint d) = true.
Proof. induction d; simpl; auto. Qed.

Lemma string_of_uint_empty d : NilEmpty.string_of_uint d = EmptyString -> d = Decimal.Nil.
Proof. destruct d; simpl; congruence. Qed.

Lemma parseDecimal_printDecimal n : parseDecimal (printDecimal n) = Some n.
Proof.
  unfold parseDecimal, printDecimal.
  destruct (String.eqb (NilEmpty.string_of_uint (Nat.to_uint n)) EmptyString) eqn:E.
  - apply String.eqb_eq, string_of_uint_empty in E. now apply to_uint_nonnil in E.
  - rewrite allDigits_string_of_uint, NilEmpty.usu. simpl. now rewrite Unsigned.of_to.
Qed.

Lemma isDigit_not_dot c : isDigit c = true -> Ascii.eqb c "."%char = false.
Proof.
  intros H. apply Ascii.eqb_neq. intros ->. vm_compute in H. discriminate.
Qed.

Lemma splitAtDot_digits s t :
  allDigits s = true -> splitAtDot (s ++ String "."%char t) = Some (s, t).
Proof.
  induction s as [|c s IH]; simpl.
  - reflexivity.
  - intros [Hc Hs]%andb_true_iff. rewrite (isDigit_not_dot c Hc), (IH Hs). reflexivity.
Qed.

Lemma parseString_toString v :
  isValid v = true ->
  VersionOps.parseString (VersionOps.toString v)
  = MkVersion (VersionOps.toString v) (major v) (minor v) true.
Proof.
  intros Hv. unfold VersionOps.parseString, VersionOps.toString at 1. rewrite Hv.
  change (String.append "." (printDecimal (minor v)))
    with (String "."%char (printDecimal (minor v))).
  rewrite splitAtDot_digits by apply allDigits_string_of_uint.
  now rewrite !parseDecimal_printDecimal.
Qed.

Lemma parseMembers_toJSON caps :
  forallb (fun nv => isValid (snd nv)) caps = true ->
  HostCapabilitiesOps.parseMembers
    (map (fun nv => (fst nv, JString (VersionOps.toString (snd nv)))) caps)
  = reread caps.
Proof.
  induction caps as [|[n v] caps IH]; simpl; [reflexivity|].
  intros [Hv Hc]%andb_true_iff. rewrite (parseString_toString v Hv). simpl.
  now rewrite IH.
Qed.

Lemma parse_toJSON caps :
  forallb (fun nv => isValid (snd nv)) caps = true ->
  HostCapabilitiesOps.parse (HostCapabilitiesOps.toJSON caps) = reread caps.
Proof.
  intros H. destruct caps as [|nv caps]; [reflexivity|].
  unfold HostCapabilitiesOps.toJSON, HostCapabilitiesOps.parse.
  now apply parseMembers_toJSON.
Qed.

Lemma toString_reread v :
  isValid v = true ->
  VersionOps.toString
    (MkVersion (VersionOps.toString v) (major v) (minor v) true) = VersionOps.toString v.
Proof. intros H. unfold VersionOps.toString at 1 3. simpl. now rewrite H. Qed.

Lemma toJSON_members_reread caps :
  forallb (fun nv => isValid (snd nv)) caps = true ->
  map (fun nv => (fst nv, JString (VersionOps.toString (snd nv)))) (reread caps)
  = map (fun nv => (fst nv, JString (VersionOps.toString (snd nv)))) caps.
Proof.
  induction caps as [|[n v] caps IH]; simpl; [reflexivity|].
  intros [Hv Hc]%andb_true_iff.
  rewrite (IH Hc), (toString_reread v Hv). reflexivity.
Qed.

Lemma toJSON_reread caps :
  forallb (fun nv => isValid (snd nv)) caps = true ->
  HostCapabilitiesOps.toJSON (reread caps) = HostCapabilitiesOps.toJSON caps.
Proof.
  intros H. pose proof (toJSON_members_reread caps H) as Hm.
  destruct caps as [|nv caps]; [reflexivity|].
  unfold HostCapabilitiesOps.toJSON. cbn [reread map] in *. now rewrite Hm.
Qed.

Lemma valid_reread caps : forallb (fun nv => isValid (snd nv)) (reread caps) = true.
Proof. unfold reread. induction caps; simpl; auto. Qed.

Lemma valid_parseMembers members :
  forallb (fun nv => isValid (snd nv)) (HostCapabilitiesOps.parseMembers members) = true.
Proof.
  induction members as [|[n j] members IH]; simpl; [reflexivity|].
  destruct j; auto.
  destruct (isValid (VersionOps.parseString s)) eqn:E; simpl; [now rewrite E | exact IH].
Qed.

Lemma valid_parse value :
  forallb (fun nv => isValid (snd nv)) (HostCapabilitiesOps.parse value) = true.
Proof.
  destruct value as [[]|]; try reflexivity. apply valid_parseMembers.
Qed.

End VersionFacts.

(* ===================================================================== *)
(** ** The shape of parsed objects *)
(* ===================================================================== *)

Module MonadFacts.

Lemma bind_Returned {A B : Type} (m : M A) (k : A -> M B) errors b errors'' :
  bind m k errors = Returned b errors'' ->
  exists a errors', m errors = Returned a errors' /\ k a errors' = Returned b errors''.
Proof.
  unfold bind. destruct (m errors) as [a errors'| |]; try discriminate. eauto.
Qed.

Lemma ret_Returned {A : Type} (a b : A) errors errors' :
  ret a errors = Returned b errors' -> a = b /\ errors = errors'.
Proof. unfold ret. intros [= -> ->]. auto. Qed.

Lemma forEach_invariant {A S : Type} (I : S -> Prop) (body : A -> S -> M S) xs :
  (forall x s errors s' errors',
      I s -> body x s errors = Returned s' errors' -> I s') ->
  forall s errors s' errors',
    I s -> forEach xs body s errors = Returned s' errors' -> I s'.
Proof.
  intros Hbody. induction xs as [|x xs IH]; intros s errors s' errors' Hs; simpl.
  - now intros [<- _]%ret_Returned.
  - intros (s1 & e1 & H1 & H2)%bind_Returned. eapply IH; [|exact H2]. eauto.
Qed.

End MonadFacts.

Module ShapeFacts.
Import MonadFacts.

Lemma parsedShape_setShouldFallback role f o :
  parsedShape role (setShouldFallback f o) = parsedShape role o.
Proof. destruct o. reflexivity. Qed.

Lemma parsedShape_setFallbackCard role x o :
  parsedShape role (setFallbackCard x o) = parsedShape role o.
Proof. destruct o. reflexivity. Qed.

Lemma parsedShape_setSchemaValues role tn i rq v o :
  parsedShape role o = true ->
  (role <> AsCard -> tn = Some (getJsonTypeName (cardClass o))) ->
  forallb (fun nv => isValid (snd nv)) rq = true ->
  parsedShape role (setSchemaValues tn i rq v o) = true.
Proof.
  destruct o as [c tn0 i0 rq0 sf hcfg v0 sa items acts cd fb].
  cbn [parsedShape setSchemaValues cardClass typeNameValue id requires _selectAction
       _items _actionCollection card].
  intros H Htn Hrq. rewrite !andb_true_iff in *.
  destruct H as [[[[[[H1 H2] H3] H4] H5] H6] H7].
  repeat split; auto.
  destruct role; try (rewrite Htn by discriminate; now apply bool_decide_eq_true_2);
    reflexivity.
Qed.

Lemma parsedShape_setSelectAction_None role o :
  parsedShape role o = true -> parsedShape role (setSelectAction None o) = true.
Proof.
  destruct o as [c tn0 i0 rq0 sf hcfg v0 sa items acts cd fb].
  cbn [parsedShape setSelectAction cardClass typeNameValue id requires _selectAction
       _items _actionCollection card].
  rewrite !andb_true_iff. tauto.
Qed.

Lemma parsedShape_setSelectAction_Some role a o :
  parsedShape role o = true ->
  schemaHasSelectAction (cardClass o) = true ->
  parsedShape AsAction a = true ->
  existsb (String.eqb (getJsonTypeName (cardClass a))) ["Action.ShowCard"] = false ->
  parsedShape role (setSelectAction (Some a) o) = true.
Proof.
  destruct o as [c tn0 i0 rq0 sf hcfg v0 sa items acts cd fb].
  cbn [parsedShape setSelectAction cardClass typeNameValue id requires _selectAction
       _items _actionCollection card existsb].
  rewrite orb_false_r. intros H Hc Ha Hn. rewrite !andb_true_iff in *.
  destruct H as [[[[[[H1 H2] H3] H4] H5] H6] H7].
  repeat split; auto. now rewrite Hn.
Qed.

Lemma parsedShape_setItems_nil role o :
  parsedShape role o = true -> parsedShape role (setItems [] o) = true.
Proof.
  destruct o as [c tn0 i0 rq0 sf hcfg v0 sa items acts cd fb].
  cbn [parsedShape setItems cardClass typeNameValue id requires _selectAction
       _items _actionCollection card].
  rewrite !andb_true_iff. intros [[[[[[H1 H2] H3] H4] H5] H6] H7].
  repeat split; auto. destruct (isContainer c); [reflexivity|]. now destruct c.
Qed.

Lemma parsedShape_setActions_nil role o :
  parsedShape role o = true -> parsedShape role (setActions [] o) = true.
Proof.
  destruct o as [c tn0 i0 rq0 sf hcfg v0 sa items acts cd fb].
  cbn [parsedShape setActions cardClass typeNameValue id requires _selectAction
       _items _actionCollection card].
  rewrite !andb_true_iff. intros [[[[[[H1 H2] H3] H4] H5] H6] H7].
  repeat split; auto. now destruct (hasActionCollection c).
Qed.

Lemma parsedShape_clear role o :
  parsedShape role o = true -> parsedShape role (clear o) = true.
Proof.
  intros H. unfold clear. destruct (isContainerWithActions (cardClass o)).
  - now apply parsedShape_setActions_nil, parsedShape_setItems_nil.
  - now apply parsedShape_setItems_nil.
Qed.

Lemma parsedShape_add_item role x o :
  parsedShape role o = true ->
  isContainer (cardClass o) = true ->
  parsedShape AsElement x = true ->
  isStandalone (cardClass x) = true ->
  parsedShape role (setItems (_items o ++ [x]) o) = true.
Proof.
  destruct o as [c tn0 i0 rq0 sf hcfg v0 sa items acts cd fb].
  cbn [parsedShape setItems cardClass typeNameValue id requires _selectAction
       _items _actionCollection card].
  intros H Hc Hx Hs. rewrite Hc in *. rewrite !andb_true_iff in *.
  destruct H as [[[[[[H1 H2] H3] H4] H5] H6] H7].
  repeat split; auto. rewrite forallb_app, H5. simpl. now rewrite Hx, Hs.
Qed.

Lemma parsedShape_add_column role x o :
  parsedShape role o = true ->
  cardClass o = ColumnSet ->
  parsedShape AsColumn x = true ->
  parsedShape role (setItems (_items o ++ [x]) o) = true.
Proof.
  destruct o as [c tn0 i0 rq0 sf hcfg v0 sa items acts cd fb].
  cbn [parsedShape setItems cardClass typeNameValue id requires _selectAction
       _items _actionCollection card].
  intros H -> Hx. cbn [isContainer] in *. rewrite !andb_true_iff in *.
  destruct H as [[[[[[H1 H2] H3] H4] H5] H6] H7].
  repeat split; auto. rewrite forallb_app, H5. simpl. now rewrite Hx.
Qed.

Lemma parsedShape_add_inline role x o :
  parsedShape role o = true ->
  cardClass o = RichTextBlock ->
  parsedShape AsElement x = true ->
  isInline (cardClass x) = true ->
  parsedShape role (setItems (_items o ++ [x]) o) = true.
Proof.
  destruct o as [c tn0 i0 rq0 sf hcfg v0 sa items acts cd fb].
  cbn [parsedShape setItems cardClass typeNameValue id requires _selectAction
       _items _actionCollection card].
  intros H -> Hx Hi. cbn [isContainer] in *. rewrite !andb_true_iff in *.
  destruct H as [[[[[[H1 H2] H3] H4] H5] H6] H7].
  repeat split; auto. rewrite forallb_app, H5. simpl. now rewrite Hx, Hi.
Qed.

Lemma parsedShape_add_action role x o :
  parsedShape role o = true ->
  hasActionCollection (cardClass o) = true ->
  parsedShape AsAction x = true ->
  parsedShape role (setActions (_actionCollection o ++ [x]) o) = true.
Proof.
  destruct o as [c tn0 i0 rq0 sf hcfg v0 sa items acts cd fb].
  cbn [parsedShape setActions cardClass typeNameValue id requires _selectAction
       _items _actionCollection card].
  intros H Hc Hx. rewrite Hc in *. rewrite !andb_true_iff in *.
  destruct H as [[[[[[H1 H2] H3] H4] H5] H6] H7].
  repeat split; auto. rewrite forallb_app, H6. simpl. now rewrite Hx.
Qed.

Lemma parsedShape_setCard role x o :
  parsedShape role o = true ->
  cardClass o = ShowCardAction ->
  parsedShape AsCard x = true ->
  parsedShape role (setCard (Some x) o) = true.
Proof.
  destruct o as [c tn0 i0 rq0 sf hcfg v0 sa items acts cd fb].
  cbn [parsedShape setCard cardClass typeNameValue id requires _selectAction
       _items _actionCollection card].
  intros H -> Hx. rewrite !andb_true_iff in *.
  destruct H as [[[[[[H1 H2] H3] H4] H5] H6] H7].
  repeat split; auto.
Qed.

Lemma parsedShape_card role o :
  parsedShape role o = true -> cardClass o = ShowCardAction ->
  exists c, card o = Some c /\ parsedShape AsCard c = true.
Proof.
  destruct o as [c tn0 i0 rq0 sf hcfg v0 sa items acts cd fb].
  cbn [parsedShape cardClass typeNameValue id requires _selectAction
       _items _actionCollection card].
  intros H ->. rewrite !andb_true_iff in *.
  destruct H as [[[[[[H1 H2] H3] H4] H5] H6] H7].
  destruct cd as [x|]; [eauto | discriminate].
Qed.

Lemma parsedShape_classOfRole role o :
  parsedShape role o = true -> classOfRole role (cardClass o) = true.
Proof.
  destruct o as [c tn0 i0 rq0 sf hcfg v0 sa items acts cd fb].
  cbn [parsedShape cardClass]. rewrite !andb_true_iff. tauto.
Qed.

Lemma parsedShape_new role c :
  classOfRole role c = true -> parsedShape role (new c) = true.
Proof.
  intros H. destruct role, c; try discriminate H; vm_compute; reflexivity.
Qed.

End ShapeFacts.

Module ParseShape.
Import MonadFacts ShapeFacts.

Ltac inv_step :=
  match goal with
  | H : bind _ _ _ = Returned _ _ |- _ =>
      let a := fresh "a" in let e := fresh "e" in
      let H1 := fresh "Hm" in let H2 := fresh "Hk" in
      apply bind_Returned in H; destruct H as (a & e & H1 & H2)
  | H : ret _ _ = Returned _ _ |- _ =>
      apply ret_Returned in H; destruct H as [? ?]; subst
  | H : throw _ _ = Returned _ _ |- _ => discriminate H
  | H : raiseParseError _ _ = Returned _ _ |- _ =>
      unfold raiseParseError in H; injection H as ? ?; subst
  | H : (let (_, _) := ?x in _) _ = Returned _ _ |- _ => destruct x
  | H : (match ?x with (_, _) => _ end) _ = Returned _ _ |- _ => destruct x
  end.

Lemma FlagOnly_parentAfter this after :
  FlagOnly (Some this) after -> SameButFlag this (Body.parentAfter this after).
Proof. intros [->| ->]; simpl; constructor. Qed.

Lemma SameButFlag_shape role this this' :
  SameButFlag this this' ->
  parsedShape role (target this') = parsedShape role (target this)
  /\ cardClass (target this') = cardClass (target this)
  /\ card (target this') = card (target this)
  /\ _items (target this') = _items (target this)
  /\ _actionCollection (target this') = _actionCollection (target this)
  /\ hostConfig this' = hostConfig this
  /\ isDesignMode this' = isDesignMode this.
Proof.
  intros []; [tauto|]. cbn [target onTarget hostConfig isDesignMode].
  rewrite parsedShape_setShouldFallback.
  destruct (target this); simpl; tauto.
Qed.

Section OpenRecursion.

Variable G : Globals.
Variable instantiate : Instantiate.
Hypothesis Helements :
  BuiltInCallback AsElement
    (fun typeName => TypeRegistry.createInstanceOf (elementTypeRegistry G) typeName).
Hypothesis Hactions :
  BuiltInCallback AsAction
    (fun typeName => TypeRegistry.createInstanceOf (actionTypeRegistry G) typeName).
Hypothesis Hinst : BuildsParsedShapes instantiate.

Lemma columnCallback :
  BuiltInCallback AsColumn
    (fun typeName =>
       if String.eqb typeName EmptyString || String.eqb typeName "Column"
       then Some (new Column) else None).
Proof.
  intros name obj Hne. destruct (String.eqb name EmptyString) eqn:E1.
  { apply String.eqb_eq in E1. contradiction. }
  destruct (String.eqb name "Column") eqn:E2; simpl; [|discriminate].
  apply String.eqb_eq in E2. intros [= <-]. exists Column. auto.
Qed.

Lemma createElementInstance_shape parent json allow errors result parent' errors' :
  Body.createElementInstance G instantiate parent json allow errors
    = Returned (result, parent') errors' ->
  FlagOnly parent parent'
  /\ forall o, result = Some o -> parsedShape AsElement o = true.
Proof.
  unfold Body.createElementInstance. intros H.
  eapply Hinst in H; try exact Helements; try discriminate.
  destruct H as [H1 H2]. split; [exact H1|]. intros o Ho. now apply H2.
Qed.

Lemma createActionInstance_shape parent json forbidden allow errors result parent' errors' :
  Body.createActionInstance G instantiate parent json forbidden allow errors
    = Returned (result, parent') errors' ->
  FlagOnly parent parent'
  /\ forall o, result = Some o ->
       parsedShape AsAction o = true
       /\ existsb (String.eqb (getJsonTypeName (cardClass o))) forbidden = false.
Proof.
  unfold Body.createActionInstance. intros H.
  eapply Hinst in H; try exact Hactions; try discriminate. exact H.
Qed.

Lemma createColumnInstance_shape this json errors result parent' errors' :
  Body.createColumnInstance instantiate this json errors
    = Returned (result, parent') errors' ->
  FlagOnly (Some this) parent'
  /\ forall o, result = Some o -> parsedShape AsColumn o = true.
Proof.
  unfold Body.createColumnInstance. intros H.
  eapply Hinst in H; try exact columnCallback; try discriminate.
  destruct H as [H1 H2]. split; [exact H1|]. intros o Ho. now apply H2.
Qed.

Lemma ActionPropertyDefinition_parse_shape forbidden name sender json errors action
    sender' errors' :
  Body.ActionPropertyDefinition_parse G instantiate forbidden name sender json errors
    = Returned (action, sender') errors' ->
  SameButFlag sender sender'
  /\ forall a, action = Some a ->
       parsedShape AsAction a = true
       /\ existsb (String.eqb (getJsonTypeName (cardClass a))) forbidden = false.
Proof.
  unfold Body.ActionPropertyDefinition_parse.
  intros ([act par] & e & H1 & H2)%bind_Returned.
  apply ret_Returned in H2 as [[= <- <-] <-].
  apply createActionInstance_shape in H1 as [Hflag Hact].
  split; [now apply FlagOnly_parentAfter | exact Hact].
Qed.

Lemma setSchemaValues_keeps tn i rq v o :
  cardClass (setSchemaValues tn i rq v o) = cardClass o
  /\ card (setSchemaValues tn i rq v o) = card o
  /\ _items (setSchemaValues tn i rq v o) = _items o
  /\ _actionCollection (setSchemaValues tn i rq v o) = _actionCollection o.
Proof. destruct o; simpl; auto. Qed.

Lemma setSelectAction_keeps x o :
  cardClass (setSelectAction x o) = cardClass o
  /\ card (setSelectAction x o) = card o
  /\ _items (setSelectAction x o) = _items o
  /\ _actionCollection (setSelectAction x o) = _actionCollection o.
Proof. destruct o; simpl; auto. Qed.

Lemma SerializableObject_parse_shape role this json errors this' errors' :
  parsedShape role (target this) = true ->
  (role <> AsCard ->
   Utils.getStringValue (getMember "type" json)
   = Some (getJsonTypeName (cardClass (target this)))) ->
  Body.SerializableObject_parse G instantiate this json errors = Returned this' errors' ->
  Kept role this this' /\ card (target this') = card (target this)
  /\ _items (target this') = _items (target this)
  /\ _actionCollection (target this') = _actionCollection (target this).
Proof.
  intros Hshape Htype. unfold Body.SerializableObject_parse.
  set (values := setSchemaValues _ _ _ _).
  assert (Hv : parsedShape role (values (target this)) = true).
  { apply parsedShape_setSchemaValues; auto using VersionFacts.valid_parse. }
  destruct (setSchemaValues_keeps
              (Utils.getStringValue (getMember "type" json))
              (Utils.getStringValue (getMember "id" json))
              (HostCapabilitiesOps.parse (getMember "requires" json))
              match cardClass (target this) with
              | AdaptiveCard =>
                  match VersionOps.parse (getMember "version" json) with
                  | Some v => Some v
                  | None => Some Versions.v1_0
                  end
              | _ => version (target this)
              end (target this)) as (Hc1 & Hc2 & Hc3 & Hc4).
  fold values in Hc1, Hc2, Hc3, Hc4.
  destruct (schemaHasSelectAction (cardClass (target this))) eqn:Esel.
  - intros ([action sender'] & e & H1 & H2)%bind_Returned.
    apply ret_Returned in H2 as [<- <-].
    apply ActionPropertyDefinition_parse_shape in H1 as [Hsame Hact].
    apply (SameButFlag_shape role) in Hsame.
    cbn [target onTarget hostConfig isDesignMode] in Hsame.
    destruct Hsame as (Hf1 & Hf2 & Hf3 & Hf4 & Hf5 & Hf6 & Hf7).
    unfold Kept. cbn [target onTarget hostConfig isDesignMode].
    destruct (setSelectAction_keeps action (target sender')) as (Hk1 & Hk2 & Hk3 & Hk4).
    rewrite Hk1, Hk2, Hk3, Hk4.
    repeat split; try congruence.
    destruct action as [a|].
    + destruct (Hact a eq_refl) as [Ha1 Ha2].
      apply parsedShape_setSelectAction_Some; auto; congruence.
    + apply parsedShape_setSelectAction_None. congruence.
  - intros [<- <-]%ret_Returned. unfold Kept. cbn [target onTarget hostConfig isDesignMode].
    auto.
Qed.

Lemma Kept_trans role a b c : Kept role a b -> Kept role b c -> Kept role a c.
Proof. unfold Kept. intuition congruence. Qed.

Lemma Kept_refl role a : parsedShape role (target a) = true -> Kept role a a.
Proof. unfold Kept. auto. Qed.

Lemma Kept_SameButFlag role a b :
  parsedShape role (target a) = true -> SameButFlag a b -> Kept role a b.
Proof.
  intros H Hs. destruct (SameButFlag_shape role a b Hs) as (H1 & H2 & _ & _ & _ & H3 & H4).
  unfold Kept. repeat split; congruence.
Qed.

Lemma insertItemAt_push item hasParent force o errors o' errors' :
  Body.insertItemAt item hasParent (-1) force o errors = Returned o' errors' ->
  isStandalone (cardClass item) = true /\ o' = setItems (_items o ++ [item]) o
  /\ errors' = errors.
Proof.
  unfold Body.insertItemAt.
  destruct (negb hasParent || force); [|discriminate].
  destruct (isStandalone (cardClass item)); [|discriminate].
  cbn. intros [<- <-]%ret_Returned. auto.
Qed.

Lemma setItems_keeps x o :
  cardClass (setItems x o) = cardClass o /\ card (setItems x o) = card o
  /\ _actionCollection (setItems x o) = _actionCollection o.
Proof. destruct o; simpl; auto. Qed.

Lemma setActions_keeps x o :
  cardClass (setActions x o) = cardClass o /\ card (setActions x o) = card o
  /\ _items (setActions x o) = _items o.
Proof. destruct o; simpl; auto. Qed.

Lemma Container_parse_shape role this json errors this' errors' :
  parsedShape role (target this) = true ->
  isContainer (cardClass (target this)) = true ->
  (role <> AsCard ->
   Utils.getStringValue (getMember "type" json)
   = Some (getJsonTypeName (cardClass (target this)))) ->
  Body.Container_parse G instantiate this json errors = Returned this' errors' ->
  Kept role this this'.
Proof.
  intros Hshape Hcont Htype. unfold Body.Container_parse.
  intros (this1 & e1 & H1 & H2)%bind_Returned.
  unfold Body.CardElement_parse in H1.
  apply (SerializableObject_parse_shape role) in H1 as [(K1 & K2 & K3 & K4) _]; auto.
  set (this2 := onTarget _ this1) in H2.
  assert (K : Kept role this this2).
  { unfold Kept, this2. cbn [target onTarget hostConfig isDesignMode].
    rewrite parsedShape_setShouldFallback.
    split; [now apply parsedShape_clear|].
    destruct (target this1) as [c ? ? ? ? ? ? ? ? ? ? ?]. unfold clear.
    cbn [cardClass] in *. destruct (isContainerWithActions c); simpl; auto. }
  clearbody this2. clear K1 K2 K3 K4 this1.
  destruct (getMember (Body.getItemsCollectionPropertyName _) json)
    as [[|?|?|?|jsonItems|?]|];
    cbv beta iota in H2;
    try (apply ret_Returned in H2 as [<- <-]; exact K).
  eapply Kept_trans; [exact K|].
  destruct K as (S2 & C2 & _ & _).
  refine (forEach_invariant (fun s => Kept role this2 s) _ jsonItems _ this2 e1 this' errors'
            (Kept_refl role this2 S2) H2).
  intros item s er s' er' Ks.
  intros ([element parent] & e & Hc & Hk)%bind_Returned.
  apply createElementInstance_shape in Hc as [Hflag Hel].
  apply FlagOnly_parentAfter in Hflag.
  assert (Kp : Kept role this2 (Body.parentAfter s parent)).
  { eapply Kept_trans; [exact Ks|]. apply Kept_SameButFlag; [apply Ks | exact Hflag]. }
  destruct element as [element|].
  - apply bind_Returned in Hk as (o & e2 & Hi & Hr).
    apply ret_Returned in Hr as [<- <-].
    apply insertItemAt_push in Hi as (Hst & -> & ->).
    destruct Kp as (P1 & P2 & P3 & P4).
    unfold Kept. cbn [target onTarget hostConfig isDesignMode].
    destruct (setItems_keeps (_items (target (Body.parentAfter s parent)) ++ [element])
                (target (Body.parentAfter s parent))) as (Q1 & _).
    rewrite Q1. repeat split; auto.
    apply parsedShape_add_item; auto. congruence.
  - now apply ret_Returned in Hk as [<- <-].
Qed.

Lemma ActionCollection_parse_shape role owner json errors owner' errors' :
  parsedShape role (target owner) = true ->
  hasActionCollection (cardClass (target owner)) = true ->
  Body.ActionCollection_parse G instantiate owner json errors = Returned owner' errors' ->
  Kept role owner owner'.
Proof.
  intros Hshape Hcoll. unfold Body.ActionCollection_parse.
  set (owner2 := onTarget (setActions []) owner).
  assert (K : Kept role owner owner2).
  { unfold Kept, owner2. cbn [target onTarget hostConfig isDesignMode].
    split; [now apply parsedShape_setActions_nil|].
    destruct (setActions_keeps [] (target owner)) as (Q1 & _). auto. }
  clearbody owner2.
  destruct json as [[|?|?|?|jsonActions|?]|];
    cbv beta iota;
    try (intros [<- <-]%ret_Returned; exact K).
  intros H2. eapply Kept_trans; [exact K|].
  destruct K as (S2 & C2 & _ & _).
  refine (forEach_invariant (fun s => Kept role owner2 s) _ jsonActions _ owner2 errors
            owner' errors' (Kept_refl role owner2 S2) H2).
  intros item s er s' er' Ks.
  intros ([action parent] & e & Hc & Hk)%bind_Returned.
  apply createActionInstance_shape in Hc as [Hflag Hact].
  apply FlagOnly_parentAfter in Hflag.
  assert (Kp : Kept role owner2 (Body.parentAfter s parent)).
  { eapply Kept_trans; [exact Ks|]. apply Kept_SameButFlag; [apply Ks | exact Hflag]. }
  destruct action as [action|].
  - apply bind_Returned in Hk as (o & e2 & Hi & Hr).
    apply ret_Returned in Hr as [<- <-].
    unfold Body.ActionCollection_addAction in Hi.
    apply ret_Returned in Hi as [<- <-].
    destruct Kp as (P1 & P2 & P3 & P4).
    unfold Kept. cbn [target onTarget hostConfig isDesignMode].
    destruct (setActions_keeps
                (_actionCollection (target (Body.parentAfter s parent)) ++ [action])
                (target (Body.parentAfter s parent))) as (Q1 & _).
    rewrite Q1. repeat split; auto.
    apply parsedShape_add_action; auto; [congruence | now apply Hact].
  - now apply ret_Returned in Hk as [<- <-].
Qed.

Lemma ContainerWithActions_parse_shape role this json errors this' errors' :
  parsedShape role (target this) = true ->
  isContainerWithActions (cardClass (target this)) = true ->
  (role <> AsCard ->
   Utils.getStringValue (getMember "type" json)
   = Some (getJsonTypeName (cardClass (target this)))) ->
  Body.ContainerWithActions_parse G instantiate this json errors = Returned this' errors' ->
  Kept role this this'.
Proof.
  intros Hshape Hc Htype. unfold Body.ContainerWithActions_parse.
  intros (this1 & e1 & H1 & H2)%bind_Returned.
  apply (Container_parse_shape role) in H1; auto.
  2:{ destruct (cardClass (target this)); try discriminate; reflexivity. }
  eapply Kept_trans; [exact H1|].
  destruct H1 as (K1 & K2 & _).
  apply (ActionCollection_parse_shape role) in H2; auto.
  rewrite K2. unfold hasActionCollection. now rewrite Hc.
Qed.

Lemma AdaptiveCard_parse_shape role this json errors this' errors' :
  parsedShape role (target this) = true ->
  isContainerWithActions (cardClass (target this)) = true ->
  (role <> AsCard ->
   Utils.getStringValue (getMember "type" json)
   = Some (getJsonTypeName (cardClass (target this)))) ->
  Body.AdaptiveCard_parse G instantiate this json errors = Returned this' errors' ->
  Kept role this this'.
Proof.
  intros Hshape Hc Htype. unfold Body.AdaptiveCard_parse.
  set (this0 := onTarget (setFallbackCard None) this).
  assert (K0 : Kept role this this0).
  { unfold Kept, this0. cbn [target onTarget hostConfig isDesignMode].
    rewrite parsedShape_setFallbackCard. destruct (target this); simpl; auto. }
  clearbody this0.
  intros ([fallbackElement ignored] & e1 & H1 & H2)%bind_Returned.
  apply bind_Returned in H2 as (this1 & e2 & H2 & H3).
  assert (K1 : Kept role this0 this1).
  { destruct fallbackElement as [el|].
    - apply bind_Returned in H2 as (fc & e3 & Hi & Hr).
      apply ret_Returned in Hr as [<- <-].
      unfold Kept. cbn [target onTarget hostConfig isDesignMode].
      rewrite parsedShape_setFallbackCard. destruct K0 as (? & ? & ? & ?).
      destruct (target this0); simpl; auto.
    - apply ret_Returned in H2 as [<- <-]. apply Kept_refl, K0. }
  assert (K : Kept role this this1) by (eapply Kept_trans; eauto).
  eapply Kept_trans; [exact K|].
  destruct K as (S1 & C1 & _).
  apply (ContainerWithActions_parse_shape role) in H3; auto; rewrite C1; auto.
Qed.

Lemma ColumnSet_parse_shape role this json errors this' errors' :
  parsedShape role (target this) = true ->
  cardClass (target this) = ColumnSet ->
  (role <> AsCard ->
   Utils.getStringValue (getMember "type" json)
   = Some (getJsonTypeName (cardClass (target this)))) ->
  Body.ColumnSet_parse G instantiate this json errors = Returned this' errors' ->
  Kept role this this'.
Proof.
  intros Hshape Hcls Htype. unfold Body.ColumnSet_parse.
  intros (this1 & e1 & H1 & H2)%bind_Returned.
  unfold Body.CardElement_parse in H1.
  apply (SerializableObject_parse_shape role) in H1 as [(K1 & K2 & K3 & K4) _]; auto.
  set (this2 := onTarget (setItems []) this1) in H2.
  assert (K : Kept role this this2).
  { unfold Kept, this2. cbn [target onTarget hostConfig isDesignMode].
    split; [now apply parsedShape_setItems_nil|].
    destruct (setItems_keeps [] (target this1)) as (Q1 & _). rewrite Q1. auto. }
  clearbody this2. clear K1 K2 K3 K4 this1.
  destruct (getMember "columns" json) as [[|?|?|?|jsonColumns|?]|];
    cbv beta iota in H2;
    try (apply ret_Returned in H2 as [<- <-]; exact K).
  eapply Kept_trans; [exact K|].
  destruct K as (S2 & C2 & _ & _).
  refine (forEach_invariant (fun s => Kept role this2 s) _ jsonColumns _ this2 e1 this' errors'
            (Kept_refl role this2 S2) H2).
  intros item s er s' er' Ks.
  intros ([column parent] & e & Hc & Hk)%bind_Returned.
  apply createColumnInstance_shape in Hc as [Hflag Hel].
  apply FlagOnly_parentAfter in Hflag.
  assert (Kp : Kept role this2 (Body.parentAfter s parent)).
  { eapply Kept_trans; [exact Ks|]. apply Kept_SameButFlag; [apply Ks | exact Hflag]. }
  destruct column as [column|].
  - apply ret_Returned in Hk as [<- <-].
    destruct Kp as (P1 & P2 & P3 & P4).
    unfold Kept. cbn [target onTarget hostConfig isDesignMode].
    destruct (setItems_keeps (_items (target (Body.parentAfter s parent)) ++ [column])
                (target (Body.parentAfter s parent))) as (Q1 & _).
    rewrite Q1. repeat split; auto.
    apply parsedShape_add_column; auto. congruence.
  - now apply ret_Returned in Hk as [<- <-].
Qed.

Lemma internalAddInline_push inline inlineParent o errors o' errors' :
  Body.internalAddInline inline inlineParent true o errors = Returned o' errors' ->
  isInline (cardClass inline) = true /\ o' = setItems (_items o ++ [inline]) o
  /\ errors' = errors.
Proof.
  unfold Body.internalAddInline.
  destruct (isInline (cardClass inline)); [|discriminate].
  rewrite orb_true_r. cbn. intros [<- <-]%ret_Returned. auto.
Qed.

Lemma RichTextBlock_parse_shape role this json errors this' errors' :
  parsedShape role (target this) = true ->
  cardClass (target this) = RichTextBlock ->
  (role <> AsCard ->
   Utils.getStringValue (getMember "type" json)
   = Some (getJsonTypeName (cardClass (target this)))) ->
  Body.RichTextBlock_parse G instantiate this json errors = Returned this' errors' ->
  Kept role this this'.
Proof.
  intros Hshape Hcls Htype. unfold Body.RichTextBlock_parse.
  intros (this1 & e1 & H1 & H2)%bind_Returned.
  unfold Body.CardElement_parse in H1.
  apply (SerializableObject_parse_shape role) in H1 as [(K1 & K2 & K3 & K4) _]; auto.
  set (this2 := onTarget (setItems []) this1) in H2.
  assert (K : Kept role this this2).
  { unfold Kept, this2. cbn [target onTarget hostConfig isDesignMode].
    split; [now apply parsedShape_setItems_nil|].
    destruct (setItems_keeps [] (target this1)) as (Q1 & _). rewrite Q1. auto. }
  clearbody this2. clear K1 K2 K3 K4 this1.
  destruct (getMember "inlines" json) as [[|?|?|?|jsonInlines|?]|];
    cbv beta iota in H2;
    try (apply ret_Returned in H2 as [<- <-]; exact K).
  eapply Kept_trans; [exact K|].
  destruct K as (S2 & C2 & _ & _).
  refine (forEach_invariant (fun s => Kept role this2 s) _ jsonInlines _ this2 e1 this' errors'
            (Kept_refl role this2 S2) H2).
  intros item s er s' er' Ks.
  intros ([[inline s1] inlineParent] & e & Hc & Hk)%bind_Returned.
  assert (Hin : Kept role this2 s1
                /\ forall x, inline = Some x -> parsedShape AsElement x = true).
  { destruct item;
      try (apply bind_Returned in Hc as ([el parent] & e3 & Hc & Hr);
           apply ret_Returned in Hr as [[= <- <- <-] <-];
           apply createElementInstance_shape in Hc as [Hflag Hel];
           apply FlagOnly_parentAfter in Hflag;
           split; [|exact Hel];
           eapply Kept_trans; [exact Ks|];
           apply Kept_SameButFlag; [apply Ks | exact Hflag]).
    apply ret_Returned in Hc as [[= <- <- <-] <-].
    split; [exact Ks|]. intros x [= <-]. reflexivity. }
  destruct Hin as [Kp Hel].
  destruct inline as [inline|].
  - apply bind_Returned in Hk as (o & e2 & Hi & Hr).
    apply ret_Returned in Hr as [<- <-].
    apply internalAddInline_push in Hi as (Hst & -> & ->).
    destruct Kp as (P1 & P2 & P3 & P4).
    unfold Kept. cbn [target onTarget hostConfig isDesignMode].
    destruct (setItems_keeps (_items (target s1) ++ [inline]) (target s1)) as (Q1 & _).
    rewrite Q1. repeat split; auto.
    apply parsedShape_add_inline; auto. congruence.
  - now apply ret_Returned in Hk as [<- <-].
Qed.

Lemma ActionSet_parse_shape role this json errors this' errors' :
  parsedShape role (target this) = true ->
  cardClass (target this) = ActionSet ->
  (role <> AsCard ->
   Utils.getStringValue (getMember "type" json)
   = Some (getJsonTypeName (cardClass (target this)))) ->
  Body.ActionSet_parse G instantiate this json errors = Returned this' errors' ->
  Kept role this this'.
Proof.
  intros Hshape Hcls Htype. unfold Body.ActionSet_parse.
  intros (this1 & e1 & H1 & H2)%bind_Returned.
  unfold Body.CardElement_parse in H1.
  apply (SerializableObject_parse_shape role) in H1 as [K1 _]; auto.
  eapply Kept_trans; [exact K1|].
  destruct K1 as (K1 & K2 & _).
  apply (ActionCollection_parse_shape role) in H2; auto.
  rewrite K2, Hcls. reflexivity.
Qed.

Lemma ShowCardAction_parse_shape role this json errors this' errors' :
  parsedShape role (target this) = true ->
  cardClass (target this) = ShowCardAction ->
  (role <> AsCard ->
   Utils.getStringValue (getMember "type" json)
   = Some (getJsonTypeName (cardClass (target this)))) ->
  Body.ShowCardAction_parse G instantiate this json errors = Returned this' errors' ->
  Kept role this this'.
Proof.
  intros Hshape Hcls Htype. unfold Body.ShowCardAction_parse.
  intros (this1 & e1 & H1 & H2)%bind_Returned.
  unfold Body.Action_parse in H1.
  apply (SerializableObject_parse_shape role) in H1 as [K1 (Kc & _)]; auto.
  destruct (if truthy (getMember "card" json) then getMember "card" json else None)
    as [j|].
  - apply bind_Returned in H2 as (c & e2 & Hp & Hr).
    apply ret_Returned in Hr as [<- <-].
    destruct K1 as (K1 & K2 & K3 & K4).
    destruct (parsedShape_card role (target this1) K1) as (c0 & Hc0 & Sc0); [congruence|].
    rewrite Hc0 in Hp. cbn [default from_option Datatypes.id] in Hp.
    apply (AdaptiveCard_parse_shape AsCard) in Hp as (Sc & Cc & _).
    + unfold Kept. cbn [target onTarget hostConfig isDesignMode].
      split; [apply parsedShape_setCard; auto; congruence|].
      destruct (target this1); simpl in *; auto.
    + exact Sc0.
    + cbn [target]. apply parsedShape_classOfRole in Sc0.
      destruct (cardClass c0); try discriminate Sc0; reflexivity.
    + intros Hne. now contradiction Hne.
  - apply bind_Returned in H2 as ([] & e2 & Hp & Hr).
    apply ret_Returned in Hr as [<- <-]. exact K1.
Qed.

Lemma parse_shape role this json errors this' errors' :
  role <> AsCard ->
  parsedShape role (target this) = true ->
  Utils.getStringValue (getMember "type" json)
  = Some (getJsonTypeName (cardClass (target this))) ->
  Body.parse G instantiate this json errors = Returned this' errors' ->
  Kept role this this'.
Proof.
  intros Hrole Hshape Htype. unfold Body.parse.
  pose proof (parsedShape_classOfRole role _ Hshape) as Hc.
  destruct (cardClass (target this)) eqn:Ec;
    try (apply (Container_parse_shape role); rewrite ?Ec; auto; fail);
    try (apply (AdaptiveCard_parse_shape role); rewrite ?Ec; auto; fail);
    try (apply (ColumnSet_parse_shape role); rewrite ?Ec; auto; fail);
    try (apply (RichTextBlock_parse_shape role); rewrite ?Ec; auto; fail);
    try (apply (ActionSet_parse_shape role); rewrite ?Ec; auto; fail);
    try (apply (ShowCardAction_parse_shape role); rewrite ?Ec; auto; fail);
    unfold Body.Action_parse, Body.CardElement_parse;
    intros H; apply (SerializableObject_parse_shape role) in H; rewrite ?Ec; auto;
    apply H.
Qed.

Lemma FlagOnly_refl parent : FlagOnly parent parent.
Proof. now left. Qed.

Lemma FlagOnly_flag parent :
  FlagOnly parent (option_map (onTarget (setShouldFallback true)) parent).
Proof. now right. Qed.

Lemma FlagOnly_after_flag parent parent' :
  FlagOnly (option_map (onTarget (setShouldFallback true)) parent) parent' ->
  FlagOnly parent parent'.
Proof.
  intros [->| ->]; [now right|]. right.
  destruct parent as [[o h d]|]; [|reflexivity]. simpl. destruct o; reflexivity.
Qed.

Lemma instanceRef_target parent result : target (Body.instanceRef G parent result) = result.
Proof. reflexivity. Qed.

(** The body of [createCardObjectInstance] builds parsed shapes when its
    nested calls do. *)
Lemma createCardObjectInstance_body_shape :
  BuildsParsedShapes (Body.createCardObjectInstance G instantiate).
Proof.
  intros role parent json forbidden allow cb ecb errors result parent' errors' Hrole Hcb.
  unfold Body.createCardObjectInstance.
  destruct json as [j|]; [|intros [[= <- <-] _]%ret_Returned;
                            split; [apply FlagOnly_refl | discriminate]].
  destruct (truthy (Some j) && typeof_object (Some j));
    [|intros [[= <- <-] _]%ret_Returned; split; [apply FlagOnly_refl | discriminate]].
  destruct (Utils.getStringValue (getMember "type" j)) as [typeName|] eqn:Etype;
    [|intros [[= <- <-] _]%ret_Returned; split; [apply FlagOnly_refl | discriminate]].
  cbn [Utils.isNullOrEmpty].
  destruct (String.eqb typeName EmptyString) eqn:Eempty;
    [intros [[= <- <-] _]%ret_Returned; split; [apply FlagOnly_refl | discriminate]|].
  apply eqb_false_neq in Eempty.
  cbn [negb default from_option Datatypes.id].
  destruct (existsb (String.eqb typeName) forbidden) eqn:Eforb.
  { intros ([] & e & H1 & [[= <- <-] _]%ret_Returned)%bind_Returned.
    split; [apply FlagOnly_refl | discriminate]. }
  intros ([r tryToFallback] & e & H1 & H2)%bind_Returned.
  assert (Hr : forall o, r = Some o ->
                 parsedShape role o = true
                 /\ existsb (String.eqb (getJsonTypeName (cardClass o))) forbidden = false).
  { destruct (cb typeName) as [obj|] eqn:Ecb.
    - destruct (Hcb typeName obj Eempty Ecb) as (c & -> & Hname & Hclass).
      apply bind_Returned in H1 as (this' & e1 & Hp & [[= <- <-] _]%ret_Returned).
      apply (parse_shape role) in Hp as (S1 & C1 & _); auto.
      + intros o [= <-]. split; [exact S1|]. rewrite C1, instanceRef_target.
        assert (cardClass (new c) = c) as -> by (destruct c; reflexivity).
        now rewrite Hname.
      + rewrite instanceRef_target. now apply parsedShape_new.
      + rewrite instanceRef_target, Etype.
        assert (cardClass (new c) = c) as -> by (destruct c; reflexivity).
        now rewrite Hname.
    - apply bind_Returned in H1 as ([] & e1 & _ & [[= <- <-] _]%ret_Returned).
      discriminate. }
  clear H1. destruct tryToFallback.
  - set (flagged := if negb (truthy (getMember "fallback" j)) then _ else parent) in H2.
    assert (Hf : FlagOnly parent flagged).
    { unfold flagged. destruct (negb _); [apply FlagOnly_flag | apply FlagOnly_refl]. }
    assert (Hnested : forall fb,
               instantiate flagged fb forbidden true cb ecb e
               = Returned (result, parent') errors' ->
               FlagOnly parent parent'
               /\ (forall o, result = Some o ->
                     parsedShape role o = true
                     /\ existsb (String.eqb (getJsonTypeName (cardClass o))) forbidden
                        = false)).
    { intros fb H. apply (Hinst role) in H as [H1 H3]; auto. split; [|exact H3].
      destruct Hf as [Hf|Hf]; rewrite Hf in H1; [exact H1|].
      now apply FlagOnly_after_flag. }
    destruct (getMember "fallback" j) as [[|?|?|s|?|?]|] eqn:Efb;
      cbn [typeof_object] in H2;
      try (apply Hnested in H2; exact H2);
      try (apply ret_Returned in H2 as [[= <- <-] _]; split; [exact Hf | exact Hr]).
    destruct (String.eqb (toLowerCase s) "drop");
      apply ret_Returned in H2 as [[= <- <-] _]; split; try exact Hf; try exact Hr.
    discriminate.
  - apply ret_Returned in H2 as [[= <- <-] _]. split; [apply FlagOnly_refl | exact Hr].
Qed.

End OpenRecursion.
End ParseShape.

Module ParsedShapes.
Import MonadFacts ShapeFacts.

Lemma BuiltInRegistry_replaceFactory role items name c :
  BuiltInRegistry role items ->
  getJsonTypeName c = name -> classOfRole role c = true ->
  BuiltInRegistry role (TypeRegistry.replaceFactory items name (fun _ => new c)).
Proof.
  unfold BuiltInRegistry. intros H Hname Hc.
  induction H as [|item rest Hitem Hrest IH]; cbn [TypeRegistry.replaceFactory].
  - constructor.
  - destruct (String.eqb_spec (TypeRegistry.typeName item) name) as [E|E].
    + constructor; [|exact Hrest]. exists c. cbn. rewrite E. auto.
    + constructor; [exact Hitem | exact IH].
Qed.

Lemma BuiltInRegistry_registerClass role items name c version :
  BuiltInRegistry role items ->
  getJsonTypeName c = name -> classOfRole role c = true ->
  BuiltInRegistry role (registerClass name c version items).
Proof.
  intros H Hname Hc. unfold registerClass, TypeRegistry.registerType.
  destruct (TypeRegistry.findTypeRegistration items name).
  - now apply BuiltInRegistry_replaceFactory.
  - apply Forall_app. split; [exact H|].
    constructor; [|constructor]. exists c. cbn. auto.
Qed.

Lemma BuiltInRegistry_callback role items :
  BuiltInRegistry role items ->
  BuiltInCallback role (fun typeName => TypeRegistry.createInstanceOf items typeName).
Proof.
  intros H name obj _. unfold TypeRegistry.createInstanceOf.
  induction H as [|item rest Hitem Hrest IH]; cbn [TypeRegistry.findTypeRegistration].
  - discriminate.
  - destruct (String.eqb_spec (TypeRegistry.typeName item) name) as [E|E]; [|exact IH].
    intros [= <-]. destruct Hitem as (c & -> & Hname & Hc).
    exists c. rewrite <- E. auto.
Qed.

Lemma builtIn_elements hc latestVersion :
  BuiltInCallback AsElement
    (fun typeName =>
       TypeRegistry.createInstanceOf
         (elementTypeRegistry (initialGlobals hc latestVersion)) typeName).
Proof.
  apply BuiltInRegistry_callback. cbn [elementTypeRegistry initialGlobals].
  unfold ElementTypeRegistry.reset.
  repeat (apply BuiltInRegistry_registerClass; [|reflexivity|reflexivity]).
  constructor.
Qed.

Lemma builtIn_actions hc latestVersion :
  BuiltInCallback AsAction
    (fun typeName =>
       TypeRegistry.createInstanceOf
         (actionTypeRegistry (initialGlobals hc latestVersion)) typeName).
Proof.
  apply BuiltInRegistry_callback. cbn [actionTypeRegistry initialGlobals].
  unfold ActionTypeRegistry.reset.
  repeat (apply BuiltInRegistry_registerClass; [|reflexivity|reflexivity]).
  constructor.
Qed.

(** With the built-in registries, [createCardObjectInstance] builds parsed
    shapes, whatever the bound on its nested calls. *)
Lemma createCardObjectInstance_shape hc latestVersion fuel :
  BuildsParsedShapes (createCardObjectInstance fuel (initialGlobals hc latestVersion)).
Proof.
  induction fuel as [|fuel IH].
  - intros role parent json forbidden allow cb ecb errors result parent' errors' _ _ H.
    discriminate H.
  - cbn [createCardObjectInstance].
    apply ParseShape.createCardObjectInstance_body_shape;
      auto using builtIn_elements, builtIn_actions.
Qed.

End ParsedShapes.


(* ===================================================================== *)
(** ** Parsing what [toJSON] wrote *)
(* ===================================================================== *)

Module MemberFacts.
Import MonadFacts.

Lemma assoc_app {A : Type} k (l1 l2 : list (string * A)) :
  assoc k (l1 ++ l2)
  = match assoc k l1 with Some v => Some v | None => assoc k l2 end.
Proof.
  induction l1 as [|[k' v] l1 IH]; cbn [assoc app]; [reflexivity|].
  destruct (String.eqb k' k); [reflexivity | exact IH].
Qed.

Lemma assoc_setProperty k k' v :
  assoc k (setProperty k' v) = if String.eqb k' k then v else None.
Proof. destruct v; cbn; destruct (String.eqb k' k); reflexivity. Qed.

Lemma assoc_setArrayProperty k k' items :
  assoc k (setArrayProperty k' items)
  = if String.eqb k' k then match items with [] => None | _ => Some (JArray items) end
    else None.
Proof. destruct items; cbn; destruct (String.eqb k' k); reflexivity. Qed.

Lemma toJSON_members o :
  toJSON o
  = JObject
      (setProperty "type" (option_map JString (typeNameValue o))
       ++ setProperty "id" (option_map JString (id o))
       ++ setProperty "requires" (HostCapabilitiesOps.toJSON (requires o))
       ++ (if schemaHasSelectAction (cardClass o)
           then setProperty "selectAction" (option_map toJSON (_selectAction o))
           else [])
       ++ match cardClass o with
          | AdaptiveCard =>
              setProperty "$schema" (Some (JString schemaUrl))
              ++ setProperty "version"
                   (option_map (fun v => JString (VersionOps.toString v)) (version o))
          | _ => []
          end
       ++ (if isContainer (cardClass o)
           then setArrayProperty (Body.getItemsCollectionPropertyName (cardClass o))
                  (map toJSON (_items o))
           else [])
       ++ match cardClass o with
          | ColumnSet => setArrayProperty "columns" (map toJSON (_items o))
          | RichTextBlock => setArrayProperty "inlines" (map toJSON (_items o))
          | _ => []
          end
       ++ (if hasActionCollection (cardClass o)
           then setProperty "actions"
                  match map toJSON (_actionCollection o) with
                  | [] => None
                  | actions => Some (JArray actions)
                  end
           else [])
       ++ match cardClass o with
          | ShowCardAction => setProperty "card" (option_map toJSON (card o))
          | _ => []
          end).
Proof.
  destruct o as [c tn i rq sf hcfg v sa items acts cd fb].
  cbn [toJSON cardClass typeNameValue id requires version _selectAction _items
       _actionCollection card].
  unfold hasActionCollection. destruct acts; reflexivity.
Qed.

(** The members of the JSON of an object, one lemma for each name the
    parsers ask for. *)
Ltac lookup o :=
  rewrite (toJSON_members o); cbn [getMember];
  destruct (cardClass o);
  cbn [schemaHasSelectAction isContainer hasActionCollection isContainerWithActions
       Body.getItemsCollectionPropertyName orb];
  rewrite ?assoc_app, ?assoc_setProperty, ?assoc_setArrayProperty;
  cbn [String.eqb Ascii.eqb Bool.eqb assoc];
  try destruct (map toJSON (_items o));
  try destruct (map toJSON (_actionCollection o));
  repeat match goal with
         | |- context [match ?v with Some _ => _ | None => _ end] => destruct v
         end;
  try (intros; reflexivity).

Lemma getMember_type o :
  getMember "type" (toJSON o) = option_map JString (typeNameValue o).
Proof. lookup o. Qed.

Lemma getMember_id o : getMember "id" (toJSON o) = option_map JString (id o).
Proof. lookup o. Qed.

Lemma getMember_requires o :
  getMember "requires" (toJSON o) = HostCapabilitiesOps.toJSON (requires o).
Proof. lookup o. Qed.

Lemma getMember_selectAction o :
  getMember "selectAction" (toJSON o)
  = if schemaHasSelectAction (cardClass o) then option_map toJSON (_selectAction o)
    else None.
Proof. lookup o. Qed.

Lemma getMember_fallback o : getMember "fallback" (toJSON o) = None.
Proof. lookup o. Qed.

Lemma getMember_items o :
  isContainer (cardClass o) = true ->
  getMember (Body.getItemsCollectionPropertyName (cardClass o)) (toJSON o)
  = match map toJSON (_items o) with [] => None | items => Some (JArray items) end.
Proof. intros H. revert H. lookup o; discriminate. Qed.

Lemma getMember_columns o :
  cardClass o = ColumnSet ->
  getMember "columns" (toJSON o)
  = match map toJSON (_items o) with [] => None | items => Some (JArray items) end.
Proof. intros H. revert H. lookup o; discriminate. Qed.

Lemma getMember_inlines o :
  cardClass o = RichTextBlock ->
  getMember "inlines" (toJSON o)
  = match map toJSON (_items o) with [] => None | items => Some (JArray items) end.
Proof. intros H. revert H. lookup o; discriminate. Qed.

Lemma getMember_actions o :
  hasActionCollection (cardClass o) = true ->
  getMember "actions" (toJSON o)
  = match map toJSON (_actionCollection o) with
    | [] => None
    | actions => Some (JArray actions)
    end.
Proof. intros H. revert H. lookup o; discriminate. Qed.

Lemma getMember_card o :
  cardClass o = ShowCardAction ->
  getMember "card" (toJSON o) = option_map toJSON (card o).
Proof. intros H. revert H. lookup o; discriminate. Qed.

End MemberFacts.

Module SizeFacts.

Lemma getMember_size k j v : getMember k j = Some v -> (json_size v < json_size j)%nat.
Proof.
  destruct j as [| | | | |members]; try discriminate. cbn [getMember json_size].
  unfold list_sum.
  induction members as [|[k' v'] members IH]; cbn [assoc map fold_right]; [discriminate|].
  cbv beta. cbn [snd]. destruct (String.eqb k' k).
  - intros [= ->]. lia.
  - intros H. apply IH in H. lia.
Qed.

Lemma item_size (x : Json) items : In x items -> (json_size x < json_size (JArray items))%nat.
Proof.
  cbn [json_size]. unfold list_sum.
  induction items as [|y items IH]; cbn [In map fold_right]; [tauto|].
  intros [->|H]; [lia|]. apply IH in H. lia.
Qed.

Lemma array_member_size k j items (x : Json) :
  getMember k j = match items with [] => None | y :: ys => Some (JArray (y :: ys)) end ->
  In x items -> (json_size x < json_size j)%nat.
Proof.
  intros Hm Hx. destruct items as [|y items]; [contradiction|].
  apply getMember_size in Hm. apply item_size in Hx. lia.
Qed.

Lemma typed_size o tn : typeNameValue o = Some tn -> (2 <= json_size (toJSON o))%nat.
Proof.
  intros H. pose proof (MemberFacts.getMember_type o) as Hm. rewrite H in Hm.
  apply getMember_size in Hm. cbn in Hm. lia.
Qed.

End SizeFacts.

Module AlikeFacts.

Lemma Alike_refl a : Alike a a.
Proof. now split. Qed.

Lemma Alike_trans a b c : Alike a b -> Alike b c -> Alike a c.
Proof. intros [] []. split; congruence. Qed.

Lemma Alike_setShouldFallback f a b : Alike a b -> Alike (setShouldFallback f a) b.
Proof. intros []. now split. Qed.

Lemma Alike_setFallbackCard x a b : Alike a b -> Alike (setFallbackCard x a) b.
Proof. intros []. now split. Qed.

Lemma Alike_setSelectAction x y a b :
  Alike a b -> option_map toJSON x = option_map toJSON y ->
  Alike (setSelectAction x a) (setSelectAction y b).
Proof. intros [] H. now split. Qed.

Lemma Alike_setItems x y a b :
  Alike a b -> map toJSON x = map toJSON y -> Alike (setItems x a) (setItems y b).
Proof. intros [] H. now split. Qed.

Lemma Alike_setActions x y a b :
  Alike a b -> map toJSON x = map toJSON y -> Alike (setActions x a) (setActions y b).
Proof. intros [] H. now split. Qed.

Lemma Alike_setCard x y a b :
  Alike a b -> option_map toJSON x = option_map toJSON y ->
  Alike (setCard x a) (setCard y b).
Proof. intros [] H. now split. Qed.

Lemma Alike_clear a b : Alike a b -> Alike (clear a) (clear b).
Proof.
  intros H. unfold clear. rewrite (alike_class _ _ H).
  destruct (isContainerWithActions (cardClass b));
    repeat (apply Alike_setActions || apply Alike_setItems); auto.
Qed.

Lemma Alike_SameButFlag a b c :
  SameButFlag a b -> Alike (target a) c -> Alike (target b) c.
Proof.
  intros [] H; [exact H|]. cbn [target onTarget]. now apply Alike_setShouldFallback.
Qed.

(** The objects [toJSON] cannot tell apart have the same JSON. *)
Lemma Alike_toJSON a b : Alike a b -> cardClass a <> AdaptiveCard -> toJSON a = toJSON b.
Proof.
  intros [Hc Ht Hi Hr Hs Hit Ha Hcd] Hne.
  rewrite (MemberFacts.toJSON_members a), (MemberFacts.toJSON_members b).
  rewrite <- Hc, Ht, Hi, Hr, Hs, Hit, Ha, Hcd.
  destruct (cardClass a); try reflexivity. now contradiction Hne.
Qed.

End AlikeFacts.

Module Reparse.
Import MonadFacts ShapeFacts MemberFacts SizeFacts AlikeFacts.

(** What [parsedShape] says, one fact for each part of the object. *)
Lemma parsedShape_inv role o :
  parsedShape role o = true ->
  classOfRole role (cardClass o) = true
  /\ (role <> AsCard -> typeNameValue o = Some (getJsonTypeName (cardClass o)))
  /\ forallb (fun nv => isValid (snd nv)) (requires o) = true
  /\ (forall a, _selectAction o = Some a ->
        schemaHasSelectAction (cardClass o) = true
        /\ parsedShape AsAction a = true
        /\ String.eqb (getJsonTypeName (cardClass a)) "Action.ShowCard" = false)
  /\ (isContainer (cardClass o) = true ->
        Forall (fun x => parsedShape AsElement x = true
                         /\ isStandalone (cardClass x) = true) (_items o))
  /\ (cardClass o = ColumnSet -> Forall (fun x => parsedShape AsColumn x = true) (_items o))
  /\ (cardClass o = RichTextBlock ->
        Forall (fun x => parsedShape AsElement x = true
                         /\ isInline (cardClass x) = true) (_items o))
  /\ (isContainer (cardClass o) = false -> cardClass o <> ColumnSet ->
      cardClass o <> RichTextBlock -> _items o = [])
  /\ (hasActionCollection (cardClass o) = true ->
        Forall (fun x => parsedShape AsAction x = true) (_actionCollection o))
  /\ (hasActionCollection (cardClass o) = false -> _actionCollection o = [])
  /\ (cardClass o = ShowCardAction ->
        exists theCard, card o = Some theCard /\ parsedShape AsCard theCard = true)
  /\ (cardClass o <> ShowCardAction -> card o = None).
Proof.
  destruct o as [c tn i rq sf hcfg v sa items acts cd fb].
  cbn [parsedShape cardClass typeNameValue id requires _selectAction
       _items _actionCollection card].
  rewrite !andb_true_iff.
  intros [[[[[[H1 H2] H3] H4] H5] H6] H7].
  split; [exact H1|]. split.
  { intros Hrole. destruct role; try (now apply bool_decide_eq_true_1 in H2).
    now contradiction Hrole. }
  split; [exact H3|]. split.
  { intros a ->. rewrite !andb_true_iff in H4. destruct H4 as [[? ?] ?].
    repeat split; auto. now apply negb_true_iff. }
  split.
  { intros Hc. rewrite Hc in H5. apply List.Forall_forall. intros x Hx.
    rewrite forallb_forall in H5. apply H5 in Hx. now apply andb_true_iff in Hx. }
  split.
  { intros ->. cbn in H5. apply List.Forall_forall. intros x Hx.
    rewrite forallb_forall in H5. now apply H5. }
  split.
  { intros ->. cbn in H5. apply List.Forall_forall. intros x Hx.
    rewrite forallb_forall in H5. apply H5 in Hx. now apply andb_true_iff in Hx. }
  split.
  { intros Hc Hn1 Hn2. rewrite Hc in H5.
    destruct c; try congruence; destruct items; congruence. }
  split.
  { intros Hc. rewrite Hc in H6. apply List.Forall_forall. intros x Hx.
    rewrite forallb_forall in H6. now apply H6. }
  split.
  { intros Hc. rewrite Hc in H6. destruct acts; congruence. }
  split.
  { intros ->. destruct cd; [eauto | discriminate]. }
  intros Hc. destruct c, cd; congruence.
Qed.

Lemma getStringValue_JString x : Utils.getStringValue (option_map JString x) = x.
Proof. now destruct x. Qed.

Lemma typeName_not_empty role c :
  role <> AsCard -> classOfRole role c = true ->
  String.eqb (getJsonTypeName c) EmptyString = false.
Proof. intros Hrole. destruct role, c; try discriminate; try reflexivity; congruence. Qed.

Lemma new_fields c :
  cardClass (new c) = c /\ _selectAction (new c) = None /\ _items (new c) = []
  /\ _actionCollection (new c) = [].
Proof. destruct c; repeat split. Qed.

Lemma forEach_map_Returned {A B S : Type} (g : A -> B) (body : B -> S -> M S)
    (I : list A -> S -> Prop) errors items :
  Forall (fun x => forall done s, I done s ->
            exists s', body (g x) s errors = Returned s' errors /\ I (done ++ [x]) s')
    items ->
  forall done s, I done s ->
    exists s', forEach (map g items) body s errors = Returned s' errors
               /\ I (done ++ items) s'.
Proof.
  induction 1 as [|x items Hx _ IH]; intros done s Hs.
  - exists s. rewrite app_nil_r. split; [reflexivity | exact Hs].
  - destruct (Hx done s Hs) as (s1 & H1 & I1).
    destruct (IH (done ++ [x]) s1 I1) as (s2 & H2 & I2).
    exists s2. cbn [map forEach]. unfold bind. rewrite H1. split; [exact H2|].
    now rewrite <- app_assoc in I2.
Qed.

Section BuiltIn.

Variable hc : HostConfig.
Variable latestVersion : Version.

Local Notation "'G'" := (initialGlobals hc latestVersion).

Lemma instantiate_undefined fuel parent forbidden allow cb ecb errors :
  (1 <= fuel)%nat ->
  createCardObjectInstance fuel G parent None forbidden allow cb ecb errors
  = Returned (None, parent) errors.
Proof. destruct fuel; [lia|]. reflexivity. Qed.

Lemma elementCallback c :
  classOfRole AsElement c = true ->
  TypeRegistry.createInstanceOf (elementTypeRegistry G) (getJsonTypeName c) = Some (new c).
Proof. destruct c; try discriminate; intros _; vm_compute; reflexivity. Qed.

Lemma actionCallback c :
  classOfRole AsAction c = true ->
  TypeRegistry.createInstanceOf (actionTypeRegistry G) (getJsonTypeName c) = Some (new c).
Proof. destruct c; try discriminate; intros _; vm_compute; reflexivity. Qed.

(** [createCardObjectInstance] on the JSON of [o], from what [parse] does
    with it on a new instance of the class of [o]. *)
Lemma reinstantiate fuel role o :
  role <> AsCard ->
  parsedShape role o = true ->
  (forall this errors,
      target this = new (cardClass o) ->
      exists this',
        Body.parse G (createCardObjectInstance fuel G) this (toJSON o) errors
        = Returned this' errors
        /\ Alike (target this') o) ->
  Reinstantiates (createCardObjectInstance (S fuel) G) o.
Proof.
  intros Hrole Hshape Hparse parent forbidden allow cb ecb errors Hcb Hforb.
  apply parsedShape_inv in Hshape as (Hclass & Htn & _).
  specialize (Htn Hrole).
  pose proof (typeName_not_empty role _ Hrole Hclass) as Hne.
  cbn [createCardObjectInstance]. unfold Body.createCardObjectInstance.
  assert (Hobj : truthy (Some (toJSON o)) && typeof_object (Some (toJSON o)) = true).
  { destruct (ToJSONFacts.toJSON_is_object o) as [members ->]. reflexivity. }
  rewrite Hobj, getMember_type, Htn.
  cbn [option_map Utils.getStringValue Utils.isNullOrEmpty default from_option
       Datatypes.id].
  rewrite Hne. cbn [negb]. rewrite Hforb, Hcb.
  destruct (Hparse (Body.instanceRef G parent (new (cardClass o))) errors eq_refl)
    as (this' & Hp & Ha).
  unfold bind at 1. unfold bind at 1. rewrite Hp. cbn [ret].
  destruct (shouldFallback G (hostConfig this') (target this') && allow).
  - rewrite getMember_fallback. cbn [truthy negb typeof_object ret].
    eexists _, _. split; [reflexivity|]. split; [exact Ha | now right].
  - eexists _, _. split; [reflexivity|]. split; [exact Ha | now left].
Qed.

Lemma Alike_schemaValues o pv :
  forallb (fun nv => isValid (snd nv)) (requires o) = true ->
  Alike (setSchemaValues (typeNameValue o) (id o) (reread (requires o)) pv
           (new (cardClass o)))
        (setCard (card (new (cardClass o)))
           (setActions [] (setItems [] (setSelectAction None o)))).
Proof.
  intros Hvalid. destruct (new_fields (cardClass o)) as (N1 & N2 & N3 & N4).
  split; cbn [setSchemaValues setCard setActions setItems setSelectAction cardClass
              typeNameValue id requires _selectAction _items _actionCollection card];
    rewrite ?N1, ?N2, ?N3, ?N4; try reflexivity.
  now apply VersionFacts.toJSON_reread.
Qed.

(** [SerializableObject.parse] on the JSON of [o] reads the type name, the
    id, the required capabilities and the select action of [o]. *)
Lemma SerializableObject_reparse fuel role o this errors :
  parsedShape role o = true -> (1 <= fuel)%nat ->
  target this = new (cardClass o) ->
  (forall a, _selectAction o = Some a ->
             Reinstantiates (createCardObjectInstance fuel G) a) ->
  exists this',
    Body.SerializableObject_parse G (createCardObjectInstance fuel G) this (toJSON o) errors
    = Returned this' errors
    /\ Alike (target this')
         (setCard (card (new (cardClass o))) (setActions [] (setItems [] o)))
    /\ card (target this') = card (new (cardClass o)).
Proof.
  intros Hshape Hfuel Hnew Hsel.
  apply parsedShape_inv in Hshape as (Hclass & _ & Hvalid & Hsa & _).
  destruct (new_fields (cardClass o)) as (N1 & N2 & N3 & N4).
  unfold Body.SerializableObject_parse. cbv zeta.
  rewrite getMember_type, getMember_id, getMember_requires, !getStringValue_JString.
  rewrite VersionFacts.parse_toJSON by exact Hvalid.
  rewrite Hnew, N1.
  match goal with |- context [setSchemaValues _ _ _ ?v] => generalize v end. intros pv.
  assert (Hbase : Alike
                    (target (onTarget (setSchemaValues (typeNameValue o) (id o)
                                         (reread (requires o)) pv) this))
                    (setCard (card (new (cardClass o)))
                       (setActions [] (setItems [] (setSelectAction None o))))).
  { cbn [target onTarget]. rewrite Hnew. now apply Alike_schemaValues. }
  assert (Hcard : card (target (onTarget (setSchemaValues (typeNameValue o) (id o)
                                            (reread (requires o)) pv) this))
                  = card (new (cardClass o))).
  { cbn [target onTarget]. rewrite Hnew. now destruct (new (cardClass o)). }
  set (this1 := onTarget _ this) in *. clearbody this1.
  destruct (schemaHasSelectAction (cardClass o)) eqn:Es.
  - unfold Body.ActionPropertyDefinition_parse, Body.createActionInstance.
    rewrite getMember_selectAction, Es.
    destruct (_selectAction o) as [a|] eqn:Ea.
    + destruct (Hsa a eq_refl) as (_ & Ha & Hshow).
      apply parsedShape_classOfRole in Ha.
      cbn [option_map].
      match goal with
      | |- context [createCardObjectInstance fuel _ ?p _ ?f ?al ?cb ?ecb] =>
          destruct (Hsel a eq_refl p f al cb ecb errors)
            as (a' & parent' & Hi & Haa & Hflag);
            [apply (actionCallback _ Ha) | cbn [existsb]; now rewrite Hshow |]
      end.
      unfold bind at 1. unfold bind at 1. rewrite Hi. cbn [ret].
      eexists. split; [reflexivity|]. cbn [target onTarget].
      apply ParseShape.FlagOnly_parentAfter in Hflag.
      apply (Alike_SameButFlag _ _ _ Hflag) in Hbase.
      apply (Alike_setSelectAction (Some a') (Some a)) in Hbase;
        [|cbn; f_equal; apply Alike_toJSON; [exact Haa|]].
      * split; [destruct o; cbn in *; subst; exact Hbase|].
        rewrite <- Hcard. destruct Hflag; [|cbn [target onTarget]];
          now destruct (target this1).
      * rewrite (alike_class _ _ Haa). destruct (cardClass a); discriminate.
    + cbn [option_map]. unfold bind at 1. unfold bind at 1.
      rewrite instantiate_undefined by exact Hfuel. cbn [ret Body.parentAfter].
      eexists. split; [reflexivity|]. cbn [target onTarget].
      apply (Alike_setSelectAction None None) in Hbase; [|reflexivity].
      split; [destruct o; cbn in *; subst; exact Hbase|].
      rewrite <- Hcard. now destruct (target this1).
  - eexists. split; [reflexivity|]. cbn [target]. split; [|exact Hcard].
    destruct (_selectAction o) as [a|] eqn:Ea.
    + destruct (Hsa a eq_refl) as (Hx & _). congruence.
    + destruct o; cbn in *. subst. exact Hbase.
Qed.

Lemma Alike_push_item t done ref o' x :
  Alike t (setItems done ref) -> Alike o' x -> cardClass x <> AdaptiveCard ->
  Alike (setItems (_items t ++ [o']) t) (setItems (done ++ [x]) ref).
Proof.
  intros [Hc Ht Hi Hr Hs Hit Ha Hcd] Hx Hne.
  apply Alike_toJSON in Hx; [|now rewrite (alike_class _ _ Hx)].
  split; cbn in *; auto. rewrite !map_app, Hit. cbn. now rewrite Hx.
Qed.

Lemma Alike_push_action t done ref o' x :
  Alike t (setActions done ref) -> Alike o' x -> cardClass x <> AdaptiveCard ->
  Alike (setActions (_actionCollection t ++ [o']) t) (setActions (done ++ [x]) ref).
Proof.
  intros [Hc Ht Hi Hr Hs Hit Ha Hcd] Hx Hne.
  apply Alike_toJSON in Hx; [|now rewrite (alike_class _ _ Hx)].
  split; cbn in *; auto. rewrite !map_app, Ha. cbn. now rewrite Hx.
Qed.

Lemma classOfRole_not_card role c :
  role <> AsCard -> classOfRole role c = true -> c <> AdaptiveCard.
Proof. intros Hrole H ->. destruct role; discriminate || congruence. Qed.

(** The loop of [Container.parse] over the JSON of standalone elements. *)
Lemma items_reparse fuel items ref this errors :
  Forall (fun x => Reinstantiates (createCardObjectInstance fuel G) x
                   /\ classOfRole AsElement (cardClass x) = true
                   /\ isStandalone (cardClass x) = true) items ->
  Alike (target this) (setItems [] ref) ->
  exists this',
    forEach (map toJSON items)
      (fun item this =>
         do '(element, parent) <-
           Body.createElementInstance G (createCardObjectInstance fuel G)
             (Some this) (Some item) (negb (isDesignMode this));
         let this := Body.parentAfter this parent in
         match element with
         | Some element =>
             do o <- Body.insertItemAt element true (-1) true (target this);
             ret (onTarget (fun _ => o) this)
         | None => ret this
         end)
      this errors
    = Returned this' errors
    /\ Alike (target this') (setItems items ref).
Proof.
  intros Hitems Hthis.
  refine (forEach_map_Returned toJSON _
            (fun done s => Alike (target s) (setItems done ref)) errors items _ [] this Hthis).
  eapply Forall_impl; [exact Hitems|]. cbv beta.
  intros x (Hre & Hclass & Hstand) done s Hs.
  unfold Body.createElementInstance.
  match goal with
  | |- context [createCardObjectInstance fuel _ ?p _ ?f ?al ?cb ?ecb] =>
      destruct (Hre p f al cb ecb errors) as (o' & parent' & Hi & Hao & Hflag);
        [apply (elementCallback _ Hclass) | reflexivity |]
  end.
  unfold bind at 1. rewrite Hi. cbv beta iota zeta.
  apply ParseShape.FlagOnly_parentAfter in Hflag.
  apply (Alike_SameButFlag _ _ _ Hflag) in Hs.
  unfold Body.insertItemAt. rewrite (alike_class _ _ Hao), Hstand.
  cbn [negb orb Z.ltb Z.compare]. unfold bind, ret.
  eexists. split; [reflexivity|]. cbn [target onTarget].
  apply Alike_push_item; auto. now apply (classOfRole_not_card AsElement).
Qed.

(** The loop of [ColumnSet.parse] over the JSON of columns. *)
Lemma columns_reparse fuel items ref this errors :
  Forall (fun x => Reinstantiates (createCardObjectInstance fuel G) x
                   /\ cardClass x = Column) items ->
  Alike (target this) (setItems [] ref) ->
  exists this',
    forEach (map toJSON items)
      (fun item this =>
         do '(column, parent) <-
           Body.createColumnInstance (createCardObjectInstance fuel G) this (Some item);
         let this := Body.parentAfter this parent in
         match column with
         | Some column => ret (onTarget (fun o => setItems (_items o ++ [column]) o) this)
         | None => ret this
         end)
      this errors
    = Returned this' errors
    /\ Alike (target this') (setItems items ref).
Proof.
  intros Hitems Hthis.
  refine (forEach_map_Returned toJSON _
            (fun done s => Alike (target s) (setItems done ref)) errors items _ [] this Hthis).
  eapply Forall_impl; [exact Hitems|]. cbv beta.
  intros x (Hre & Hclass) done s Hs.
  unfold Body.createColumnInstance.
  match goal with
  | |- context [createCardObjectInstance fuel _ ?p _ ?f ?al ?cb ?ecb] =>
      destruct (Hre p f al cb ecb errors) as (o' & parent' & Hi & Hao & Hflag);
        [rewrite Hclass; reflexivity | reflexivity |]
  end.
  unfold bind at 1. rewrite Hi. cbv beta iota zeta.
  apply ParseShape.FlagOnly_parentAfter in Hflag.
  apply (Alike_SameButFlag _ _ _ Hflag) in Hs.
  unfold ret. eexists. split; [reflexivity|]. cbn [target onTarget].
  apply Alike_push_item; auto. rewrite Hclass. discriminate.
Qed.

(** The loop of [RichTextBlock.parse] over the JSON of inlines. *)
Lemma inlines_reparse fuel items ref this errors :
  Forall (fun x => Reinstantiates (createCardObjectInstance fuel G) x
                   /\ classOfRole AsElement (cardClass x) = true
                   /\ isInline (cardClass x) = true) items ->
  Alike (target this) (setItems [] ref) ->
  exists this',
    forEach (map toJSON items)
      (fun jsonInline this =>
         do '(inline, this, inlineParent) <-
           match jsonInline with
           | JString _ => ret (Some (new TextRun), this, Body.NoParent)
           | _ =>
               do '(inline, parent) <-
                 Body.createElementInstance G (createCardObjectInstance fuel G)
                   (Some this) (Some jsonInline) false;
               ret (inline, Body.parentAfter this parent, Body.ThisObject)
           end;
         match inline with
         | Some inline =>
             do o <- Body.internalAddInline inline inlineParent true (target this);
             ret (onTarget (fun _ => o) this)
         | None => ret this
         end)
      this errors
    = Returned this' errors
    /\ Alike (target this') (setItems items ref).
Proof.
  intros Hitems Hthis.
  refine (forEach_map_Returned toJSON _
            (fun done s => Alike (target s) (setItems done ref)) errors items _ [] this Hthis).
  eapply Forall_impl; [exact Hitems|]. cbv beta.
  intros x (Hre & Hclass & Hinline) done s Hs.
  destruct (Hre (Some s) [] false
              (fun typeName =>
                 TypeRegistry.createInstanceOf (elementTypeRegistry G) typeName)
              (fun typeName errorType =>
                 match errorType with
                 | UnknownType =>
                     MkValidationError Enums.UnknownElementType
                       ("Unknown element type: " ++ typeName
                        ++ ". Fallback will be used if present.")
                 | ForbiddenType =>
                     MkValidationError Enums.ElementTypeNotAllowed
                       ("Element type " ++ typeName ++ " is not allowed in this context.")
                 end)
              errors) as (o' & parent' & Hi & Hao & Hflag);
    [apply (elementCallback _ Hclass) | reflexivity |].
  destruct (ToJSONFacts.toJSON_is_object x) as [members Hx]. rewrite Hx in *.
  unfold Body.createElementInstance.
  unfold bind at 1. unfold bind at 1. rewrite Hi. cbv beta iota zeta. cbn [ret].
  apply ParseShape.FlagOnly_parentAfter in Hflag.
  apply (Alike_SameButFlag _ _ _ Hflag) in Hs.
  unfold Body.internalAddInline. rewrite (alike_class _ _ Hao), Hinline.
  cbn [negb orb andb]. unfold bind, ret.
  eexists. split; [reflexivity|]. cbn [target onTarget].
  apply Alike_push_item; auto. now apply (classOfRole_not_card AsElement).
Qed.

(** [ActionCollection.parse] on the JSON of actions. *)
Lemma actions_reparse fuel actions ref owner errors :
  Forall (fun x => Reinstantiates (createCardObjectInstance fuel G) x
                   /\ classOfRole AsAction (cardClass x) = true) actions ->
  Alike (target owner) ref ->
  exists owner',
    Body.ActionCollection_parse G (createCardObjectInstance fuel G) owner
      match map toJSON actions with [] => None | js => Some (JArray js) end errors
    = Returned owner' errors
    /\ Alike (target owner') (setActions actions ref).
Proof.
  intros Hactions Howner. unfold Body.ActionCollection_parse.
  assert (Hstart : Alike (target (onTarget (setActions []) owner)) (setActions [] ref)).
  { cbn [target onTarget]. now apply Alike_setActions. }
  set (owner1 := onTarget (setActions []) owner) in *. clearbody owner1.
  destruct actions as [|a actions]; [eexists; split; [reflexivity | exact Hstart]|].
  change (map toJSON (a :: actions)) with (toJSON a :: map toJSON actions).
  cbv beta iota. change (toJSON a :: map toJSON actions) with (map toJSON (a :: actions)).
  refine (forEach_map_Returned toJSON _
            (fun done s => Alike (target s) (setActions done ref)) errors (a :: actions)
            _ [] owner1 Hstart).
  eapply Forall_impl; [exact Hactions|]. cbv beta.
  intros x (Hre & Hclass) done s Hs.
  unfold Body.createActionInstance.
  match goal with
  | |- context [createCardObjectInstance fuel _ ?p _ ?f ?al ?cb ?ecb] =>
      destruct (Hre p f al cb ecb errors) as (o' & parent' & Hi & Hao & Hflag);
        [apply (actionCallback _ Hclass) | reflexivity |]
  end.
  unfold bind at 1. rewrite Hi. cbv beta iota zeta.
  apply ParseShape.FlagOnly_parentAfter in Hflag.
  apply (Alike_SameButFlag _ _ _ Hflag) in Hs.
  unfold Body.ActionCollection_addAction, bind, ret.
  eexists. split; [reflexivity|]. cbn [target onTarget].
  apply Alike_push_action; auto. now apply (classOfRole_not_card AsAction).
Qed.

Lemma bare_clear o cd :
  clear (setCard cd (setActions [] (setItems [] o)))
  = setCard cd (setActions [] (setItems [] o)).
Proof. destruct o as [c ? ? ? ? ? ? ? ? ? ? ?]. unfold clear. cbn. now destruct c. Qed.

(** [Container.parse] on the JSON of a container [o]. *)
Lemma Container_reparse fuel role o this errors :
  parsedShape role o = true -> (1 <= fuel)%nat ->
  target this = new (cardClass o) ->
  isContainer (cardClass o) = true ->
  (forall a, _selectAction o = Some a ->
             Reinstantiates (createCardObjectInstance fuel G) a) ->
  Forall (Reinstantiates (createCardObjectInstance fuel G)) (_items o) ->
  exists this',
    Body.Container_parse G (createCardObjectInstance fuel G) this (toJSON o) errors
    = Returned this' errors
    /\ Alike (target this') (setCard (card (new (cardClass o))) (setActions [] o)).
Proof.
  intros Hshape Hfuel Hnew Hcont Hsel Hitems.
  destruct (SerializableObject_reparse fuel role o this errors Hshape Hfuel Hnew Hsel)
    as (this1 & H1 & A1 & _).
  apply parsedShape_inv in Hshape as (_ & _ & _ & _ & Hst & _).
  specialize (Hst Hcont).
  unfold Body.Container_parse, Body.CardElement_parse.
  unfold bind at 1. rewrite H1. cbv zeta.
  assert (A2 : Alike (target (onTarget (fun o => setShouldFallback false (clear o)) this1))
                 (setItems [] (setCard (card (new (cardClass o))) (setActions [] o)))).
  { cbn [target onTarget]. apply Alike_setShouldFallback.
    apply Alike_clear in A1. rewrite bare_clear in A1.
    destruct o; exact A1. }
  set (this2 := onTarget _ this1) in *. clearbody this2.
  replace (cardClass (target this2)) with (cardClass o)
    by (rewrite (alike_class _ _ A2); now destruct o).
  rewrite (getMember_items o Hcont).
  destruct (_items o) as [|x items] eqn:Ei.
  - eexists. split; [reflexivity|]. destruct o; cbn in *. subst. exact A2.
  - change (map toJSON (x :: items)) with (toJSON x :: map toJSON items).
    cbv beta iota. change (toJSON x :: map toJSON items) with (map toJSON (x :: items)).
    destruct (items_reparse fuel (x :: items)
                (setCard (card (new (cardClass o))) (setActions [] o)) this2 errors)
      as (this' & H3 & A3); [|exact A2|].
    + apply Forall_and; split; [exact Hitems|].
      eapply Forall_impl; [exact Hst|]. cbv beta. intros y [Hy1 Hy2].
      split; [now apply parsedShape_classOfRole | exact Hy2].
    + exists this'. split; [exact H3|]. destruct o; cbn in *. subst. exact A3.
Qed.

Lemma whole o :
  _actionCollection o = [] -> card o = card (new (cardClass o)) ->
  setCard (card (new (cardClass o))) (setActions [] o) = o.
Proof. destruct o. cbn. intros -> <-. reflexivity. Qed.

Lemma card_new c : c <> ShowCardAction -> card (new c) = None.
Proof. destruct c; congruence || reflexivity. Qed.

(** [ColumnSet.parse] on the JSON of a column set [o]. *)
Lemma ColumnSet_reparse fuel role o this errors :
  parsedShape role o = true -> (1 <= fuel)%nat ->
  target this = new (cardClass o) ->
  cardClass o = ColumnSet ->
  (forall a, _selectAction o = Some a ->
             Reinstantiates (createCardObjectInstance fuel G) a) ->
  Forall (Reinstantiates (createCardObjectInstance fuel G)) (_items o) ->
  exists this',
    Body.ColumnSet_parse G (createCardObjectInstance fuel G) this (toJSON o) errors
    = Returned this' errors
    /\ Alike (target this') o.
Proof.
  intros Hshape Hfuel Hnew Hc Hsel Hitems.
  destruct (SerializableObject_reparse fuel role o this errors Hshape Hfuel Hnew Hsel)
    as (this1 & H1 & A1 & _).
  apply parsedShape_inv in Hshape
    as (_ & _ & _ & _ & _ & Hcol & _ & _ & _ & Hacts & _ & Hcard).
  specialize (Hcol Hc). rewrite Hc in Hacts, Hcard.
  specialize (Hacts eq_refl). specialize (Hcard ltac:(discriminate)).
  unfold Body.ColumnSet_parse, Body.CardElement_parse.
  unfold bind at 1. rewrite H1. cbv zeta.
  assert (A2 : Alike (target (onTarget (setItems []) this1)) (setItems [] o)).
  { cbn [target onTarget]. apply (Alike_setItems [] []) in A1; [|reflexivity].
    destruct o; cbn in *. subst. exact A1. }
  set (this2 := onTarget _ this1) in *. clearbody this2.
  rewrite (getMember_columns o Hc).
  destruct (_items o) as [|x items] eqn:Ei.
  - eexists. split; [reflexivity|]. destruct o; cbn in *. subst. exact A2.
  - change (map toJSON (x :: items)) with (toJSON x :: map toJSON items).
    cbv beta iota. change (toJSON x :: map toJSON items) with (map toJSON (x :: items)).
    destruct (columns_reparse fuel (x :: items) o this2 errors)
      as (this' & H3 & A3); [|exact A2|].
    + apply Forall_and; split; [exact Hitems|].
      eapply Forall_impl; [exact Hcol|]. cbv beta. intros y Hy.
      apply parsedShape_classOfRole in Hy. destruct (cardClass y); now try discriminate.
    + exists this'. split; [exact H3|]. destruct o; cbn in *. subst. exact A3.
Qed.

(** [RichTextBlock.parse] on the JSON of a rich text block [o]. *)
Lemma RichTextBlock_reparse fuel role o this errors :
  parsedShape role o = true -> (1 <= fuel)%nat ->
  target this = new (cardClass o) ->
  cardClass o = RichTextBlock ->
  Forall (Reinstantiates (createCardObjectInstance fuel G)) (_items o) ->
  exists this',
    Body.RichTextBlock_parse G (createCardObjectInstance fuel G) this (toJSON o) errors
    = Returned this' errors
    /\ Alike (target this') o.
Proof.
  intros Hshape Hfuel Hnew Hc Hitems.
  assert (Hsel : forall a, _selectAction o = Some a ->
                           Reinstantiates (createCardObjectInstance fuel G) a).
  { intros a Ha. apply parsedShape_inv in Hshape as (_ & _ & _ & Hsa & _).
    destruct (Hsa a Ha) as (Hx & _). rewrite Hc in Hx. discriminate. }
  destruct (SerializableObject_reparse fuel role o this errors Hshape Hfuel Hnew Hsel)
    as (this1 & H1 & A1 & _).
  apply parsedShape_inv in Hshape
    as (_ & _ & _ & _ & _ & _ & Hin & _ & _ & Hacts & _ & Hcard).
  specialize (Hin Hc). rewrite Hc in Hacts, Hcard.
  specialize (Hacts eq_refl). specialize (Hcard ltac:(discriminate)).
  unfold Body.RichTextBlock_parse, Body.CardElement_parse.
  unfold bind at 1. rewrite H1. cbv zeta.
  assert (A2 : Alike (target (onTarget (setItems []) this1)) (setItems [] o)).
  { cbn [target onTarget]. apply (Alike_setItems [] []) in A1; [|reflexivity].
    destruct o; cbn in *. subst. exact A1. }
  set (this2 := onTarget _ this1) in *. clearbody this2.
  rewrite (getMember_inlines o Hc).
  destruct (_items o) as [|x items] eqn:Ei.
  - eexists. split; [reflexivity|]. destruct o; cbn in *. subst. exact A2.
  - change (map toJSON (x :: items)) with (toJSON x :: map toJSON items).
    cbv beta iota. change (toJSON x :: map toJSON items) with (map toJSON (x :: items)).
    destruct (inlines_reparse fuel (x :: items) o this2 errors)
      as (this' & H3 & A3); [|exact A2|].
    + apply Forall_and; split; [exact Hitems|].
      eapply Forall_impl; [exact Hin|]. cbv beta. intros y [Hy1 Hy2].
      split; [now apply parsedShape_classOfRole | exact Hy2].
    + exists this'. split; [exact H3|]. destruct o; cbn in *. subst. exact A3.
Qed.

(** [ActionSet.parse] on the JSON of an action set [o]. *)
Lemma ActionSet_reparse fuel role o this errors :
  parsedShape role o = true -> (1 <= fuel)%nat ->
  target this = new (cardClass o) ->
  cardClass o = ActionSet ->
  Forall (Reinstantiates (createCardObjectInstance fuel G)) (_actionCollection o) ->
  exists this',
    Body.ActionSet_parse G (createCardObjectInstance fuel G) this (toJSON o) errors
    = Returned this' errors
    /\ Alike (target this') o.
Proof.
  intros Hshape Hfuel Hnew Hc Hactions.
  assert (Hsel : forall a, _selectAction o = Some a ->
                           Reinstantiates (createCardObjectInstance fuel G) a).
  { intros a Ha. apply parsedShape_inv in Hshape as (_ & _ & _ & Hsa & _).
    destruct (Hsa a Ha) as (Hx & _). rewrite Hc in Hx. discriminate. }
  destruct (SerializableObject_reparse fuel role o this errors Hshape Hfuel Hnew Hsel)
    as (this1 & H1 & A1 & _).
  apply parsedShape_inv in Hshape
    as (_ & _ & _ & _ & _ & _ & _ & Hitems & Hacts & _ & _ & Hcard).
  rewrite Hc in Hitems, Hacts, Hcard.
  specialize (Hitems eq_refl ltac:(discriminate) ltac:(discriminate)).
  specialize (Hacts eq_refl). specialize (Hcard ltac:(discriminate)).
  unfold Body.ActionSet_parse, Body.CardElement_parse.
  unfold bind at 1. rewrite H1.
  rewrite getMember_actions by (rewrite Hc; reflexivity).
  destruct (actions_reparse fuel (_actionCollection o)
              (setCard (card (new (cardClass o))) (setActions [] (setItems [] o)))
              this1 errors) as (this' & H3 & A3); [|exact A1|].
  - apply Forall_and; split; [exact Hactions|].
    eapply Forall_impl; [exact Hacts|]. cbv beta. intros y Hy.
    now apply parsedShape_classOfRole.
  - exists this'. split; [exact H3|]. rewrite Hc in A3.
    destruct o; cbn in *. subst. exact A3.
Qed.

(** [AdaptiveCard.parse] on the JSON of the card [o] of a
    [ShowCardAction]. *)
Lemma AdaptiveCard_reparse fuel role o this errors :
  parsedShape role o = true -> (1 <= fuel)%nat ->
  target this = new (cardClass o) ->
  cardClass o = InlineAdaptiveCard ->
  (forall a, _selectAction o = Some a ->
             Reinstantiates (createCardObjectInstance fuel G) a) ->
  Forall (Reinstantiates (createCardObjectInstance fuel G)) (_items o) ->
  Forall (Reinstantiates (createCardObjectInstance fuel G)) (_actionCollection o) ->
  exists this',
    Body.AdaptiveCard_parse G (createCardObjectInstance fuel G) this (toJSON o) errors
    = Returned this' errors
    /\ Alike (target this') o.
Proof.
  intros Hshape Hfuel Hnew Hc Hsel Hitems Hactions.
  unfold Body.AdaptiveCard_parse. cbv zeta.
  rewrite getMember_fallback. unfold Body.createElementInstance at 1.
  unfold bind at 1. rewrite instantiate_undefined by exact Hfuel.
  cbv beta iota. unfold bind at 1. cbn [ret].
  unfold Body.ContainerWithActions_parse.
  destruct (Container_reparse fuel role o (onTarget (setFallbackCard None) this) errors)
    as (this1 & H1 & A1); auto.
  { cbn [target onTarget]. rewrite Hnew, Hc. reflexivity. }
  { rewrite Hc. reflexivity. }
  unfold bind at 1. rewrite H1.
  apply parsedShape_inv in Hshape
    as (_ & _ & _ & _ & _ & _ & _ & _ & Hacts & _ & _ & Hcard).
  rewrite Hc in Hacts, Hcard.
  specialize (Hacts eq_refl). specialize (Hcard ltac:(discriminate)).
  rewrite getMember_actions by (rewrite Hc; reflexivity).
  destruct (actions_reparse fuel (_actionCollection o)
              (setCard (card (new (cardClass o))) (setActions [] o))
              this1 errors) as (this' & H3 & A3); [|exact A1|].
  - apply Forall_and; split; [exact Hactions|].
    eapply Forall_impl; [exact Hacts|]. cbv beta. intros y Hy.
    now apply parsedShape_classOfRole.
  - exists this'. split; [exact H3|]. rewrite Hc in A3.
    destruct o; cbn in *. subst. exact A3.
Qed.

(** [ShowCardAction.parse] on the JSON of a show-card action [o]. *)
Lemma ShowCardAction_reparse fuel role o this errors :
  parsedShape role o = true -> (1 <= fuel)%nat ->
  target this = new (cardClass o) ->
  cardClass o = ShowCardAction ->
  (forall theCard this errors,
      card o = Some theCard -> target this = new (cardClass theCard) ->
      exists this',
        Body.AdaptiveCard_parse G (createCardObjectInstance fuel G) this (toJSON theCard)
          errors
        = Returned this' errors
        /\ Alike (target this') theCard) ->
  exists this',
    Body.ShowCardAction_parse G (createCardObjectInstance fuel G) this (toJSON o) errors
    = Returned this' errors
    /\ Alike (target this') o.
Proof.
  intros Hshape Hfuel Hnew Hc Hcardparse.
  assert (Hsel : forall a, _selectAction o = Some a ->
                           Reinstantiates (createCardObjectInstance fuel G) a).
  { intros a Ha. apply parsedShape_inv in Hshape as (_ & _ & _ & Hsa & _).
    destruct (Hsa a Ha) as (Hx & _). rewrite Hc in Hx. discriminate. }
  destruct (SerializableObject_reparse fuel role o this errors Hshape Hfuel Hnew Hsel)
    as (this1 & H1 & A1 & Hcard1).
  apply parsedShape_inv in Hshape
    as (_ & _ & _ & _ & _ & _ & _ & Hitems & _ & Hacts & Hcard & _).
  rewrite Hc in Hitems, Hacts.
  specialize (Hitems eq_refl ltac:(discriminate) ltac:(discriminate)).
  specialize (Hacts eq_refl). destruct (Hcard Hc) as (theCard & Hcd & Hshapecd).
  apply parsedShape_classOfRole in Hshapecd.
  assert (Hccd : cardClass theCard = InlineAdaptiveCard)
    by (destruct (cardClass theCard); now try discriminate).
  unfold Body.ShowCardAction_parse, Body.Action_parse.
  unfold bind at 1. rewrite H1. cbv zeta.
  rewrite (getMember_card o Hc), Hcd. cbn [option_map].
  assert (Ht : truthy (Some (toJSON theCard)) = true).
  { destruct (ToJSONFacts.toJSON_is_object theCard) as [members ->]. reflexivity. }
  rewrite Ht, Hcard1, Hc.
  change (card (new ShowCardAction)) with (Some (new InlineAdaptiveCard)).
  cbn [default from_option Datatypes.id].
  destruct (Hcardparse theCard
              (MkRef (new InlineAdaptiveCard) (hostConfig this1) (isDesignMode this1))
              errors Hcd) as (c' & H2 & A2).
  { now rewrite Hccd. }
  unfold bind at 1. rewrite H2. cbn [ret].
  eexists. split; [reflexivity|]. cbn [target onTarget].
  apply (Alike_setCard (Some (target c')) (Some theCard)) in A1.
  - destruct o; cbn in *. subst. exact A1.
  - cbn. f_equal. apply Alike_toJSON; [exact A2|].
    rewrite (alike_class _ _ A2), Hccd. discriminate.
Qed.

(** [SerializableObject.parse] on the JSON of an object [o] that owns no
    items, no actions and no card. *)
Lemma plain_reparse fuel role o this errors :
  parsedShape role o = true -> (1 <= fuel)%nat ->
  target this = new (cardClass o) ->
  isContainer (cardClass o) = false -> cardClass o <> ColumnSet ->
  cardClass o <> RichTextBlock -> hasActionCollection (cardClass o) = false ->
  cardClass o <> ShowCardAction ->
  (forall a, _selectAction o = Some a ->
             Reinstantiates (createCardObjectInstance fuel G) a) ->
  exists this',
    Body.SerializableObject_parse G (createCardObjectInstance fuel G) this (toJSON o) errors
    = Returned this' errors
    /\ Alike (target this') o.
Proof.
  intros Hshape Hfuel Hnew Hc1 Hc2 Hc3 Hc4 Hc5 Hsel.
  destruct (SerializableObject_reparse fuel role o this errors Hshape Hfuel Hnew Hsel)
    as (this1 & H1 & A1 & _).
  apply parsedShape_inv in Hshape
    as (_ & _ & _ & _ & _ & _ & _ & Hitems & _ & Hacts & _ & Hcard).
  specialize (Hitems Hc1 Hc2 Hc3). specialize (Hacts Hc4). specialize (Hcard Hc5).
  exists this1. split; [exact H1|].
  rewrite (card_new _ Hc5) in A1. destruct o; cbn in *. subst. exact A1.
Qed.

(** The role of the items of a parsed object. *)
Lemma items_roles role o :
  parsedShape role o = true ->
  Forall (fun x => exists r, r <> AsCard /\ parsedShape r x = true) (_items o).
Proof.
  intros Hshape.
  apply parsedShape_inv in Hshape as (_ & _ & _ & _ & Hst & Hcol & Hin & Hnone & _).
  destruct (isContainer (cardClass o)) eqn:E.
  - eapply Forall_impl; [exact (Hst eq_refl)|]. cbv beta. intros x [Hx _].
    exists AsElement. split; [discriminate | exact Hx].
  - destruct (cardClass o) eqn:Ec;
      try (rewrite Hnone by congruence; constructor).
    + eapply Forall_impl; [exact (Hcol eq_refl)|]. cbv beta. intros x Hx.
      exists AsColumn. split; [discriminate | exact Hx].
    + eapply Forall_impl; [exact (Hin eq_refl)|]. cbv beta. intros x [Hx _].
      exists AsElement. split; [discriminate | exact Hx].
Qed.

Lemma items_size role o x :
  parsedShape role o = true -> In x (_items o) ->
  (json_size (toJSON x) < json_size (toJSON o))%nat.
Proof.
  intros Hshape Hx.
  apply parsedShape_inv in Hshape as (_ & _ & _ & _ & _ & _ & _ & Hnone & _).
  apply (in_map toJSON) in Hx.
  destruct (isContainer (cardClass o)) eqn:E.
  - eapply array_member_size; [|exact Hx]. now apply getMember_items.
  - destruct (cardClass o) eqn:Ec;
      try (rewrite Hnone in Hx by congruence; contradiction).
    + eapply array_member_size; [|exact Hx]. now apply getMember_columns.
    + eapply array_member_size; [|exact Hx]. now apply getMember_inlines.
Qed.

Lemma actions_size role o x :
  parsedShape role o = true -> In x (_actionCollection o) ->
  (json_size (toJSON x) < json_size (toJSON o))%nat.
Proof.
  intros Hshape Hx.
  apply parsedShape_inv in Hshape as (_ & _ & _ & _ & _ & _ & _ & _ & _ & Hnone & _).
  apply (in_map toJSON) in Hx.
  destruct (hasActionCollection (cardClass o)) eqn:E.
  - eapply array_member_size; [|exact Hx]. now apply getMember_actions.
  - rewrite Hnone in Hx by reflexivity. contradiction.
Qed.

Lemma selectAction_size role o a :
  parsedShape role o = true -> _selectAction o = Some a ->
  (json_size (toJSON a) < json_size (toJSON o))%nat.
Proof.
  intros Hshape Ha.
  apply parsedShape_inv in Hshape as (_ & _ & _ & Hsa & _).
  destruct (Hsa a Ha) as (Hs & _).
  apply (getMember_size "selectAction"). now rewrite getMember_selectAction, Hs, Ha.
Qed.

Lemma card_size role o theCard :
  parsedShape role o = true -> card o = Some theCard ->
  (json_size (toJSON theCard) < json_size (toJSON o))%nat.
Proof.
  intros Hshape Hcd.
  pose proof Hshape as Hinv.
  apply parsedShape_inv in Hinv as (_ & _ & _ & _ & _ & _ & _ & _ & _ & _ & _ & Hnone).
  assert (Hc : cardClass o = ShowCardAction).
  { destruct (cardClass o) eqn:Ec; try reflexivity;
      rewrite Hnone in Hcd by discriminate; discriminate. }
  apply (getMember_size "card"). now rewrite getMember_card, Hcd.
Qed.

(** [createCardObjectInstance] on the JSON of a parsed object, from what
    [parse] does with it, when the bound covers the JSON. *)
Lemma child_reinstantiates role fuel x :
  role <> AsCard -> parsedShape role x = true ->
  (json_size (toJSON x) <= fuel)%nat ->
  (forall role fuel this errors,
      parsedShape role x = true ->
      (json_size (toJSON x) <= S fuel)%nat -> (1 <= fuel)%nat ->
      target this = new (cardClass x) ->
      exists this',
        Body.parse G (createCardObjectInstance fuel G) this (toJSON x) errors
        = Returned this' errors
        /\ Alike (target this') x) ->
  Reinstantiates (createCardObjectInstance fuel G) x.
Proof.
  intros Hrole Hshape Hsize IH.
  pose proof Hshape as Hinv. apply parsedShape_inv in Hinv as (_ & Htn & _).
  pose proof (typed_size x _ (Htn Hrole)) as H2.
  destruct fuel as [|fuel]; [lia|].
  apply (reinstantiate fuel role); auto.
  intros this errors Hnew. apply (IH role); auto. lia.
Qed.

(** [parse] on a new instance of the class of a parsed object [o], given
    the JSON that [toJSON] wrote for [o], returns with an object alike [o]
    and reports no error. *)
Lemma parse_reparse o :
  forall role fuel this errors,
    parsedShape role o = true ->
    (json_size (toJSON o) <= S fuel)%nat -> (1 <= fuel)%nat ->
    target this = new (cardClass o) ->
    exists this',
      Body.parse G (createCardObjectInstance fuel G) this (toJSON o) errors
      = Returned this' errors
      /\ Alike (target this') o.
Proof.
  induction o as [c tn i rq sf hcfg v sa items acts cd fb IHsa IHitems IHacts IHcd _]
    using CardObject_nested_ind.
  set (o := MkCardObject c tn i rq sf hcfg v sa items acts cd fb).
  intros role fuel this errors Hshape Hsize Hfuel Hnew.
  pose proof Hshape as Hinv.
  apply parsedShape_inv in Hinv
    as (Hclass & _ & _ & Hsa & _ & _ & _ & _ & Hacts & Hnoacts & Hcard & Hnocard).
  assert (Hsel : forall a, _selectAction o = Some a ->
                           Reinstantiates (createCardObjectInstance fuel G) a).
  { intros a Ha. destruct (Hsa a Ha) as (_ & Hshapea & _).
    pose proof (selectAction_size role o a Hshape Ha).
    apply (child_reinstantiates AsAction);
      [discriminate | exact Hshapea | lia | apply IHsa; exact Ha]. }
  assert (Hitems : Forall (Reinstantiates (createCardObjectInstance fuel G)) (_items o)).
  { pose proof (items_roles role o Hshape) as Hroles.
    apply List.Forall_forall. intros x Hx.
    rewrite List.Forall_forall in Hroles, IHitems.
    destruct (Hroles x Hx) as (r & Hr & Hshapex).
    pose proof (items_size role o x Hshape Hx).
    apply (child_reinstantiates r); [exact Hr | exact Hshapex | lia | now apply IHitems]. }
  assert (Hactions : Forall (Reinstantiates (createCardObjectInstance fuel G))
                       (_actionCollection o)).
  { apply List.Forall_forall. intros x Hx.
    rewrite List.Forall_forall in IHacts.
    pose proof (actions_size role o x Hshape Hx).
    destruct (hasActionCollection (cardClass o)) eqn:E.
    - specialize (Hacts eq_refl). rewrite List.Forall_forall in Hacts.
      apply (child_reinstantiates AsAction);
        [discriminate | now apply Hacts | lia | now apply IHacts].
    - rewrite Hnoacts in Hx by reflexivity. contradiction. }
  assert (Hcardparse : forall theCard this errors,
             card o = Some theCard -> target this = new (cardClass theCard) ->
             exists this',
               Body.AdaptiveCard_parse G (createCardObjectInstance fuel G) this
                 (toJSON theCard) errors
               = Returned this' errors
               /\ Alike (target this') theCard).
  { intros theCard this0 errors0 Hcd Hnew0.
    pose proof (card_size role o theCard Hshape Hcd).
    assert (Hc : cardClass o = ShowCardAction).
    { destruct (cardClass o) eqn:Ec; try reflexivity;
        rewrite Hnocard in Hcd by discriminate; discriminate. }
    destruct (Hcard Hc) as (theCard' & Hcd' & Hshapecd).
    assert (theCard' = theCard) as -> by congruence.
    destruct (IHcd theCard Hcd AsCard fuel this0 errors0 Hshapecd ltac:(lia) Hfuel Hnew0)
      as (this' & Hp & Ha).
    exists this'. split; [|exact Ha].
    unfold Body.parse in Hp. rewrite Hnew0 in Hp.
    apply parsedShape_classOfRole in Hshapecd.
    destruct (cardClass theCard); try discriminate Hshapecd. exact Hp. }
  clearbody o. clear IHsa IHitems IHacts IHcd.
  unfold Body.parse. rewrite Hnew.
  destruct (new_fields (cardClass o)) as (N1 & _). rewrite N1.
  destruct (cardClass o) eqn:Ec;
    try (destruct role; discriminate Hclass);
    rewrite <- Ec in *;
    try (unfold Body.CardElement_parse, Body.Action_parse;
         apply (plain_reparse fuel role); auto; rewrite ?Ec; try reflexivity;
         discriminate);
    try (apply (ColumnSet_reparse fuel role); now auto);
    try (apply (RichTextBlock_reparse fuel role); now auto);
    try (apply (ActionSet_reparse fuel role); now auto);
    try (apply (ShowCardAction_reparse fuel role); now auto);
    try (apply (AdaptiveCard_reparse fuel role); now auto).
  all: destruct (Container_reparse fuel role o this errors) as (this' & Hp & Ha);
    auto; try (rewrite Ec; reflexivity).
  all: exists this'; split; [exact Hp|].
  all: rewrite whole in Ha; auto;
    [apply Hnoacts; rewrite Ec; reflexivity
    |rewrite Hnocard, card_new by (rewrite Ec; discriminate); reflexivity].
Qed.

End BuiltIn.
End Reparse.


(* ===================================================================== *)
(** ** The round trip *)
(* ===================================================================== *)





(* ===================================================================== *)
(** ** The instantiation procedure: fragments without a type, fallbacks *)
(* ===================================================================== *)

Module InstantiateFacts.

(** The first steps of [createCardObjectInstance] on an object with a type
    name that is not forbidden. *)
Lemma typed_fragment G fuel parent json typeName forbidden allow cb ecb :
  truthy (Some json) && typeof_object (Some json) = true ->
  getMember "type" json = Some (JString typeName) ->
  typeName <> EmptyString ->
  typeName ∉ forbidden ->
  createCardObjectInstance (S fuel) G parent (Some json) forbidden allow cb ecb
  = (do '(result, tryToFallback) <-
       match cb typeName with
       | None =>
           do _ <- raiseParseError (ecb typeName UnknownType);
           ret (None, allow)
       | Some result =>
           do this <- Body.parse G (createCardObjectInstance fuel G)
                        (Body.instanceRef G parent result) json;
           ret (Some (target this),
                shouldFallback G (hostConfig this) (target this) && allow)
       end;
     if tryToFallback then
       let fallback := getMember "fallback" json in
       let parent :=
         if negb (truthy fallback)
         then option_map (onTarget (setShouldFallback true)) parent
         else parent in
       match fallback with
       | Some (JString s) =>
           if String.eqb (toLowerCase s) "drop" then ret (None, parent)
           else ret (result, parent)
       | _ =>
           if typeof_object fallback then
             createCardObjectInstance fuel G parent fallback forbidden true cb ecb
           else ret (result, parent)
       end
     else ret (result, parent)).
Proof.
  intros Hobj Ht Hne Hnot.
  cbn [createCardObjectInstance]. unfold Body.createCardObjectInstance.
  rewrite Hobj, Ht. cbn [Utils.getStringValue].
  rewrite (isNullOrEmpty_Some _ Hne). cbn [negb default from_option Datatypes.id].
  destruct (existsb (String.eqb typeName) forbidden) eqn:E.
  { apply existsb_eqb_elem in E. contradiction. }
  reflexivity.
Qed.

End InstantiateFacts.

(** X1.  A fragment that is not an object ([undefined], [null], a
    boolean, a number, a string), or that has no [type] string or an empty
    one (an array among them), gives no instance: the call returns
    [undefined], records no error and leaves the parent as it is, whatever
    the forbidden types, the callbacks and the fallback permission. *)
Theorem fragment_without_type_gives_no_instance :
  forall (G : Globals) (fuel : nat) (parent : option Ref) (json : option Json)
         (forbiddenTypeNames : list string) (allowFallback : bool)
         (cb : CreateInstanceCallback) (ecb : CreateValidationErrorCallback)
         (errors : Sink),
    truthy json && typeof_object json = false
    \/ (exists j, json = Some j
                  /\ Utils.isNullOrEmpty (Utils.getStringValue (getMember "type" j)) = true) ->
    createCardObjectInstance (S fuel) G parent json forbiddenTypeNames allowFallback cb ecb
      errors
    = Returned (None, parent) errors.
Proof.
  intros G fuel parent json forbidden allow cb ecb errors H.
  cbn [createCardObjectInstance]. unfold Body.createCardObjectInstance.
  destruct json as [j|]; [|reflexivity].
  destruct H as [H|(j' & [= <-] & H)].
  - rewrite H. reflexivity.
  - rewrite H. cbn [negb]. now destruct (truthy (Some j) && typeof_object (Some j)).
Qed.

(** X1 applies: an array, which is an object without a [type]. *)
Lemma fragment_without_type_gives_no_instance_witness :
  createCardObjectInstance 1 Sample.globals (Some Sample.parent)
    (Some (JArray [JString "TextBlock"])) [] true (fun _ => Some (new TextBlock))
    (fun _ _ => MkValidationError Enums.Hint EmptyString) (Some [])
  = Returned (None, Some Sample.parent) (Some []).
Proof.
  apply (fragment_without_type_gives_no_instance Sample.globals 0).
  right. eexists. split; reflexivity.
Defined.

(** X2.  A type that the instance callback does not know, when fallback is
    not allowed: the unknown-type error is recorded and nothing is
    returned; the [fallback] member of the fragment is not looked at and
    the parent is left as it is. *)
Theorem unknown_type_without_fallback_permission :
  forall (G : Globals) (fuel : nat) (parent : option Ref) (json : Json)
         (typeName : string) (forbiddenTypeNames : list string)
         (cb : CreateInstanceCallback) (ecb : CreateValidationErrorCallback)
         (errors : Sink),
    truthy (Some json) && typeof_object (Some json) = true ->
    getMember "type" json = Some (JString typeName) ->
    typeName <> EmptyString ->
    typeName ∉ forbiddenTypeNames ->
    cb typeName = None ->
    createCardObjectInstance (S fuel) G parent (Some json) forbiddenTypeNames false cb ecb
      errors
    = Returned (None, parent) (pushError (ecb typeName UnknownType) errors).
Proof.
  intros G fuel parent json typeName forbidden cb ecb errors Hobj Ht Hne Hnot Hcb.
  rewrite (InstantiateFacts.typed_fragment _ _ _ _ typeName); auto.
  rewrite Hcb. reflexivity.
Qed.

(** X2 applies: an unknown element type with an object-valued fallback. *)
Lemma unknown_type_without_fallback_permission_witness :
  createCardObjectInstance 1 Sample.globals (Some Sample.parent)
    (Some Sample.fooWithFallback) [] false
    (fun typeName =>
       TypeRegistry.createInstanceOf (elementTypeRegistry Sample.globals) typeName)
    (fun typeName _ => MkValidationError Enums.UnknownElementType typeName) (Some [])
  = Returned (None, Some Sample.parent)
      (Some [MkValidationError Enums.UnknownElementType "Foo"]).
Proof.
  apply (unknown_type_without_fallback_permission Sample.globals 0 (Some Sample.parent)
           Sample.fooWithFallback "Foo").
  - reflexivity.
  - reflexivity.
  - discriminate.
  - apply not_elem_of_nil.
  - reflexivity.
Defined.

(** X3.  A type that the instance callback does not know, with fallback
    allowed and a [fallback] member that is missing or falsy ([null],
    [false], [0], the empty string): the unknown-type error is recorded,
    nothing is returned, and the parent, when there is one, has its
    fallback flag set. *)
Theorem unknown_type_without_fallback_flags_parent :
  forall (G : Globals) (fuel : nat) (parent : option Ref) (json : Json)
         (typeName : string) (forbiddenTypeNames : list string)
         (cb : CreateInstanceCallback) (ecb : CreateValidationErrorCallback)
         (errors : Sink),
    truthy (Some json) && typeof_object (Some json) = true ->
    getMember "type" json = Some (JString typeName) ->
    typeName <> EmptyString ->
    typeName ∉ forbiddenTypeNames ->
    cb typeName = None ->
    truthy (getMember "fallback" json) = false ->
    createCardObjectInstance (S (S fuel)) G parent (Some json) forbiddenTypeNames true cb ecb
      errors
    = Returned (None, option_map (onTarget (setShouldFallback true)) parent)
        (pushError (ecb typeName UnknownType) errors).
Proof.
  intros G fuel parent json typeName forbidden cb ecb errors Hobj Ht Hne Hnot Hcb Hfb.
  rewrite (InstantiateFacts.typed_fragment _ _ _ _ typeName); auto.
  rewrite Hcb. unfold bind, raiseParseError, ret. cbv zeta. rewrite Hfb. cbn [negb].
  destruct (getMember "fallback" json) as [[|b|n|s|items|members]|];
    try discriminate Hfb; try reflexivity.
  cbn [truthy] in Hfb. apply negb_false_iff, String.eqb_eq in Hfb. subst s. reflexivity.
Qed.

(** X3 applies: an unknown element type with a [null] fallback. *)
Lemma unknown_type_without_fallback_flags_parent_witness :
  createCardObjectInstance 2 Sample.globals (Some Sample.parent)
    (Some (JObject [("type", JString "Foo"); ("fallback", JNull)])) [] true
    (fun typeName =>
       TypeRegistry.createInstanceOf (elementTypeRegistry Sample.globals) typeName)
    (fun typeName _ => MkValidationError Enums.UnknownElementType typeName) (Some [])
  = Returned (None, Some (onTarget (setShouldFallback true) Sample.parent))
      (Some [MkValidationError Enums.UnknownElementType "Foo"]).
Proof.
  apply (unknown_type_without_fallback_flags_parent Sample.globals 0 (Some Sample.parent)
           (JObject [("type", JString "Foo"); ("fallback", JNull)]) "Foo").
  - reflexivity.
  - reflexivity.
  - discriminate.
  - apply not_elem_of_nil.
  - reflexivity.
  - reflexivity.
Defined.

(** X4.  An instance whose [shouldFallback()] is true after its parse,
    with fallback allowed and a [fallback] string that reads [drop] in any
    letter case: the instance is dropped, nothing is returned, and the
    parent is left as it is, its fallback flag not set. *)
Theorem drop_fallback_in_any_case_drops_the_instance :
  forall (G : Globals) (fuel : nat) (parent : option Ref) (json : Json)
         (typeName s : string) (forbiddenTypeNames : list string)
         (cb : CreateInstanceCallback) (ecb : CreateValidationErrorCallback)
         (result : CardObject) (errors errors' : Sink) (this : Ref),
    truthy (Some json) && typeof_object (Some json) = true ->
    getMember "type" json = Some (JString typeName) ->
    typeName <> EmptyString ->
    typeName ∉ forbiddenTypeNames ->
    cb typeName = Some result ->
    Body.parse G (createCardObjectInstance fuel G) (Body.instanceRef G parent result)
      json errors = Returned this errors' ->
    shouldFallback G (hostConfig this) (target this) = true ->
    getMember "fallback" json = Some (JString s) ->
    toLowerCase s = "drop" ->
    createCardObjectInstance (S fuel) G parent (Some json) forbiddenTypeNames true cb ecb
      errors
    = Returned (None, parent) errors'.
Proof.
  intros G fuel parent json typeName s forbidden cb ecb result errors errors' this
         Hobj Ht Hne Hnot Hcb Hparse Hsf Hfb Hdrop.
  rewrite (InstantiateFacts.typed_fragment _ _ _ _ typeName); auto.
  rewrite Hcb. unfold bind at 1. unfold bind at 1. rewrite Hparse.
  unfold ret at 1. rewrite Hsf, Hfb. cbv zeta. rewrite Hdrop.
  destruct s as [|a s]; [discriminate Hdrop|]. reflexivity.
Qed.

(** X4 applies: a text block that requires a capability the host lacks,
    with the fallback [DROP]. *)
Lemma drop_fallback_in_any_case_drops_the_instance_witness :
  createCardObjectInstance 2 Sample.globals (Some Sample.parent)
    (Some (JObject [("type", JString "TextBlock");
                    ("requires", JObject [("CapX", JString "1.0")]);
                    ("fallback", JString "DROP")])) [] true
    (fun typeName =>
       TypeRegistry.createInstanceOf (elementTypeRegistry Sample.globals) typeName)
    (fun typeName _ => MkValidationError Enums.UnknownElementType typeName) (Some [])
  = Returned (None, Some Sample.parent) (Some []).
Proof.
  apply (drop_fallback_in_any_case_drops_the_instance Sample.globals 1
           (Some Sample.parent)
           (JObject [("type", JString "TextBlock");
                     ("requires", JObject [("CapX", JString "1.0")]);
                     ("fallback", JString "DROP")])
           "TextBlock" "DROP" [] _ _ (new TextBlock) (Some []) (Some [])
           (MkRef (setSchemaValues (Some "TextBlock") None
                     [("CapX", MkVersion "1.0" 1 0 true)] None (new TextBlock))
              Sample.hostConfig false)).
  - reflexivity.
  - reflexivity.
  - discriminate.
  - apply not_elem_of_nil.
  - reflexivity.
  - vm_compute. reflexivity.
  - reflexivity.
  - reflexivity.
  - reflexivity.
Defined.

(** X5.  An instance whose [shouldFallback()] is true after its parse,
    with fallback allowed and a [fallback] member that is [null]: [null]
    is falsy, so the parent has its flag set, and [typeof null] is
    ["object"], so the instance is replaced by the instantiation of
    [null], which is nothing.  With a [fallback] that is [false], [0] or
    the empty string the parent has its flag set and the instance is
    kept. *)
Theorem null_fallback_drops_the_instance :
  forall (G : Globals) (fuel : nat) (parent : option Ref) (json : Json)
         (typeName : string) (forbiddenTypeNames : list string)
         (cb : CreateInstanceCallback) (ecb : CreateValidationErrorCallback)
         (result : CardObject) (errors errors' : Sink) (this : Ref),
    truthy (Some json) && typeof_object (Some json) = true ->
    getMember "type" json = Some (JString typeName) ->
    typeName <> EmptyString ->
    typeName ∉ forbiddenTypeNames ->
    cb typeName = Some result ->
    Body.parse G (createCardObjectInstance (S fuel) G) (Body.instanceRef G parent result)
      json errors = Returned this errors' ->
    shouldFallback G (hostConfig this) (target this) = true ->
    truthy (getMember "fallback" json) = false ->
    createCardObjectInstance (S (S fuel)) G parent (Some json) forbiddenTypeNames true cb ecb
      errors
    = Returned (match getMember "fallback" json with
                | Some JNull => None
                | _ => Some (target this)
                end,
                option_map (onTarget (setShouldFallback true)) parent) errors'.
Proof.
  intros G fuel parent json typeName forbidden cb ecb result errors errors' this
         Hobj Ht Hne Hnot Hcb Hparse Hsf Hfb.
  rewrite (InstantiateFacts.typed_fragment _ _ _ _ typeName); auto.
  rewrite Hcb. unfold bind at 1. unfold bind at 1. rewrite Hparse.
  unfold ret at 1. rewrite Hsf. cbv zeta. rewrite Hfb. cbn [andb negb].
  destruct (getMember "fallback" json) as [[|b|n|s|items|members]|];
    try discriminate Hfb; try reflexivity.
  cbn [truthy] in Hfb. apply negb_false_iff, String.eqb_eq in Hfb. subst s. reflexivity.
Qed.

(** X5 applies: a text block that requires a capability the host lacks,
    with a [null] fallback. *)
Lemma null_fallback_drops_the_instance_witness :
  createCardObjectInstance 2 Sample.globals (Some Sample.parent)
    (Some (JObject [("type", JString "TextBlock");
                    ("requires", JObject [("CapX", JString "1.0")]);
                    ("fallback", JNull)])) [] true
    (fun typeName =>
       TypeRegistry.createInstanceOf (elementTypeRegistry Sample.globals) typeName)
    (fun typeName _ => MkValidationError Enums.UnknownElementType typeName) (Some [])
  = Returned (None, Some (onTarget (setShouldFallback true) Sample.parent)) (Some []).
Proof.
  apply (null_fallback_drops_the_instance Sample.globals 0
           (Some Sample.parent)
           (JObject [("type", JString "TextBlock");
                     ("requires", JObject [("CapX", JString "1.0")]);
                     ("fallback", JNull)])
           "TextBlock" [] _ _ (new TextBlock) (Some []) (Some [])
           (MkRef (setSchemaValues (Some "TextBlock") None
                     [("CapX", MkVersion "1.0" 1 0 true)] None (new TextBlock))
              Sample.hostConfig false)).
  - reflexivity.
  - reflexivity.
  - discriminate.
  - apply not_elem_of_nil.
  - reflexivity.
  - vm_compute. reflexivity.
  - reflexivity.
  - reflexivity.
Defined.

(** X6.  [ActionPropertyDefinition.parse] passes [parent.isDesignMode()]
    as the fallback permission: for a sender that is not in design mode,
    an action of a type that the action registry does not know gives no
    action and the unknown-type error, the sender as it was, and its
    [fallback] member, whatever it holds, is not used. *)
Theorem select_action_fallback_is_not_used_outside_design_mode :
  forall (G : Globals) (fuel : nat) (forbiddenActionTypes : list string) (name : string)
         (sender : Ref) (source json : Json) (typeName : string) (errors : Sink),
    isDesignMode sender = false ->
    getMember name source = Some json ->
    truthy (Some json) && typeof_object (Some json) = true ->
    getMember "type" json = Some (JString typeName) ->
    typeName <> EmptyString ->
    typeName ∉ forbiddenActionTypes ->
    TypeRegistry.createInstanceOf (actionTypeRegistry G) typeName = None ->
    Body.ActionPropertyDefinition_parse G (createCardObjectInstance (S fuel) G)
      forbiddenActionTypes name sender source errors
    = Returned (None, sender)
        (pushError
           (MkValidationError Enums.UnknownActionType
              ("Unknown action type: " ++ typeName ++ ". Fallback will be used if present."))
           errors).
Proof.
  intros G fuel forbidden name sender source json typeName errors
         Hdm Hmember Hobj Ht Hne Hnot Hcb.
  unfold Body.ActionPropertyDefinition_parse, Body.createActionInstance.
  rewrite Hmember, Hdm. unfold bind at 1.
  rewrite (InstantiateFacts.typed_fragment _ _ _ _ typeName); auto.
  rewrite Hcb. reflexivity.
Qed.

(** X6 applies: the select action of a container outside design mode, of
    an unknown type and with an [Action.Submit] fallback. *)
Lemma select_action_fallback_is_not_used_outside_design_mode_witness :
  Body.ActionPropertyDefinition_parse Sample.globals
    (createCardObjectInstance 1 Sample.globals) ["Action.ShowCard"] "selectAction"
    Sample.parent
    (JObject [("type", JString "Container");
              ("selectAction",
               JObject [("type", JString "Action.Foo");
                        ("fallback", JObject [("type", JString "Action.Submit")])])])
    (Some [])
  = Returned (None, Sample.parent)
      (Some [MkValidationError Enums.UnknownActionType
               "Unknown action type: Action.Foo. Fallback will be used if present."]).
Proof.
  apply (select_action_fallback_is_not_used_outside_design_mode Sample.globals 0
           ["Action.ShowCard"] "selectAction" Sample.parent _
           (JObject [("type", JString "Action.Foo");
                     ("fallback", JObject [("type", JString "Action.Submit")])])
           "Action.Foo").
  - reflexivity.
  - reflexivity.
  - reflexivity.
  - reflexivity.
  - discriminate.
  - vm_compute. intros H. inversion H as [|? ? ? H1]; subst; try discriminate.
    inversion H1.
  - reflexivity.
Defined.


(* ===================================================================== *)
(** ** What parsing never does *)
(* ===================================================================== *)



(** X8.  With the built-in registries, whatever the fragment,
    [createElementInstance] changes nothing of the parent it is given but,
    possibly, its fallback flag, which it sets to true. *)
Theorem createElementInstance_only_flags_the_parent :
  forall (hc : HostConfig) (latestVersion : Version) (parent : option Ref)
         (json : option Json) (allowFallback : bool) (errors errors' : Sink)
         (result : option CardObject) (parent' : option Ref),
    createElementInstance (initialGlobals hc latestVersion) parent json allowFallback errors
    = Returned (result, parent') errors' ->
    parent' = parent \/ parent' = option_map (onTarget (setShouldFallback true)) parent.
Proof.
  intros hc latestVersion parent json allow errors errors' result parent' H.
  unfold createElementInstance, Body.createElementInstance in H.
  apply (ParsedShapes.createCardObjectInstance_shape hc latestVersion _ AsElement) in H
    as [Hflag _]; [exact Hflag|discriminate|apply ParsedShapes.builtIn_elements].
Qed.

(** X8 applies: an unknown element type without a fallback. *)
Lemma createElementInstance_only_flags_the_parent_witness :
  createElementInstance Sample.globals (Some Sample.parent)
    (Some (JObject [("type", JString "Foo")])) true (Some [])
  = Returned (None, Some (onTarget (setShouldFallback true) Sample.parent))
      (Some [MkValidationError Enums.UnknownElementType
               "Unknown element type: Foo. Fallback will be used if present."])
  /\ (Some (onTarget (setShouldFallback true) Sample.parent) = Some Sample.parent
      \/ Some (onTarget (setShouldFallback true) Sample.parent)
         = option_map (onTarget (setShouldFallback true)) (Some Sample.parent)).
Proof.
  split; [vm_compute; reflexivity|].
  apply (createElementInstance_only_flags_the_parent Sample.hostConfig Versions.v1_2
           (Some Sample.parent) (Some (JObject [("type", JString "Foo")])) true (Some [])
           (Some [MkValidationError Enums.UnknownElementType
                    "Unknown element type: Foo. Fallback will be used if present."])
           None).
  vm_compute. reflexivity.
Defined.

Module AppendFacts.

Lemma sinkExtends_refl errors : sinkExtends errors errors.
Proof. destruct errors; simpl; [exists []; now rewrite app_nil_r | exact I]. Qed.

Lemma sinkExtends_trans a b c : sinkExtends a b -> sinkExtends b c -> sinkExtends a c.
Proof.
  destruct a, b, c; simpl; try tauto.
  intros [x ->] [y ->]. exists (x ++ y). now rewrite app_assoc.
Qed.

Lemma sinkExtends_pushError e errors : sinkExtends errors (pushError e errors).
Proof. destruct errors; simpl; [now exists [e] | exact I]. Qed.

Lemma AppendsOnly_ret {A : Type} (a : A) : AppendsOnly (ret a).
Proof. intros errors. apply sinkExtends_refl. Qed.

Lemma AppendsOnly_throw {A : Type} msg : AppendsOnly (@throw A msg).
Proof. intros errors. apply sinkExtends_refl. Qed.

Lemma AppendsOnly_raiseParseError e : AppendsOnly (raiseParseError e).
Proof. intros errors. apply sinkExtends_pushError. Qed.

Lemma AppendsOnly_bind {A B : Type} (m : M A) (k : A -> M B) :
  AppendsOnly m -> (forall a, AppendsOnly (k a)) -> AppendsOnly (bind m k).
Proof.
  intros Hm Hk errors. unfold bind. specialize (Hm errors).
  destruct (m errors) as [a e1|msg e1|]; auto.
  specialize (Hk a e1). destruct (k a e1); auto; eapply sinkExtends_trans; eauto.
Qed.

Lemma AppendsOnly_forEach {A S : Type} (xs : list A) (body : A -> S -> M S) :
  (forall x s, AppendsOnly (body x s)) -> forall s, AppendsOnly (forEach xs body s).
Proof.
  intros Hbody. induction xs as [|x xs IH]; intros s; cbn [forEach].
  - apply AppendsOnly_ret.
  - apply AppendsOnly_bind; auto.
Qed.

(** One step of a proof that a parser only pushes to the error array. *)
Ltac appends_step :=
  first
    [ apply AppendsOnly_ret
    | apply AppendsOnly_throw
    | apply AppendsOnly_raiseParseError
    | apply AppendsOnly_bind; [|intros ?]
    | apply AppendsOnly_forEach; intros ? ?
    | match goal with
      | H : InstantiateAppendsOnly ?i |- AppendsOnly (?i _ _ _ _ _ _) => apply H
      | |- AppendsOnly (if ?b then _ else _) => destruct b
      | |- AppendsOnly (match ?x with _ => _ end) => destruct x
      end
    | progress cbv zeta ].

Section OpenRecursion.

Variable G : Globals.
Variable instantiate : Instantiate.
Hypothesis Hinst : InstantiateAppendsOnly instantiate.

Lemma insertItemAt_appends item hasParent index force this :
  AppendsOnly (Body.insertItemAt item hasParent index force this).
Proof. unfold Body.insertItemAt. repeat appends_step. Qed.

Lemma createElementInstance_appends parent json allow :
  AppendsOnly (Body.createElementInstance G instantiate parent json allow).
Proof. apply Hinst. Qed.

Lemma createActionInstance_appends parent json forbidden allow :
  AppendsOnly (Body.createActionInstance G instantiate parent json forbidden allow).
Proof. apply Hinst. Qed.

Lemma SerializableObject_parse_appends this json :
  AppendsOnly (Body.SerializableObject_parse G instantiate this json).
Proof.
  unfold Body.SerializableObject_parse, Body.ActionPropertyDefinition_parse.
  repeat first [apply createActionInstance_appends | appends_step].
Qed.

Lemma Container_parse_appends this json :
  AppendsOnly (Body.Container_parse G instantiate this json).
Proof.
  unfold Body.Container_parse, Body.CardElement_parse.
  repeat first [apply SerializableObject_parse_appends | apply createElementInstance_appends
               | apply insertItemAt_appends | appends_step].
Qed.

Lemma ActionCollection_parse_appends owner json :
  AppendsOnly (Body.ActionCollection_parse G instantiate owner json).
Proof.
  unfold Body.ActionCollection_parse, Body.ActionCollection_addAction.
  repeat first [apply createActionInstance_appends | appends_step].
Qed.

Lemma AdaptiveCard_parse_appends this json :
  AppendsOnly (Body.AdaptiveCard_parse G instantiate this json).
Proof.
  unfold Body.AdaptiveCard_parse, Body.ContainerWithActions_parse.
  repeat first [apply createElementInstance_appends | apply insertItemAt_appends
               | apply Container_parse_appends | apply ActionCollection_parse_appends
               | appends_step].
Qed.

Lemma parse_appends this json : AppendsOnly (Body.parse G instantiate this json).
Proof.
  unfold Body.parse.
  destruct (cardClass (target this));
    try apply Container_parse_appends; try apply AdaptiveCard_parse_appends;
    unfold Body.ColumnSet_parse, Body.RichTextBlock_parse, Body.ActionSet_parse,
           Body.ShowCardAction_parse, Body.createColumnInstance, Body.internalAddInline,
           Body.CardElement_parse, Body.Action_parse;
    repeat first [apply SerializableObject_parse_appends
                 | apply createElementInstance_appends
                 | apply ActionCollection_parse_appends
                 | apply AdaptiveCard_parse_appends
                 | appends_step].
Qed.

Lemma createCardObjectInstance_body_appends :
  InstantiateAppendsOnly (Body.createCardObjectInstance G instantiate).
Proof.
  intros parent json forbidden allow cb ecb. unfold Body.createCardObjectInstance.
  repeat first [apply parse_appends | appends_step].
Qed.

End OpenRecursion.

Lemma createCardObjectInstance_appends fuel G :
  InstantiateAppendsOnly (createCardObjectInstance fuel G).
Proof.
  induction fuel as [|fuel IH].
  - intros parent json forbidden allow cb ecb errors. exact I.
  - cbn [createCardObjectInstance]. now apply createCardObjectInstance_body_appends.
Qed.

End AppendFacts.

(** X9.  Parsing only pushes to the caller's error array: after
    [createElementInstance], [createActionInstance] or [parse], whether the
    call returns or throws, the array holds what it held before, in the
    same order, followed by the errors of the call; and an [undefined]
    array stays [undefined].  This holds for every state of the
    registries. *)
Theorem parsing_only_appends_errors :
  forall (G : Globals),
    (forall parent json allowFallback,
        AppendsOnly (createElementInstance G parent json allowFallback))
    /\ (forall parent json forbiddenActionTypes allowFallback,
          AppendsOnly (createActionInstance G parent json forbiddenActionTypes allowFallback))
    /\ (forall this json, AppendsOnly (parse G this json)).
Proof.
  intros G. split; [|split].
  - intros. apply AppendFacts.createCardObjectInstance_appends.
  - intros. apply AppendFacts.createCardObjectInstance_appends.
  - intros. apply AppendFacts.parse_appends, AppendFacts.createCardObjectInstance_appends.
Qed.


(* ===================================================================== *)
(** ** The items of a container: inserting and removing *)
(* ===================================================================== *)

Module ContainerFacts.

Lemma setItems_items this : setItems (_items this) this = this.
Proof. now destruct this. Qed.

Lemma setItems_setItems x y this : setItems x (setItems y this) = setItems x this.
Proof. now destruct this. Qed.

Lemma items_setItems x this : _items (setItems x this) = x.
Proof. now destruct this. Qed.

(** What [insertItemAt] does when it does not throw: [splice] and [push]
    are one insertion, at the index when it is an index of the array and
    at the end otherwise. *)
Lemma insertItemAt_splice item hasParent index force this errors :
  negb hasParent || force = true ->
  isStandalone (cardClass item) = true ->
  let k := if (index <? 0)%Z || (Z.of_nat (length (_items this)) <=? index)%Z
           then length (_items this) else Z.to_nat index in
  Body.insertItemAt item hasParent index force this errors
  = Returned (setItems (firstn k (_items this) ++ item :: skipn k (_items this)) this) errors
  /\ (k <= length (_items this))%nat.
Proof.
  intros Hp Hs. unfold Body.insertItemAt. rewrite Hp, Hs.
  destruct ((index <? 0)%Z || (Z.of_nat (length (_items this)) <=? index)%Z) eqn:E; cbv zeta.
  - rewrite firstn_all, skipn_all. split; [reflexivity | lia].
  - split; [reflexivity|]. apply orb_false_iff in E as [E1 E2].
    apply Z.ltb_ge in E1. apply Z.leb_gt in E2. lia.
Qed.

Lemma remove_inserted {A : Type} (l : list A) x k :
  (k <= length l)%nat ->
  firstn k (firstn k l ++ x :: skipn k l) ++ skipn (S k) (firstn k l ++ x :: skipn k l) = l.
Proof.
  intros Hk.
  assert (Hlen : length (firstn k l) = k) by (rewrite length_firstn; lia).
  rewrite firstn_app, skipn_app, Hlen, Nat.sub_diag, firstn_O, app_nil_r.
  rewrite firstn_firstn, Nat.min_id.
  replace (S k - k)%nat with 1%nat by lia. cbn [skipn].
  rewrite (skipn_all2 (firstn k l)) by lia. apply firstn_skipn.
Qed.

Lemma insertItemAt_Returned item hasParent index force this errors this' errors' :
  Body.insertItemAt item hasParent index force this errors = Returned this' errors' ->
  negb hasParent || force = true /\ isStandalone (cardClass item) = true.
Proof.
  unfold Body.insertItemAt.
  destruct (negb hasParent || force); [|discriminate].
  destruct (isStandalone (cardClass item)); [auto | discriminate].
Qed.

End ContainerFacts.

(** X10.  Where [insertItemBefore] and [insertItemAfter] put an element
    that is standalone and has no parent.  Before (after) an item of the
    container: at the place of that item, which moves one place on (at
    the place after that item), the other items in their order.  Before
    an element that is not among the items: at the end.  After an element
    that is not among the items: at the front, because [indexOf] gives
    [-1] and the index asked for is [0]. *)
Theorem insertItemBefore_and_After_place_the_item :
  forall (item this : CardObject) (place : option nat) (errors : Sink),
    isStandalone (cardClass item) = true ->
    (forall i, place = Some i -> (i < length (_items this))%nat) ->
    ContainerOps.insertItemBefore item false place this errors
    = Returned
        (setItems
           match place with
           | Some i => firstn i (_items this) ++ item :: skipn i (_items this)
           | None => _items this ++ [item]
           end this) errors
    /\ ContainerOps.insertItemAfter item false place this errors
       = Returned
           (setItems
              match place with
              | Some i => firstn (S i) (_items this) ++ item :: skipn (S i) (_items this)
              | None => item :: _items this
              end this) errors.
Proof.
  intros item this place errors Hs Hplace.
  unfold ContainerOps.insertItemBefore, ContainerOps.insertItemAfter, ContainerOps.indexOf.
  split.
  - destruct (ContainerFacts.insertItemAt_splice item false
                match place with Some i => Z.of_nat i | None => (-1)%Z end
                false this errors eq_refl Hs) as [-> _].
    destruct place as [i|].
    + specialize (Hplace i eq_refl).
      replace ((Z.of_nat i <? 0)%Z || (Z.of_nat (length (_items this)) <=? Z.of_nat i)%Z)
        with false.
      * now rewrite Nat2Z.id.
      * symmetry. apply orb_false_iff. split; [apply Z.ltb_ge | apply Z.leb_gt]; lia.
    + cbn [Z.ltb Z.compare orb]. now rewrite firstn_all, skipn_all.
  - destruct (ContainerFacts.insertItemAt_splice item false
                (match place with Some i => Z.of_nat i | None => (-1)%Z end + 1)%Z
                false this errors eq_refl Hs) as [-> _].
    destruct place as [i|].
    + specialize (Hplace i eq_refl).
      destruct ((Z.of_nat i + 1 <? 0)%Z
                || (Z.of_nat (length (_items this)) <=? Z.of_nat i + 1)%Z) eqn:E.
      * apply orb_true_iff in E as [E|E]; [apply Z.ltb_lt in E; lia|].
        apply Z.leb_le in E. assert (S i = length (_items this)) as -> by lia.
        reflexivity.
      * replace (Z.to_nat (Z.of_nat i + 1)) with (S i) by lia. reflexivity.
    + change (-1 + 1)%Z with 0%Z. cbn [Z.ltb Z.compare orb].
      destruct (_items this) as [|x items]; reflexivity.
Qed.

(** X10 applies: a text block put before and after the second of three
    text blocks. *)
Lemma insertItemBefore_and_After_place_the_item_witness :
  ContainerOps.insertItemBefore (Sample.textBlock "new") false (Some 1%nat)
    (Sample.containerOf ["a"; "b"; "c"]) (Some [])
  = Returned (Sample.containerOf ["a"; "new"; "b"; "c"]) (Some [])
  /\ ContainerOps.insertItemAfter (Sample.textBlock "new") false (Some 1%nat)
       (Sample.containerOf ["a"; "b"; "c"]) (Some [])
     = Returned (Sample.containerOf ["a"; "b"; "new"; "c"]) (Some []).
Proof.
  apply (insertItemBefore_and_After_place_the_item (Sample.textBlock "new")
           (Sample.containerOf ["a"; "b"; "c"]) (Some 1%nat) (Some [])).
  - reflexivity.
  - intros i [= <-]. vm_compute. lia.
Defined.

(** X11.  When [insertItemAt] returns, the container holds one item more,
    the new item stands at a place of the items, and [removeItem] of the
    item at that place returns true and gives back the container as it
    was: the other items are the same and in the same order. *)
Theorem removeItem_undoes_insertItemAt :
  forall (item : CardObject) (itemHasParent : bool) (index : Z) (forceInsert : bool)
         (this this' : CardObject) (errors errors' : Sink),
    Body.insertItemAt item itemHasParent index forceInsert this errors
    = Returned this' errors' ->
    exists place,
      nth_error (_items this') place = Some item
      /\ length (_items this') = S (length (_items this))
      /\ ContainerOps.removeItem (Some place) this' = (true, this)
      /\ errors' = errors.
Proof.
  intros item hasParent index force this this' errors errors' H.
  destruct (ContainerFacts.insertItemAt_Returned _ _ _ _ _ _ _ _ H) as [Hp Hs].
  destruct (ContainerFacts.insertItemAt_splice item hasParent index force this errors Hp Hs)
    as [Heq Hk].
  set (k := if (index <? 0)%Z || (Z.of_nat (length (_items this)) <=? index)%Z
            then length (_items this) else Z.to_nat index) in *.
  rewrite Heq in H. injection H as <- <-.
  exists k. rewrite ContainerFacts.items_setItems.
  assert (Hlen : length (firstn k (_items this)) = k) by (rewrite length_firstn; lia).
  split; [|split; [|split; [|reflexivity]]].
  - rewrite nth_error_app2 by lia. rewrite Hlen, Nat.sub_diag. reflexivity.
  - rewrite length_app. cbn [length]. rewrite Hlen, length_skipn. lia.
  - unfold ContainerOps.removeItem. rewrite ContainerFacts.items_setItems.
    rewrite ContainerFacts.setItems_setItems, ContainerFacts.remove_inserted by exact Hk.
    now rewrite ContainerFacts.setItems_items.
Qed.

(** X11 applies: a text block inserted at index 1 of three text blocks. *)
Lemma removeItem_undoes_insertItemAt_witness :
  exists place,
    nth_error (_items (Sample.containerOf ["a"; "new"; "b"; "c"])) place
    = Some (Sample.textBlock "new")
    /\ length (_items (Sample.containerOf ["a"; "new"; "b"; "c"]))
       = S (length (_items (Sample.containerOf ["a"; "b"; "c"])))
    /\ ContainerOps.removeItem (Some place) (Sample.containerOf ["a"; "new"; "b"; "c"])
       = (true, Sample.containerOf ["a"; "b"; "c"])
    /\ Some [] = Some (@nil IValidationError).
Proof.
  apply (removeItem_undoes_insertItemAt (Sample.textBlock "new") false 1 false
           (Sample.containerOf ["a"; "b"; "c"]) (Sample.containerOf ["a"; "new"; "b"; "c"])
           (Some []) (Some [])).
  reflexivity.
Defined.


(* ===================================================================== *)
(** ** Looking objects up in a tree *)
(* ===================================================================== *)

Module LookupFacts.

Lemma find_app {A : Type} (p : A -> bool) (l1 l2 : list A) :
  List.find p (l1 ++ l2)
  = match List.find p l1 with Some x => Some x | None => List.find p l2 end.
Proof.
  induction l1 as [|x l1 IH]; cbn [List.find app]; [reflexivity|].
  now destruct (p x).
Qed.

(** The loop that stops at the first result is a search through the
    lists that the results come from. *)
Lemma firstFound_find {A : Type} (f : A -> option A) (tree : A -> list A) (p : A -> bool)
    (xs : list A) :
  Forall (fun x => f x = List.find p (tree x)) xs ->
  firstFound f xs = List.find p (flat_map tree xs).
Proof.
  induction 1 as [|x xs Hx _ IH]; cbn [firstFound flat_map List.find]; [reflexivity|].
  rewrite find_app, Hx. now destruct (List.find p (tree x)).
Qed.

Lemma getElementById_find theId o :
  getElementById theId o
  = List.find (fun x => bool_decide (id x = Some theId)) (itemTree o).
Proof.
  induction o as [c tn i rq sf hcfg v sa items acts cd fb _ IHitems _ _ _]
    using CardObject_nested_ind.
  cbn [getElementById itemTree cardClass id _items List.find].
  destruct (bool_decide (i = Some theId)); [now destruct (isCardElementContainer c)|].
  destruct (isCardElementContainer c); [|reflexivity].
  now apply firstFound_find.
Qed.

Lemma getActionById_find theId o :
  getActionById theId o
  = List.find (fun x => bool_decide (id x = Some theId)) (actionTree o).
Proof.
  induction o as [c tn i rq sf hcfg v sa items acts cd fb IHsa IHitems IHacts IHcd _]
    using CardObject_nested_ind.
  cbn [getActionById actionTree cardClass id _items _selectAction _actionCollection card].
  assert (Hsa : match sa with
                | Some action => getActionById theId action
                | None => None
                end
                = List.find (fun x => bool_decide (id x = Some theId))
                    match sa with Some action => actionTree action | None => [] end).
  { destruct sa as [a|]; [now apply IHsa | reflexivity]. }
  pose proof (firstFound_find (getActionById theId) actionTree
                (fun x => bool_decide (id x = Some theId)) items IHitems) as Hitems.
  pose proof (firstFound_find (getActionById theId) actionTree
                (fun x => bool_decide (id x = Some theId)) acts IHacts) as Hacts.
  destruct (isAction c) eqn:Ea.
  - cbn [List.find id]. destruct (bool_decide (i = Some theId)); [reflexivity|].
    destruct c; try reflexivity. destruct cd as [theCard|]; [now apply IHcd | reflexivity].
  - destruct (isContainer c) eqn:Ec.
    + rewrite !find_app, Hsa, Hitems.
      destruct (isContainerWithActions c); [rewrite Hacts|]; reflexivity.
    + destruct c; try reflexivity; try discriminate Ea; try discriminate Ec;
        [exact Hitems | exact Hsa].
Qed.

Lemma actionTree_actions o : Forall (fun a => isAction (cardClass a) = true) (actionTree o).
Proof.
  induction o as [c tn i rq sf hcfg v sa items acts cd fb IHsa IHitems IHacts IHcd _]
    using CardObject_nested_ind.
  cbn [actionTree cardClass id _items _selectAction _actionCollection card].
  assert (Hflat : forall xs,
             Forall (fun x => Forall (fun a => isAction (cardClass a) = true) (actionTree x))
               xs ->
             Forall (fun a => isAction (cardClass a) = true) (flat_map actionTree xs)).
  { induction 1; cbn [flat_map]; [constructor | now apply Forall_app]. }
  assert (Hsa : Forall (fun a => isAction (cardClass a) = true)
                  match sa with Some action => actionTree action | None => [] end).
  { destruct sa as [a|]; [now apply IHsa | constructor]. }
  destruct (isAction c) eqn:Ea.
  - constructor; [exact Ea|].
    destruct c; try constructor. destruct cd as [theCard|]; [now apply IHcd | constructor].
  - destruct (isContainer c).
    + repeat (apply Forall_app; split); auto.
      destruct (isContainerWithActions c); [auto | constructor].
    + destruct c; try constructor; auto.
Qed.

Lemma flat_map_In_self {A : Type} (f : A -> list A) (xs : list A) x y :
  In x xs -> In y (f x) -> In y (flat_map f xs).
Proof. intros Hx Hy. apply in_flat_map. eauto. Qed.

Lemma getAllInputs_inputs o : Forall (fun x => isInput (cardClass x) = true) (getAllInputs o).
Proof.
  induction o as [c tn i rq sf hcfg v sa items acts cd fb _ IHitems IHacts IHcd _]
    using CardObject_nested_ind.
  cbn [getAllInputs cardClass _items _actionCollection card].
  assert (Hflat : forall xs,
             Forall (fun x => Forall (fun a => isInput (cardClass a) = true) (getAllInputs x))
               xs ->
             Forall (fun a => isInput (cardClass a) = true) (flat_map getAllInputs xs)).
  { induction 1; cbn [flat_map]; [constructor | now apply Forall_app]. }
  destruct (isAction c).
  - destruct c; try constructor. destruct cd as [theCard|]; [now apply IHcd | constructor].
  - destruct (isInput c) eqn:Ei; [repeat constructor; exact Ei|].
    destruct (isCardElementContainer c).
    + apply Forall_app. split; [auto|].
      destruct (isContainerWithActions c); [auto | constructor].
    + destruct c; try constructor; auto.
Qed.

Lemma getAllInputs_complete o x :
  In x (itemTree o) -> isInput (cardClass x) = true -> In x (getAllInputs o).
Proof.
  revert x.
  induction o as [c tn i rq sf hcfg v sa items acts cd fb _ IHitems _ _ _]
    using CardObject_nested_ind.
  intros x. cbn [itemTree getAllInputs cardClass _items _actionCollection card].
  intros [<-|Hx] Hin.
  - cbn [cardClass] in Hin.
    destruct c; try discriminate Hin; cbn [isAction isInput]; now left.
  - destruct (isCardElementContainer c) eqn:Ec; [|contradiction].
    assert (Ha : isAction c = false) by (destruct c; try reflexivity; discriminate Ec).
    assert (Hi : isInput c = false) by (destruct c; try reflexivity; discriminate Ec).
    rewrite Ha, Hi. apply in_or_app. left.
    apply in_flat_map in Hx as (item & Hitem & Hx). apply in_flat_map.
    exists item. split; [exact Hitem|].
    rewrite List.Forall_forall in IHitems. now apply IHitems.
Qed.

Lemma fold_insert_lookup (inputs : list CardObject) (m : gmap string CardObject) key :
  fold_left (fun result input => <[inputKey input := input]> result) inputs m !! key
  = match last (List.filter (fun x => bool_decide (inputKey x = key)) inputs) with
    | Some x => Some x
    | None => m !! key
    end.
Proof.
  revert m. induction inputs as [|x inputs IH]; intros m; cbn [fold_left List.filter].
  - reflexivity.
  - rewrite IH. generalize (List.filter (fun x => bool_decide (inputKey x = key)) inputs).
    intros l. destruct (bool_decide (inputKey x = key)) eqn:E.
    + apply bool_decide_eq_true_1 in E. rewrite last_cons.
      destruct (last l); [reflexivity|]. subst key. apply lookup_insert_eq.
    + apply bool_decide_eq_false_1 in E.
      destruct (last l); [reflexivity|]. now apply lookup_insert_ne.
Qed.

End LookupFacts.

(** X12.  [getElementById(id)] returns the first element, in document
    order, among the element it is called on and the elements under it
    through the item collections (the items of containers, the columns of
    column sets, the images of image sets), whose id is the one asked
    for, and [undefined] exactly when none of these has it.  Inlines,
    select actions, action collections and the cards of show-card actions
    are not searched. *)
Theorem getElementById_finds_the_first_in_document_order :
  forall (theId : string) (o : CardObject),
    getElementById theId o
    = List.find (fun x => bool_decide (id x = Some theId)) (itemTree o)
    /\ (forall x, getElementById theId o = Some x -> id x = Some theId /\ In x (itemTree o))
    /\ (getElementById theId o = None <->
        forall x, In x (itemTree o) -> id x <> Some theId).
Proof.
  intros theId o. rewrite LookupFacts.getElementById_find.
  split; [reflexivity|]. split.
  - intros x Hx. apply find_some in Hx as [Hin Hid].
    split; [now apply bool_decide_eq_true_1 in Hid | exact Hin].
  - split.
    + intros Hnone x Hin. pose proof (find_none _ _ Hnone x Hin) as Hx. cbv beta in Hx.
      now apply bool_decide_eq_false_1 in Hx.
    + intros Hall.
      destruct (List.find _ (itemTree o)) as [x|] eqn:E; [|reflexivity].
      apply find_some in E as [Hin Hid]. apply bool_decide_eq_true_1 in Hid.
      now apply Hall in Hin.
Qed.

(** X13.  [getAllInputs()] returns inputs only, and it returns every
    input that stands among the element it is called on and the elements
    under it through the item collections. *)
Theorem getAllInputs_returns_the_inputs_of_the_item_tree :
  forall (o : CardObject),
    Forall (fun x => isInput (cardClass x) = true) (getAllInputs o)
    /\ (forall x, In x (itemTree o) -> isInput (cardClass x) = true -> In x (getAllInputs o)).
Proof.
  intros o. split.
  - apply LookupFacts.getAllInputs_inputs.
  - apply LookupFacts.getAllInputs_complete.
Qed.


(** X15.  [getActionById(id)] returns the first action with the id among
    the actions that it reaches, in the order in which it asks them: an
    action before the actions of its card; the actions of the action
    collection of a card before its select action, and this before the
    actions under its items; the select action of an image; the actions
    under the columns of a column set.  What it returns is an action with
    the id asked for.  The select action of a column set and the actions
    of an action set are not reached: [getActionById] of an action set is
    [undefined]. *)
Theorem getActionById_finds_the_first_action_reached :
  forall (theId : string) (o : CardObject),
    getActionById theId o
    = List.find (fun x => bool_decide (id x = Some theId)) (actionTree o)
    /\ (forall a, getActionById theId o = Some a ->
                  id a = Some theId /\ isAction (cardClass a) = true)
    /\ (cardClass o = ActionSet -> getActionById theId o = None).
Proof.
  intros theId o. split; [apply LookupFacts.getActionById_find|]. split.
  - intros a Ha. rewrite LookupFacts.getActionById_find in Ha.
    apply find_some in Ha as [Hin Hid]. split; [now apply bool_decide_eq_true_1 in Hid|].
    pose proof (LookupFacts.actionTree_actions o) as Hall.
    rewrite List.Forall_forall in Hall. now apply Hall.
  - intros Hc. destruct o as [c ? ? ? ? ? ? ? ? ? ? ?]. cbn in Hc. subst c. reflexivity.
Qed.


(* ===================================================================== *)
(** ** The validation pass: what every report satisfies *)
(* ===================================================================== *)

Module PassFacts.

Section Invariant.

(** A property [Inv] of the report that [addFailure] keeps for the errors
    in [P]; [P] holds every error of the pass, the errors of the actions
    that are not allowed apart, which it holds when one is raised. *)
Variable P : IValidationError -> Prop.
Variable Inv : ValidationResults -> Prop.
Hypothesis Hadd : forall r e ctx, P e -> Inv ctx -> Inv (addFailure r e ctx).
Hypothesis Hids : forall m ctx, Inv ctx -> Inv (MkValidationResults m (failures ctx)).
Hypothesis Hother : forall e, error e <> Enums.ActionTypeNotAllowed -> P e.
Hypothesis Hatna :
  forall item c e, isActionAllowed item (getForbiddenActionTypes c) = false -> P e.

Lemma Inv_whenb (b : bool) r e ctx :
  (b = true -> P e) -> Inv ctx -> Inv (whenb b (addFailure r e) ctx).
Proof. destruct b; cbn [whenb]; auto. Qed.

Lemma Inv_CardObject this o ctx :
  Inv ctx -> Inv (CardObject_internalValidateProperties this o ctx).
Proof.
  intros H. unfold CardObject_internalValidateProperties.
  destruct (id o) as [theId|]; [|exact H].
  destruct (negb (Utils.isNullOrEmpty (Some theId))); [|exact H].
  destruct (allIds ctx !! theId) as [count|]; [|now apply Hids].
  destruct (count =? 1)%nat.
  - apply (Hids _ (addFailure _ _ ctx)). apply Hadd; [|exact H].
    apply Hother. discriminate.
  - now apply Hids.
Qed.

Lemma Inv_forEachIndexed (body : nat -> CardObject -> ValidationResults -> ValidationResults)
    (l : list CardObject) :
  Forall (fun item => forall i ctx, Inv ctx -> Inv (body i item ctx)) l ->
  forall i ctx, Inv ctx -> Inv (forEachIndexed body l i ctx).
Proof.
  induction 1 as [|item l Hitem _ IH]; intros i ctx H; cbn [forEachIndexed]; auto.
Qed.

Ltac inv_stage IH :=
  lazymatch goal with
  | |- Inv (whenb _ (addFailure _ _) _) =>
      apply Inv_whenb;
      [first [ intros _; apply Hother; discriminate
             | let E := fresh in
               intros E; apply negb_true_iff in E; eapply Hatna; exact E ]|]
  | |- Inv (addFailure _ _ _) => apply Hadd; [apply Hother; discriminate|]
  | |- Inv (if ?b then _ else _) => destruct b
  | |- Inv (internalValidateProperties _ _ _ ?x _) => apply IH
  | |- Inv (CardObject_internalValidateProperties ?this ?o ?ctx) => apply Inv_CardObject
  end.

Lemma Inv_internalValidateProperties G o :
  forall hc this ctx, Inv ctx -> Inv (internalValidateProperties G hc this o ctx).
Proof.
  induction o as [c tn i rq sf hcfg v sa items acts cd fb IHsa IHitems IHacts IHcd _]
    using CardObject_nested_ind.
  intros hc this ctx H.
  destruct c;
  cbn [internalValidateProperties cardClass id _items _selectAction
       _actionCollection card version typeNameValue isCardElementContainer isContainer
       isInput hasActionCollection isContainerWithActions andb orb];
  repeat match goal with
         | |- context [match ?x with Some _ => _ | None => _ end] => is_var x; destruct x
         end;
  repeat first
    [ apply (IHsa _ eq_refl) | apply (IHcd _ eq_refl)
    | apply Inv_forEachIndexed;
      [ eapply Forall_impl; [first [exact IHitems | exact IHacts]|];
        cbv beta; intros item IH ? ? H'; repeat inv_stage IH; exact H' |]
    | inv_stage IHsa ];
  exact H.
Qed.

End Invariant.

Lemma isActionAllowed_always item c : isActionAllowed item (getForbiddenActionTypes c) = true.
Proof. destruct c; reflexivity. Qed.

Lemma addToFailure_objects fs r e fs' :
  addToFailure fs r e = Some fs' -> map cardObject fs' = map cardObject fs.
Proof.
  revert fs'. induction fs as [|f fs IH]; intros fs'; cbn [addToFailure]; [discriminate|].
  destruct (decide (cardObject f = r)).
  - intros [= <-]. reflexivity.
  - destruct (addToFailure fs r e) as [u|]; [|discriminate].
    intros [= <-]. cbn [map]. now rewrite (IH u eq_refl).
Qed.

Lemma addToFailure_None fs r e :
  addToFailure fs r e = None -> r ∉ map cardObject fs.
Proof.
  induction fs as [|f fs IH]; cbn [addToFailure map]; [intros _; apply not_elem_of_nil|].
  destruct (decide (cardObject f = r)); [discriminate|].
  destruct (addToFailure fs r e); [discriminate|].
  intros _. apply not_elem_of_cons. split; [congruence | now apply IH].
Qed.

Lemma addToFailure_errors fs r e fs' (Q : IValidationError -> Prop) :
  addToFailure fs r e = Some fs' ->
  Q e -> Forall (fun f => Forall Q (errors f)) fs -> Forall (fun f => Forall Q (errors f)) fs'.
Proof.
  revert fs'. induction fs as [|f fs IH]; intros fs'; cbn [addToFailure]; [discriminate|].
  intros H He Hall. apply Forall_cons in Hall as [Hf Hall].
  destruct (decide (cardObject f = r)).
  - injection H as <-. constructor; [|exact Hall]. cbn [errors].
    apply Forall_app. split; [exact Hf | now constructor].
  - destruct (addToFailure fs r e) as [u|]; [|discriminate].
    injection H as <-. constructor; [exact Hf | now apply IH].
Qed.

Lemma addToFailure_nonempty fs r e fs' :
  addToFailure fs r e = Some fs' ->
  Forall (fun f => errors f <> []) fs -> Forall (fun f => errors f <> []) fs'.
Proof.
  revert fs'. induction fs as [|f fs IH]; intros fs'; cbn [addToFailure]; [discriminate|].
  intros H Hall. apply Forall_cons in Hall as [Hf Hall].
  destruct (decide (cardObject f = r)).
  - injection H as <-. constructor; [|exact Hall]. cbn [errors].
    now destruct (errors f).
  - destruct (addToFailure fs r e) as [u|]; [|discriminate].
    injection H as <-. constructor; [exact Hf | now apply IH].
Qed.

Lemma Reported_addFailure_mono r e r' e' ctx :
  Reported r e (failures ctx) -> Reported r e (failures (addFailure r' e' ctx)).
Proof.
  intros (f & Hf & Hr & He). unfold addFailure. cbn [failures].
  destruct (addToFailure (failures ctx) r' e') as [u|] eqn:E.
  - revert u E. induction (failures ctx) as [|g fs IH]; intros u E;
      cbn [addToFailure] in E; [discriminate|].
    destruct (decide (cardObject g = r')).
    + injection E as <-. apply elem_of_cons in Hf as [<-|Hf].
      * eexists. split; [apply list_elem_of_here|]. cbn. split; [exact Hr|].
        apply elem_of_app. now left.
      * exists f. split; [now apply list_elem_of_further | auto].
    + destruct (addToFailure fs r' e') as [u'|]; [|discriminate].
      injection E as <-. apply elem_of_cons in Hf as [<-|Hf].
      * exists f. split; [apply list_elem_of_here | auto].
      * destruct (IH Hf u' eq_refl) as (h & Hh & Hhr & Hhe).
        exists h. split; [now apply list_elem_of_further | auto].
  - exists f. split; [apply elem_of_app; now left | auto].
Qed.

(** What the pass has reported stays reported. *)
Lemma Reported_internalValidateProperties r e G o hc this ctx :
  Reported r e (failures ctx) ->
  Reported r e (failures (internalValidateProperties G hc this o ctx)).
Proof.
  apply (Inv_internalValidateProperties (fun _ => True)
           (fun ctx => Reported r e (failures ctx))).
  - intros r' e' ctx' _ H. now apply Reported_addFailure_mono.
  - intros m ctx' H. exact H.
  - intros e' _. exact I.
  - intros item c e' _. exact I.
Qed.

End PassFacts.

(** X16.  In the report of [validateProperties()] the failures are
    grouped by card object: no two failures are for the same object, and
    every failure holds at least one error.  ([addFailure] appends an
    error to the failure of the object when there is one, and adds a
    failure for the object otherwise.) *)
Theorem validation_report_has_one_failure_per_object :
  forall (G : Globals) (hc : HostConfig) (o : CardObject),
    NoDup (map cardObject (failures (validateProperties G hc o)))
    /\ Forall (fun f => errors f <> []) (failures (validateProperties G hc o)).
Proof.
  intros G hc o. unfold validateProperties.
  apply (PassFacts.Inv_internalValidateProperties (fun _ => True)
           (fun ctx => NoDup (map cardObject (failures ctx))
                       /\ Forall (fun f => errors f <> []) (failures ctx))).
  - intros r e ctx _ [Hnd Hne]. unfold addFailure. cbn [failures].
    destruct (addToFailure (failures ctx) r e) as [u|] eqn:E.
    + split.
      * now rewrite (PassFacts.addToFailure_objects _ _ _ _ E).
      * now apply (PassFacts.addToFailure_nonempty _ _ _ _ E).
    + split.
      * rewrite map_app. cbn [map cardObject]. apply NoDup_app. split; [exact Hnd|].
        split; [|apply NoDup_singleton].
        intros x Hx ->%list_elem_of_singleton.
        now apply (PassFacts.addToFailure_None _ _ _ E).
      * apply Forall_app. split; [exact Hne|]. constructor; [discriminate | constructor].
  - intros m ctx H. exact H.
  - intros e _. exact I.
  - intros item c e _. exact I.
  - split; [apply NoDup_nil_2 | constructor].
Qed.

(** X17.  [validateProperties()] reports no [ActionTypeNotAllowed]
    failure, whatever the tree and the host configuration.  The only
    forbidden action types that an owner of an action collection gives are
    those of [InlineAdaptiveCard], [[ShowCardAction]], an array of the
    class where [isActionAllowed] compares type names: so a show-card
    action among the actions of the card of a show-card action is not
    reported. *)
Theorem validation_never_reports_an_action_type :
  forall (G : Globals) (hc : HostConfig) (o : CardObject),
    failuresOfKind Enums.ActionTypeNotAllowed (validateProperties G hc o) = [].
Proof.
  intros G hc o. unfold validateProperties.
  assert (H : Forall (fun f => Forall (fun e => error e <> Enums.ActionTypeNotAllowed)
                                 (errors f))
                (failures (internalValidateProperties G hc [] o (MkValidationResults ∅ [])))).
  { apply (PassFacts.Inv_internalValidateProperties
             (fun e => error e <> Enums.ActionTypeNotAllowed)
             (fun ctx => Forall (fun f => Forall (fun e => error e
                                                          <> Enums.ActionTypeNotAllowed)
                                            (errors f)) (failures ctx))).
    - intros r e ctx He Hall. unfold addFailure. cbn [failures].
      destruct (addToFailure (failures ctx) r e) as [u|] eqn:E.
      + now apply (PassFacts.addToFailure_errors _ _ _ _ _ E).
      + apply Forall_app. split; [exact Hall|]. repeat constructor. exact He.
    - intros m ctx Hall. exact Hall.
    - intros e He. exact He.
    - intros item c e E. now rewrite PassFacts.isActionAllowed_always in E.
    - constructor. }
  unfold failuresOfKind.
  induction H as [|f fs Hf _ IH]; cbn [flat_map]; [reflexivity|].
  rewrite IH, app_nil_r.
  induction Hf as [|e es He _ IHe]; cbn [List.filter map]; [reflexivity|].
  rewrite bool_decide_eq_false_2 by exact He. exact IHe.
Qed.


(* ===================================================================== *)
(** ** The validation pass: the objects it comes to *)
(* ===================================================================== *)

Module PlaceFacts.
Import PassFacts.

Lemma forEachIndexed_reaches (Q : ValidationResults -> Prop)
    (body : nat -> CardObject -> ValidationResults -> ValidationResults)
    (l : list CardObject) :
  forall i0 ctx k item,
    nth_error l k = Some item ->
    (forall ctx', Q (body (i0 + k)%nat item ctx')) ->
    (forall j y ctx', Q ctx' -> Q (body j y ctx')) ->
    Q (forEachIndexed body l i0 ctx).
Proof.
  induction l as [|y l IH]; intros i0 ctx k item Hk Hat Hmono.
  - destruct k; discriminate Hk.
  - cbn [forEachIndexed]. destruct k as [|k].
    + injection Hk as ->. rewrite Nat.add_0_r in Hat.
      specialize (Hat ctx). revert Hat.
      generalize (body i0 item ctx). generalize (S i0). clear IH.
      induction l as [|z l IHl]; intros j c Hq; cbn [forEachIndexed]; auto.
    + apply (IH (S i0) _ k item Hk); [|exact Hmono].
      intros ctx'. replace (S i0 + k)%nat with (i0 + S k)%nat by lia. apply Hat.
Qed.

Section Reached.

Variable G : Globals.
Variable p : ObjectRef.
Variable e : IValidationError.

Lemma Reported_whenb (b : bool) r' e' ctx :
  Reported p e (failures ctx) -> Reported p e (failures (whenb b (addFailure r' e') ctx)).
Proof. destruct b; cbn [whenb]; auto using Reported_addFailure_mono. Qed.

Lemma Reported_CardObject this o ctx :
  Reported p e (failures ctx) ->
  Reported p e (failures (CardObject_internalValidateProperties this o ctx)).
Proof.
  apply (Inv_CardObject (fun _ => True) (fun ctx => Reported p e (failures ctx))); auto.
  intros. now apply Reported_addFailure_mono.
Qed.

Lemma Reported_forEachIndexed
    (body : nat -> CardObject -> ValidationResults -> ValidationResults) l i ctx :
  (forall j y ctx', Reported p e (failures ctx') -> Reported p e (failures (body j y ctx'))) ->
  Reported p e (failures ctx) -> Reported p e (failures (forEachIndexed body l i ctx)).
Proof.
  intros Hbody. revert i ctx.
  induction l as [|y l IH]; intros i ctx H; cbn [forEachIndexed]; auto.
Qed.

(** A stage of the pass keeps what is reported. *)
Ltac mono_stage :=
  lazymatch goal with
  | |- Reported _ _ (failures (whenb _ (addFailure _ _) _)) => apply Reported_whenb
  | |- Reported _ _ (failures (addFailure _ _ _)) => apply Reported_addFailure_mono
  | |- Reported _ _ (failures (if ?b then _ else _)) => destruct b
  | |- Reported _ _ (failures (internalValidateProperties _ _ _ _ _)) =>
      apply Reported_internalValidateProperties
  | |- Reported _ _ (failures (CardObject_internalValidateProperties _ _ _)) =>
      apply Reported_CardObject
  | |- Reported _ _ (failures (forEachIndexed _ _ _ _)) =>
      apply Reported_forEachIndexed; [intros ? ? ? ?; repeat mono_stage; assumption|]
  | |- Reported _ _ (failures (match ?x with Some _ => _ | None => _ end)) => destruct x
  end.

Variable x : CardObject.
Hypothesis Hlocal :
  forall hc this ctx,
    p = this -> Reported p e (failures (internalValidateProperties G hc this x ctx)).

(** An error that the pass reports for an object when it is called on it
    is in the report of the pass over a tree that holds the object at a
    place that the pass comes to. *)
Lemma reported_at_place :
  forall r o hc this ctx,
    objectAt r o = Some x -> p = this ++ r ->
    Reported p e (failures (internalValidateProperties G hc this o ctx)).
Proof.
  induction r as [|step rest IH]; intros o hc this ctx Hat Hp.
  - injection Hat as ->. apply Hlocal. now rewrite app_nil_r in Hp.
  - destruct o as [c tn i rq sf hcfg v sa items acts cd fb].
    destruct step as [k| |k|]; cbn [objectAt cardClass _items _selectAction
                                    _actionCollection card] in Hat.
    + destruct (isCardElementContainer c) eqn:Ec; [|discriminate].
      destruct (nth_error items k) as [item|] eqn:Hk; [|discriminate].
      assert (IH' : forall hc' ctx',
                 Reported p e
                   (failures (internalValidateProperties G hc' (this ++ [ItemAt k]) item
                                ctx'))).
      { intros hc' ctx'. apply IH; [exact Hat|]. now rewrite <- app_assoc. }
      destruct c; try discriminate Ec;
        cbn [internalValidateProperties cardClass id _items _selectAction
             _actionCollection card version typeNameValue isCardElementContainer
             isContainer isInput hasActionCollection isContainerWithActions andb orb];
        repeat first
          [ lazymatch goal with
            | |- Reported _ _ (failures (forEachIndexed _ items 0%nat _)) =>
                apply (forEachIndexed_reaches
                         (fun ctx => Reported p e (failures ctx)) _ _ 0%nat _ k item Hk);
                [intros ?; cbn [Nat.add]; apply IH'
                |intros ? ? ? ?; repeat mono_stage; assumption]
            end
          | mono_stage ].
    + destruct (isCardElementContainer c) eqn:Ec; [|discriminate].
      destruct sa as [action|]; [|discriminate].
      assert (IH' : forall hc' ctx',
                 Reported p e
                   (failures (internalValidateProperties G hc' (this ++ [SelectAction])
                                action ctx'))).
      { intros hc' ctx'. apply IH; [exact Hat|]. now rewrite <- app_assoc. }
      destruct c; try discriminate Ec;
        cbn [internalValidateProperties cardClass id _items _selectAction
             _actionCollection card version typeNameValue isCardElementContainer
             isContainer isInput hasActionCollection isContainerWithActions andb orb];
        repeat first
          [ lazymatch goal with
            | |- Reported _ _
                   (failures (internalValidateProperties _ _ (_ ++ [SelectAction]) _ _)) =>
                apply IH'
            end
          | mono_stage ].
    + destruct (hasActionCollection c) eqn:Ec; [|discriminate].
      destruct (nth_error acts k) as [action|] eqn:Hk; [|discriminate].
      assert (IH' : forall hc' ctx',
                 Reported p e
                   (failures (internalValidateProperties G hc' (this ++ [ActionAt k]) action
                                ctx'))).
      { intros hc' ctx'. apply IH; [exact Hat|]. now rewrite <- app_assoc. }
      destruct c; try discriminate Ec;
        cbn [internalValidateProperties cardClass id _items _selectAction
             _actionCollection card version typeNameValue isCardElementContainer
             isContainer isInput hasActionCollection isContainerWithActions andb orb];
        repeat first
          [ lazymatch goal with
            | |- Reported _ _ (failures (forEachIndexed _ acts 0%nat _)) =>
                apply (forEachIndexed_reaches
                         (fun ctx => Reported p e (failures ctx)) _ _ 0%nat _ k action Hk);
                [intros ?; cbn [Nat.add]; apply IH'
                |intros ? ? ? ?; repeat mono_stage; assumption]
            end
          | mono_stage ].
    + destruct c; try discriminate Hat. destruct cd as [theCard|]; [|discriminate].
      assert (IH' : forall hc' ctx',
                 Reported p e
                   (failures (internalValidateProperties G hc' (this ++ [CardOf]) theCard
                                ctx'))).
      { intros hc' ctx'. apply IH; [exact Hat|]. now rewrite <- app_assoc. }
      cbn [internalValidateProperties cardClass id _items _selectAction
           _actionCollection card version typeNameValue isCardElementContainer
           isContainer isInput hasActionCollection isContainerWithActions andb orb].
      apply IH'.
Qed.

End Reached.

Lemma input_without_id_local G x hc this ctx :
  isInput (cardClass x) = true ->
  Utils.isNullOrEmpty (id x) = true ->
  Reported this
    (MkValidationError Enums.PropertyCantBeNull "All inputs must have a unique Id")
    (failures (internalValidateProperties G hc this x ctx)).
Proof.
  intros Hin Hid. destruct x as [c tn i rq sf hcfg v sa items acts cd fb].
  cbn [cardClass id] in Hin, Hid.
  destruct c; try discriminate Hin;
    cbn [internalValidateProperties cardClass id _items _selectAction
         _actionCollection card version typeNameValue isCardElementContainer
         isContainer isInput hasActionCollection isContainerWithActions andb orb];
    rewrite Hid; cbn [whenb]; exact (AddFailureFacts.addFailure_reported _ _ _).
Qed.

End PlaceFacts.


